(** * schedule_me: the intent-to-action pipeline and its timezone contract

    A shallow embedding of the agents of the calendar assistant
    (src/agents/*.py, src/timezone_manager.py) and the properties the
    specification states about them.

    Conventions of the embedding.
    - A Python [str] is a Rocq [string] whose characters are the code
      points U+0000..U+00FF; text outside Latin-1 is beyond the model.
    - A Python exception is a value of [exn]; code that can raise returns
      a [result]; [try ... except Exception] is a match on it.
    - The chat-completion endpoint and the calendar provider are external
      black boxes: what a call produced is a parameter of the embedding
      (a [completion], a [calendar_service]).  Prompts are pure text built
      from the arguments and are not modelled.
    - A [datetime] is its wall-clock reading in microseconds on the
      proleptic Gregorian calendar, with the UTC offset of its tzinfo when
      it is zone-aware.  Arithmetic that leaves the years 1 to 9999
      raises OverflowError, as in Python. *)

From Stdlib Require Import ZArith Ascii String List Bool Lia.
From stdpp Require Import base option gmap strings list.

Local Open Scope string_scope.
Local Open Scope Z_scope.

(** ** Exceptions and fallible computations *)

Inductive exn : Type :=
| APIError (msg : string)        (* raised by the completion client *)
| HttpError (msg : string)       (* googleapiclient.errors.HttpError *)
| ProviderError (msg : string)   (* any other failure of a provider call *)
| SqliteError (msg : string)
| IndexError
| KeyError (key : string)
| AttributeError (attr : string)  (* an attribute looked up on None *)
| TypeError (msg : string)
| ValueError (msg : string)
| OverflowError (msg : string)
| JSONDecodeError.

(** [str(e)].  The position-dependent text of a JSONDecodeError is not
    modelled. *)
Definition str_exn (e : exn) : string :=
  match e with
  | APIError m | HttpError m | ProviderError m | SqliteError m => m
  | IndexError => "list index out of range"
  | KeyError k => "'" +:+ k +:+ "'"
  | AttributeError a => "'NoneType' object has no attribute '" +:+ a +:+ "'"
  | TypeError m | ValueError m | OverflowError m => m
  | JSONDecodeError => "JSONDecodeError"
  end.

Inductive result (A : Type) : Type :=
| Ok (a : A)
| Raise (e : exn).
Arguments Ok {A} a.
Arguments Raise {A} e.

Definition rbind {A B} (r : result A) (k : A -> result B) : result B :=
  match r with
  | Ok a => k a
  | Raise e => Raise e
  end.

#[global] Instance result_bind : MBind result := fun A B k r => rbind r k.
#[global] Instance result_ret : MRet result := @Ok.

Definition of_option {A} (e : exn) (o : option A) : result A :=
  match o with
  | Some a => Ok a
  | None => Raise e
  end.

(** [rmapM f l]: a [for] loop that builds a list, stopping at the first
    exception. *)
Fixpoint rmapM {A B} (f : A -> result B) (l : list A) : result (list B) :=
  match l with
  | [] => Ok []
  | a :: l' => b ← f a; bs ← rmapM f l'; Ok (b :: bs)
  end.

(** [rfoldl f b l]: a [for] loop that updates a state, stopping at the
    first exception. *)
Fixpoint rfoldl {A B} (f : B -> A -> result B) (b : B) (l : list A) : result B :=
  match l with
  | [] => Ok b
  | a :: l' => b' ← f b a; rfoldl f b' l'
  end.

(** ** Python string operations *)

Module PyStr.

Definition code (c : ascii) : N := N_of_ascii c.

(** [str.isspace] on U+0000..U+00FF. *)
Definition isspace (c : ascii) : bool :=
  let n := code c in
  ((9 <=? n) && (n <=? 13) || (28 <=? n) && (n <=? 32)
   || (n =? 133) || (n =? 160))%N.

(** [str.isdecimal] on U+0000..U+00FF, which is also what [\d] matches
    there: the digits 0 to 9. *)
Definition isdecimal (c : ascii) : bool :=
  let n := code c in ((48 <=? n) && (n <=? 57))%N.

(** [str.lower] on U+0000..U+00FF: A-Z and the Latin-1 capitals except
    the multiplication sign. *)
Definition lower_char (c : ascii) : ascii :=
  let n := code c in
  if ((65 <=? n) && (n <=? 90)
      || (192 <=? n) && (n <=? 222) && negb (n =? 215))%N
  then ascii_of_N (n + 32) else c.

Fixpoint lower (s : string) : string :=
  match s with
  | EmptyString => EmptyString
  | String c s' => String (lower_char c) (lower s')
  end.

Fixpoint lstrip (s : string) : string :=
  match s with
  | EmptyString => EmptyString
  | String c s' => if isspace c then lstrip s' else s
  end.

(** [rstrip] keeps a character when something that is not white space
    follows it. *)
Fixpoint rstrip (s : string) : string :=
  match s with
  | EmptyString => EmptyString
  | String c s' =>
      match rstrip s' with
      | EmptyString => if isspace c then EmptyString else String c EmptyString
      | r => String c r
      end
  end.

Definition strip (s : string) : string := rstrip (lstrip s).

Fixpoint startswith (p s : string) : bool :=
  match p, s with
  | EmptyString, _ => true
  | String a p', String b s' => if Ascii.eqb a b then startswith p' s' else false
  | String _ _, EmptyString => false
  end.

(** [c in s] for a one-character [c]. *)
Fixpoint contains_char (c : ascii) (s : string) : bool :=
  match s with
  | EmptyString => false
  | String b s' => Ascii.eqb c b || contains_char c s'
  end.

(** [s[n:]] *)
Fixpoint drop (n : nat) (s : string) : string :=
  match n, s with
  | O, _ => s
  | S n', String _ s' => drop n' s'
  | S _, EmptyString => EmptyString
  end.

(** [s.split(sep)] for a non-empty [sep]: [skip] counts the characters
    of a matched separator still to be dropped, [cur] is the piece under
    construction. *)
Fixpoint split_aux (sep : string) (skip : nat) (cur : string) (s : string)
  : list string :=
  match s with
  | EmptyString => [cur]
  | String c s' =>
      match skip with
      | S k => split_aux sep k cur s'
      | O =>
          if startswith sep s
          then cur :: split_aux sep (String.length sep - 1) EmptyString s'
          else split_aux sep O (cur +:+ String c EmptyString) s'
      end
  end.

Definition split (sep s : string) : list string :=
  split_aux sep 0 EmptyString s.

(** [s.replace(c, by)] for a one-character [c]. *)
Fixpoint replace_char (c : ascii) (by_ : string) (s : string) : string :=
  match s with
  | EmptyString => EmptyString
  | String b s' =>
      (if Ascii.eqb c b then by_ else String b EmptyString)
        +:+ replace_char c by_ s'
  end.

(** [x in l] for a list of strings. *)
Definition in_list (x : string) (l : list string) : bool :=
  existsb (String.eqb x) l.

(** [str(n)] for a non-negative integer, and zero-padded [%0wd]. *)
Definition digit_char (d : Z) : ascii := ascii_of_N (48 + Z.to_N d).

Fixpoint digits_aux (fuel : nat) (n : Z) (acc : string) : string :=
  match fuel with
  | O => acc
  | S f =>
      let acc' := String (digit_char (n mod 10)) acc in
      if n / 10 =? 0 then acc' else digits_aux f (n / 10) acc'
  end.

Definition of_Z (n : Z) : string :=
  if n <? 0 then "-" +:+ digits_aux (Z.to_nat (Z.log2 (- n)) + 1) (- n) ""
  else digits_aux (Z.to_nat (Z.log2 n) + 1) n "".

Fixpoint zeros (n : nat) : string :=
  match n with
  | O => ""
  | S n' => String "0" (zeros n')
  end.

Definition pad0 (w : nat) (n : Z) : string :=
  let s := of_Z n in zeros (w - String.length s) +:+ s.

Definition squote : ascii := ascii_of_N 39.
Definition dquote : ascii := ascii_of_N 34.
Definition backslash : ascii := ascii_of_N 92.

Definition hex_digit (n : N) : ascii :=
  if (n <? 10)%N then ascii_of_N (48 + n) else ascii_of_N (87 + n).

(** [str.isprintable] on U+0000..U+00FF: not the control characters, the
    no-break space or the soft hyphen. *)
Definition isprintable (c : ascii) : bool :=
  let n := code c in
  ((32 <=? n) && (n <=? 126) || (161 <=? n) && negb (n =? 173))%N.

(** One character of [repr(s)] between the quotes [quote]. *)
Definition repr_char (quote c : ascii) : string :=
  let n := code c in
  if Ascii.eqb c quote || Ascii.eqb c backslash
  then String backslash (String c EmptyString)
  else if (n =? 9)%N then String backslash "t"
  else if (n =? 10)%N then String backslash "n"
  else if (n =? 13)%N then String backslash "r"
  else if isprintable c then String c EmptyString
  else String backslash
         (String "x" (String (hex_digit (n / 16))
            (String (hex_digit (n mod 16)) EmptyString))).

Fixpoint repr_chars (quote : ascii) (s : string) : string :=
  match s with
  | EmptyString => EmptyString
  | String c s' => repr_char quote c +:+ repr_chars quote s'
  end.

(** [repr(s)], which [%r] prints: between single quotes, or between
    double quotes when the text has a single quote and no double one. *)
Definition repr (s : string) : string :=
  let quote :=
    if contains_char squote s && negb (contains_char dquote s)
    then dquote else squote in
  String quote (repr_chars quote s +:+ String quote EmptyString).

End PyStr.

(** ** Backtracking matchers

    [datetime.strptime] compiles its format to a regular expression and
    takes the first match the backtracking search finds: a matcher returns
    every way to consume a prefix, in the order the search tries them. *)

Module Re.

Definition P (A : Type) : Type := string -> list (A * string).

Definition ret {A} (a : A) : P A := fun s => [(a, s)].

Definition bind {A B} (p : P A) (k : A -> P B) : P B :=
  fun s => flat_map (fun '(a, r) => k a r) (p s).

Definition alt {A} (p q : P A) : P A := fun s => (p s ++ q s)%list.

Definition sat (f : ascii -> bool) : P ascii :=
  fun s =>
    match s with
    | String c s' => if f c then [(c, s')] else []
    | EmptyString => []
    end.

Definition chr (c : ascii) : P unit :=
  bind (sat (Ascii.eqb c)) (fun _ => ret tt).

(** One digit whose value lies in [lo..hi]. *)
Definition dig (lo hi : Z) : P Z :=
  bind (sat PyStr.isdecimal) (fun c =>
    let v := Z.of_N (PyStr.code c - 48) in
    if (lo <=? v) && (v <=? hi) then ret v else fun _ => []).

Definition digit : P Z := dig 0 9.

Definition two (p q : P Z) : P Z :=
  bind p (fun a => bind q (fun b => ret (10 * a + b))).

Definition d2 : P Z := two digit digit.

Definition d4 : P Z :=
  bind d2 (fun a => bind d2 (fun b => ret (100 * a + b))).

(** [\s+], greedy: the longest run first. *)
Fixpoint spaces1 (s : string) : list (unit * string) :=
  match s with
  | String c s' => if PyStr.isspace c then (spaces1 s' ++ [(tt, s')])%list else []
  | EmptyString => []
  end.

Definition opt {A} (d : A) (p : P A) : P A := alt p (ret d).

Definition eof : P unit :=
  fun s => match s with EmptyString => [(tt, s)] | _ => [] end.

End Re.

(** ** datetime *)

Module PyTime.

(** Microseconds. *)
Definition timedelta : Type := Z.

Definition us_second : Z := 1000000.
Definition us_minute : Z := 60 * us_second.
Definition us_hour : Z := 60 * us_minute.
Definition us_day : Z := 24 * us_hour.

(** [datetime.min] is 0001-01-01 00:00:00 and [datetime.max] is
    9999-12-31 23:59:59.999999: the days 1 to [_MAXORDINAL] of the
    calendar.  A reading outside is no datetime. *)
Definition MAXORDINAL : Z := 3652059.

Definition in_range (w : Z) : bool :=
  (us_day <=? w) && (w <? (MAXORDINAL + 1) * us_day).

(** What the arithmetic of datetime raises for a result out of range. *)
Definition overflow : exn := OverflowError "date value out of range".

(** A naive datetime is a wall-clock reading; an aware one carries the
    UTC offset of its tzinfo as well (both in microseconds). *)
Inductive datetime : Type :=
| Naive (wall : Z)
| Aware (wall : Z) (utcoffset : Z).

Definition wall_of (dt : datetime) : Z :=
  match dt with Naive w | Aware w _ => w end.

(** The instant an aware datetime denotes, as the reading of a UTC
    clock. *)
Definition utc_instant (w off : Z) : Z := w - off.

(** *** The proleptic Gregorian calendar, as in CPython's datetime.py *)

Definition is_leap (y : Z) : bool :=
  (y mod 4 =? 0) && (negb (y mod 100 =? 0) || (y mod 400 =? 0)).

Definition days_before_year (y : Z) : Z :=
  let y' := y - 1 in y' * 365 + y' / 4 - y' / 100 + y' / 400.

Definition days_in_month (y m : Z) : Z :=
  if m =? 2 then (if is_leap y then 29 else 28)
  else if (m =? 4) || (m =? 6) || (m =? 9) || (m =? 11) then 30
  else 31.

Definition days_before_month_common (m : Z) : Z :=
  match m with
  | 1 => 0 | 2 => 31 | 3 => 59 | 4 => 90 | 5 => 120 | 6 => 151
  | 7 => 181 | 8 => 212 | 9 => 243 | 10 => 273 | 11 => 304 | 12 => 334
  | _ => 0
  end.

Definition days_before_month (y m : Z) : Z :=
  days_before_month_common m + (if (2 <? m) && is_leap y then 1 else 0).

(** [_ymd2ord]: 0001-01-01 is day 1. *)
Definition ymd2ord (y m d : Z) : Z :=
  days_before_year y + days_before_month y m + d.

(** [_ord2ymd] *)
Definition ord2ymd (n : Z) : Z * Z * Z :=
  let n := n - 1 in
  let n400 := n / 146097 in let n := n mod 146097 in
  let n100 := n / 36524 in let n := n mod 36524 in
  let n4 := n / 1461 in let n := n mod 1461 in
  let n1 := n / 365 in let n := n mod 365 in
  let year := n400 * 400 + 1 + n100 * 100 + n4 * 4 + n1 in
  if (n1 =? 4) || (n100 =? 4) then (year - 1, 12, 31)
  else
    let leapyear := (n1 =? 3) && (negb (n4 =? 24) || (n100 =? 3)) in
    let month := Z.shiftr (n + 50) 5 in
    let preceding :=
      days_before_month_common month
      + (if (2 <? month) && leapyear then 1 else 0) in
    if n <? preceding
    then
      let month' := month - 1 in
      let dim :=
        (if month' =? 2 then 28
         else if (month' =? 4) || (month' =? 6) || (month' =? 9)
                 || (month' =? 11) then 30 else 31)
        + (if (month' =? 2) && leapyear then 1 else 0) in
      (year, month', n - (preceding - dim) + 1)
    else (year, month, n - preceding + 1).

Record fields : Type := {
  year : Z; month : Z; day : Z;
  hour : Z; minute : Z; second : Z; microsecond : Z
}.

Definition wall_of_fields (f : fields) : Z :=
  ymd2ord (year f) (month f) (day f) * us_day
  + hour f * us_hour + minute f * us_minute + second f * us_second
  + microsecond f.

Definition fields_of_wall (w : Z) : fields :=
  let '(y, m, d) := ord2ymd (w / us_day) in
  let r := w mod us_day in
  {| year := y; month := m; day := d;
     hour := r / us_hour;
     minute := (r mod us_hour) / us_minute;
     second := (r mod us_minute) / us_second;
     microsecond := r mod us_second |}.

(** The checks of the [datetime(...)] constructor. *)
Definition check_fields (f : fields) : result Z :=
  if negb ((1 <=? year f) && (year f <=? 9999))
  then Raise (ValueError ("year " +:+ PyStr.of_Z (year f) +:+ " is out of range"))
  else if negb ((1 <=? month f) && (month f <=? 12))
  then Raise (ValueError "month must be in 1..12")
  else if negb ((1 <=? day f) && (day f <=? days_in_month (year f) (month f)))
  then Raise (ValueError "day is out of range for month")
  else if negb ((0 <=? hour f) && (hour f <=? 23))
  then Raise (ValueError "hour must be in 0..23")
  else if negb ((0 <=? minute f) && (minute f <=? 59))
  then Raise (ValueError "minute must be in 0..59")
  else if negb ((0 <=? second f) && (second f <=? 59))
  then Raise (ValueError "second must be in 0..59")
  else if negb ((0 <=? microsecond f) && (microsecond f <=? 999999))
  then Raise (ValueError "microsecond must be in 0..999999")
  else Ok (wall_of_fields f).

(** *** Arithmetic and comparison *)

(** [dt + td] keeps the tzinfo and moves the wall clock; the result must
    be a datetime. *)
Definition add (dt : datetime) (td : timedelta) : result datetime :=
  let w := wall_of dt + td in
  if in_range w then
    Ok match dt with
       | Naive _ => Naive w
       | Aware _ off => Aware w off
       end
  else Raise overflow.

(** [a - b] *)
Definition sub (a b : datetime) : result timedelta :=
  match a, b with
  | Naive wa, Naive wb => Ok (wa - wb)
  | Aware wa oa, Aware wb ob => Ok (utc_instant wa oa - utc_instant wb ob)
  | _, _ =>
      Raise (TypeError "can't subtract offset-naive and offset-aware datetimes")
  end.

(** [a < b] *)
Definition lt (a b : datetime) : result bool :=
  match a, b with
  | Naive wa, Naive wb => Ok (wa <? wb)
  | Aware wa oa, Aware wb ob => Ok (utc_instant wa oa <? utc_instant wb ob)
  | _, _ =>
      Raise (TypeError "can't compare offset-naive and offset-aware datetimes")
  end.

(** [a > b] *)
Definition gt (a b : datetime) : result bool := lt b a.

(** [dt.replace(tzinfo=timezone.utc)] *)
Definition replace_tzinfo_utc (dt : datetime) : datetime :=
  Aware (wall_of dt) 0.

(** *** Formatting *)

(** [%Y] as the C library prints it (no padding), the other fields on
    two digits. *)
Definition strftime_date (f : fields) : string :=
  PyStr.of_Z (year f) +:+ "-" +:+ PyStr.pad0 2 (month f)
    +:+ "-" +:+ PyStr.pad0 2 (day f).

Definition strftime_time (f : fields) : string :=
  PyStr.pad0 2 (hour f) +:+ ":" +:+ PyStr.pad0 2 (minute f)
    +:+ ":" +:+ PyStr.pad0 2 (second f).

(** [dt.strftime('%Y-%m-%d %H:%M:%S')] *)
Definition strftime_sqlite (dt : datetime) : string :=
  let f := fields_of_wall (wall_of dt) in
  strftime_date f +:+ " " +:+ strftime_time f.

(** [dt.strftime('%Y-%m-%dT%H:%M:%SZ')] *)
Definition strftime_rfc (dt : datetime) : string :=
  let f := fields_of_wall (wall_of dt) in
  strftime_date f +:+ "T" +:+ strftime_time f +:+ "Z".

(** *** Parsing *)

(** The regular expression [_strptime] builds for
    ['%Y-%m-%d %H:%M:%S']:
    [(\d\d\d\d)-(1[0-2]|0[1-9]|[1-9])-(3[01]|[12]\d|0[1-9]|[1-9]| [1-9])\s+(2[0-3]|[0-1]\d|\d):([0-5]\d|\d):(6[0-1]|[0-5]\d|\d)] *)
Definition re_Y : Re.P Z := Re.d4.

Definition re_m : Re.P Z :=
  Re.alt (Re.two (Re.dig 1 1) (Re.dig 0 2))
    (Re.alt (Re.two (Re.dig 0 0) (Re.dig 1 9)) (Re.dig 1 9)).

Definition re_d : Re.P Z :=
  Re.alt (Re.two (Re.dig 3 3) (Re.dig 0 1))
    (Re.alt (Re.two (Re.dig 1 2) Re.digit)
       (Re.alt (Re.two (Re.dig 0 0) (Re.dig 1 9))
          (Re.alt (Re.dig 1 9)
             (Re.bind (Re.chr " ") (fun _ => Re.dig 1 9))))).

Definition re_H : Re.P Z :=
  Re.alt (Re.two (Re.dig 2 2) (Re.dig 0 3))
    (Re.alt (Re.two (Re.dig 0 1) Re.digit) Re.digit).

Definition re_M : Re.P Z :=
  Re.alt (Re.two (Re.dig 0 5) Re.digit) Re.digit.

Definition re_S : Re.P Z :=
  Re.alt (Re.two (Re.dig 6 6) (Re.dig 0 1))
    (Re.alt (Re.two (Re.dig 0 5) Re.digit) Re.digit).

Definition re_sqlite : Re.P fields :=
  Re.bind re_Y (fun y => Re.bind (Re.chr "-") (fun _ =>
  Re.bind re_m (fun m => Re.bind (Re.chr "-") (fun _ =>
  Re.bind re_d (fun d => Re.bind Re.spaces1 (fun _ =>
  Re.bind re_H (fun h => Re.bind (Re.chr ":") (fun _ =>
  Re.bind re_M (fun mi => Re.bind (Re.chr ":") (fun _ =>
  Re.bind re_S (fun sec =>
  Re.ret {| year := y; month := m; day := d; hour := h; minute := mi;
            second := sec; microsecond := 0 |}))))))))))).

(** [datetime.strptime(s, '%Y-%m-%d %H:%M:%S')]: the first match of the
    expression must end at the end of the data, and the fields must
    make a date. *)
Definition strptime_sqlite (s : string) : result datetime :=
  match re_sqlite s with
  | [] =>
      Raise (ValueError ("time data " +:+ PyStr.repr s
                           +:+ " does not match format '%Y-%m-%d %H:%M:%S'"))
  | (f, EmptyString) :: _ => w ← check_fields f; Ok (Naive w)
  | (_, (String _ _) as rest) :: _ =>
      Raise (ValueError ("unconverted data remains: " +:+ rest))
  end.

(** [datetime.fromisoformat], by its documented grammar
    [YYYY-MM-DD[*HH[:MM[:SS[.fff[fff]]]][+HH:MM[:SS[.ffffff]]]]]
    (CPython 3.7 to 3.10; later versions accept more spellings). *)
Definition iso_date : Re.P (Z * Z * Z) :=
  Re.bind Re.d4 (fun y => Re.bind (Re.chr "-") (fun _ =>
  Re.bind Re.d2 (fun m => Re.bind (Re.chr "-") (fun _ =>
  Re.bind Re.d2 (fun d => Re.ret (y, m, d)))))).

Definition d3 : Re.P Z :=
  Re.bind Re.digit (fun a => Re.bind Re.d2 (fun b => Re.ret (100 * a + b))).

(** [.fff[fff]] *)
Definition iso_fraction : Re.P Z :=
  Re.bind (Re.chr ".") (fun _ =>
    Re.alt (Re.bind d3 (fun a => Re.bind d3 (fun b => Re.ret (1000 * a + b))))
           (Re.bind d3 (fun a => Re.ret (1000 * a)))).

(** [HH[:MM[:SS[.fff[fff]]]]] as hour, minute, second, microsecond. *)
Definition iso_hms (fraction : Re.P Z) : Re.P (Z * Z * Z * Z) :=
  Re.bind Re.d2 (fun h =>
    Re.opt (h, 0, 0, 0)
      (Re.bind (Re.chr ":") (fun _ => Re.bind Re.d2 (fun mi =>
         Re.opt (h, mi, 0, 0)
           (Re.bind (Re.chr ":") (fun _ => Re.bind Re.d2 (fun sec =>
              Re.bind (Re.opt 0 fraction) (fun us =>
                Re.ret (h, mi, sec, us))))))))).

(** [+HH:MM[:SS[.ffffff]]], as a signed count of microseconds. *)
Definition iso_offset : Re.P Z :=
  Re.bind (Re.alt (Re.bind (Re.chr "+") (fun _ => Re.ret 1))
                  (Re.bind (Re.chr "-") (fun _ => Re.ret (-1)))) (fun sign =>
  Re.bind Re.d2 (fun h => Re.bind (Re.chr ":") (fun _ =>
  Re.bind Re.d2 (fun mi =>
  Re.bind (Re.opt (0, 0)
             (Re.bind (Re.chr ":") (fun _ => Re.bind Re.d2 (fun sec =>
                Re.bind (Re.opt 0
                   (Re.bind (Re.chr ".") (fun _ =>
                      Re.bind d3 (fun a => Re.bind d3 (fun b =>
                        Re.ret (1000 * a + b))))))
                  (fun us => Re.ret (sec, us)))))) (fun '(sec, us) =>
  Re.ret (sign * (h * us_hour + mi * us_minute + sec * us_second + us))))))).

Definition iso_datetime : Re.P (fields * option Z) :=
  Re.bind iso_date (fun '(y, m, d) =>
    Re.alt
      (Re.bind Re.eof (fun _ =>
         Re.ret ({| year := y; month := m; day := d; hour := 0; minute := 0;
                    second := 0; microsecond := 0 |}, None)))
      (Re.bind (Re.sat (fun _ => true)) (fun _ =>
       Re.bind (iso_hms iso_fraction) (fun '(h, mi, sec, us) =>
       Re.bind (Re.alt (Re.bind Re.eof (fun _ => Re.ret None))
                       (Re.bind iso_offset (fun o =>
                        Re.bind Re.eof (fun _ => Re.ret (Some o)))))
         (fun off =>
            Re.ret ({| year := y; month := m; day := d; hour := h;
                       minute := mi; second := sec; microsecond := us |},
                    off)))))).

(** [repr(td)] *)
Definition repr_timedelta (td : timedelta) : string :=
  let part (name : string) (v : Z) : list string :=
    if v =? 0 then [] else [name +:+ "=" +:+ PyStr.of_Z v] in
  match
    (part "days" (td / us_day) ++ part "seconds" (td mod us_day / us_second)
       ++ part "microseconds" (td mod us_second))%list
  with
  | [] => "datetime.timedelta(0)"
  | p :: ps =>
      "datetime.timedelta("
        +:+ fold_left (fun acc q => acc +:+ ", " +:+ q) ps p +:+ ")"
  end.

(** The tzinfo is built before the datetime is, so an offset of a day or
    more is reported first. *)
Definition fromisoformat (s : string) : result datetime :=
  match iso_datetime s with
  | [] => Raise (ValueError ("Invalid isoformat string: " +:+ PyStr.repr s))
  | ((f, off), _) :: _ =>
      match off with
      | None => w ← check_fields f; Ok (Naive w)
      | Some o =>
          if (- us_day <? o) && (o <? us_day)
          then w ← check_fields f; Ok (Aware w o)
          else
            Raise (ValueError
                     ("offset must be a timedelta strictly between "
                        +:+ "-timedelta(hours=24) and timedelta(hours=24), not "
                        +:+ repr_timedelta o +:+ "."))
      end
  end.

End PyTime.

(** ** JSON values, [json.loads] and [json.dumps] *)

Module Json.

#[local] Set Warnings "-register-all".

(** A number keeps its lexeme (Python turns it into an int or a
    float); an object keeps its members in source order. *)
Inductive json : Type :=
| JNull
| JBool (b : bool)
| JNum (lexeme : string)
| JStr (s : string)
| JArr (items : list json)
| JObj (members : list (string * json)).

Definition dquote : ascii := ascii_of_N 34.
Definition backslash : ascii := ascii_of_N 92.

(** [d.get(key)] on the dict of an object: the last member wins. *)
Fixpoint lookup_members (key : string) (ms : list (string * json))
  : option json :=
  match ms with
  | [] => None
  | (k, v) :: ms' =>
      match lookup_members key ms' with
      | Some v' => Some v'
      | None => if String.eqb k key then Some v else None
      end
  end.

(** [key in value], for a value that is a dict. *)
Definition has_key (key : string) (j : json) : bool :=
  match j with
  | JObj ms => match lookup_members key ms with Some _ => true | None => false end
  | _ => false
  end.

(** The white space of the JSON grammar. *)
Definition is_ws (c : ascii) : bool :=
  let n := PyStr.code c in ((n =? 32) || (n =? 9) || (n =? 10) || (n =? 13))%N.

Fixpoint skip_ws (s : string) : string :=
  match s with
  | String c s' => if is_ws c then skip_ws s' else s
  | EmptyString => s
  end.

Fixpoint take_digits (s : string) : string * string :=
  match s with
  | String c s' =>
      if PyStr.isdecimal c
      then let '(d, r) := take_digits s' in (String c d, r)
      else (EmptyString, s)
  | EmptyString => (EmptyString, s)
  end.

(** [NUMBER_RE] at the head of [s]: an optional minus sign, then 0 or a
    non-zero digit and the digits after it; then, each optional, a
    fraction and an exponent, both with at least one digit. *)
Definition scan_int (s : string) : option (string * string) :=
  let '(sign, r) :=
    match s with
    | String "-" r => ("-", r)
    | _ => (EmptyString, s)
    end in
  match r with
  | String "0" r' => Some (sign +:+ "0", r')
  | String c _ =>
      if PyStr.isdecimal c
      then let '(d, r') := take_digits r in Some (sign +:+ d, r')
      else None
  | EmptyString => None
  end.

Definition scan_frac (s : string) : string * string :=
  match s with
  | String "." r =>
      match take_digits r with
      | (EmptyString, _) => (EmptyString, s)
      | (d, r') => ("." +:+ d, r')
      end
  | _ => (EmptyString, s)
  end.

Definition scan_exp (s : string) : string * string :=
  match s with
  | String e r =>
      if Ascii.eqb e "e" || Ascii.eqb e "E"
      then
        let '(sign, r1) :=
          match r with
          | String "+" r1 => ("+", r1)
          | String "-" r1 => ("-", r1)
          | _ => (EmptyString, r)
          end in
        match take_digits r1 with
        | (EmptyString, _) => (EmptyString, s)
        | (d, r') => (String e sign +:+ d, r')
        end
      else (EmptyString, s)
  | EmptyString => (EmptyString, s)
  end.

Definition scan_number (s : string) : option (string * string) :=
  match scan_int s with
  | None => None
  | Some (i, r) =>
      let '(f, r1) := scan_frac r in
      let '(e, r2) := scan_exp r1 in
      Some (i +:+ f +:+ e, r2)
  end.

Definition hex_value (c : ascii) : option N :=
  let n := PyStr.code c in
  if ((48 <=? n) && (n <=? 57))%N then Some (n - 48)%N
  else if ((97 <=? n) && (n <=? 102))%N then Some (n - 87)%N
  else if ((65 <=? n) && (n <=? 70))%N then Some (n - 55)%N
  else None.

(** The four hexadecimal digits of a [\u] escape. *)
Definition scan_hex4 (s : string) : option (N * string) :=
  match s with
  | String a (String b (String c (String d r))) =>
      match hex_value a, hex_value b, hex_value c, hex_value d with
      | Some x, Some y, Some z, Some w =>
          Some (((x * 16 + y) * 16 + z) * 16 + w, r)%N
      | _, _, _, _ => None
      end
  | _ => None
  end.

(** [py_scanstring] in strict mode, after the opening quote.  An escape
    for a code point above U+00FF is outside the strings of this
    embedding and is reported as a decoding error. *)
Fixpoint scanstring (s : string) : result (string * string) :=
  match s with
  | EmptyString => Raise JSONDecodeError
  | String c r =>
      if Ascii.eqb c dquote then Ok (EmptyString, r)
      else if Ascii.eqb c backslash then
        match r with
        | String e r' =>
            let simple (x : N) :=
              '(str, rest) ← scanstring r'; Ok (String (ascii_of_N x) str, rest) in
            if Ascii.eqb e dquote then simple 34%N
            else if Ascii.eqb e backslash then simple 92%N
            else if Ascii.eqb e "/" then simple 47%N
            else if Ascii.eqb e "b" then simple 8%N
            else if Ascii.eqb e "f" then simple 12%N
            else if Ascii.eqb e "n" then simple 10%N
            else if Ascii.eqb e "r" then simple 13%N
            else if Ascii.eqb e "t" then simple 9%N
            else if Ascii.eqb e "u" then
              match r' with
              | String a (String b (String c' (String d r'')) as hex) =>
                  match scan_hex4 (String a hex) with
                  | Some (u, _) =>
                      if (u <=? 255)%N
                      then '(str, rest) ← scanstring r'';
                           Ok (String (ascii_of_N u) str, rest)
                      else Raise JSONDecodeError
                  | None => Raise JSONDecodeError
                  end
              | _ => Raise JSONDecodeError
              end
            else Raise JSONDecodeError
        | EmptyString => Raise JSONDecodeError
        end
      else if (PyStr.code c <? 32)%N then Raise JSONDecodeError
      else '(str, rest) ← scanstring r; Ok (String c str, rest)
  end.

Definition scan_literal (s : string) : result (json * string) :=
  if PyStr.startswith "null" s then Ok (JNull, PyStr.drop 4 s)
  else if PyStr.startswith "true" s then Ok (JBool true, PyStr.drop 4 s)
  else if PyStr.startswith "false" s then Ok (JBool false, PyStr.drop 5 s)
  else
    match scan_number s with
    | Some (lexeme, r) => Ok (JNum lexeme, r)
    | None =>
        if PyStr.startswith "NaN" s then Ok (JNum "NaN", PyStr.drop 3 s)
        else if PyStr.startswith "Infinity" s
        then Ok (JNum "Infinity", PyStr.drop 8 s)
        else if PyStr.startswith "-Infinity" s
        then Ok (JNum "-Infinity", PyStr.drop 9 s)
        else Raise JSONDecodeError
    end.

(** [scan_once], [JSONObject] and [JSONArray]; the fuel bounds the number
    of nested and successive values. *)
Fixpoint scan_once (fuel : nat) (s : string) {struct fuel}
  : result (json * string) :=
  match fuel with
  | O => Raise JSONDecodeError
  | S f =>
      match s with
      | String c r =>
          if Ascii.eqb c dquote
          then '(str, r') ← scanstring r; Ok (JStr str, r')
          else if Ascii.eqb c "{" then
            match skip_ws r with
            | String "}" r' => Ok (JObj [], r')
            | r' => '(ms, r'') ← scan_members f r'; Ok (JObj ms, r'')
            end
          else if Ascii.eqb c "[" then
            match skip_ws r with
            | String "]" r' => Ok (JArr [], r')
            | r' => '(xs, r'') ← scan_items f r'; Ok (JArr xs, r'')
            end
          else scan_literal s
      | EmptyString => Raise JSONDecodeError
      end
  end
with scan_members (fuel : nat) (s : string) {struct fuel}
  : result (list (string * json) * string) :=
  match fuel with
  | O => Raise JSONDecodeError
  | S f =>
      match s with
      | String q r =>
          if Ascii.eqb q dquote then
            '(key, r1) ← scanstring r;
            match skip_ws r1 with
            | String ":" r2 =>
                '(v, r3) ← scan_once f (skip_ws r2);
                match skip_ws r3 with
                | String "}" r4 => Ok ([(key, v)], r4)
                | String "," r4 =>
                    '(ms, r5) ← scan_members f (skip_ws r4);
                    Ok ((key, v) :: ms, r5)
                | _ => Raise JSONDecodeError
                end
            | _ => Raise JSONDecodeError
            end
          else Raise JSONDecodeError
      | EmptyString => Raise JSONDecodeError
      end
  end
with scan_items (fuel : nat) (s : string) {struct fuel}
  : result (list json * string) :=
  match fuel with
  | O => Raise JSONDecodeError
  | S f =>
      '(v, r1) ← scan_once f s;
      match skip_ws r1 with
      | String "]" r2 => Ok ([v], r2)
      | String "," r2 =>
          '(xs, r3) ← scan_items f (skip_ws r2);
          Ok (v :: xs, r3)
      | _ => Raise JSONDecodeError
      end
  end.

(** [json.loads(s)] *)
Definition loads (s : string) : result json :=
  '(v, r) ← scan_once (S (String.length s)) (skip_ws s);
  match skip_ws r with
  | EmptyString => Ok v
  | String _ _ => Raise JSONDecodeError
  end.

(** [ESCAPE_ASCII] of [json.encoder], the default [ensure_ascii=True]. *)
Definition escape_char (c : ascii) : string :=
  let n := PyStr.code c in
  if Ascii.eqb c dquote then String backslash (String dquote EmptyString)
  else if Ascii.eqb c backslash then String backslash (String backslash EmptyString)
  else if (n =? 10)%N then String backslash "n"
  else if (n =? 13)%N then String backslash "r"
  else if (n =? 9)%N then String backslash "t"
  else if (n =? 12)%N then String backslash "f"
  else if (n =? 8)%N then String backslash "b"
  else if ((32 <=? n) && (n <=? 126))%N then String c EmptyString
  else String backslash
         (String "u" (String "0" (String "0"
            (String (PyStr.hex_digit (n / 16))
               (String (PyStr.hex_digit (n mod 16)) EmptyString))))).

Fixpoint escape (s : string) : string :=
  match s with
  | EmptyString => EmptyString
  | String c s' => escape_char c +:+ escape s'
  end.

Definition dumps_str (s : string) : string :=
  String dquote (escape s +:+ String dquote EmptyString).

Fixpoint join (sep : string) (l : list string) : string :=
  match l with
  | [] => EmptyString
  | [x] => x
  | x :: l' => x +:+ sep +:+ join sep l'
  end.

(** [json.dumps(l)] for a list of strings. *)
Definition dumps_str_list (l : list string) : string :=
  "[" +:+ join ", " (map dumps_str l) +:+ "]".

End Json.

(** ** pytz time zones and the timezone manager (src/timezone_manager.py) *)

Module Pytz.

(** A zone of the tz database: whether it has one offset for all time
    ([pytz.UTC] and the StaticTzInfo zones) or a table of transitions
    (the DstTzInfo zones); the offset in force at a UTC instant (what
    [fromutc] uses); and the offset [localize] picks for a wall-clock
    reading (with the default [is_dst=False]). *)
Record tzinfo : Type := {
  zone : string;
  fixed : bool;
  utcoffset_at_utc : Z -> Z;
  utcoffset_at_wall : Z -> Z
}.

Definition UTC : tzinfo :=
  {| zone := "UTC"; fixed := true; utcoffset_at_utc := fun _ => 0;
     utcoffset_at_wall := fun _ => 0 |}.

(** [tz.fromutc(dt)] for the reading [u] of a UTC clock:
    [dt + offset], with the tzinfo of that offset. *)
Definition fromutc (tz : tzinfo) (u : Z) : result PyTime.datetime :=
  let off := utcoffset_at_utc tz u in
  if PyTime.in_range (u + off) then Ok (PyTime.Aware (u + off) off)
  else Raise PyTime.overflow.

(** [dt.astimezone(tz)] for the aware datetime of reading [w] and
    offset [off]: [dt - dt.utcoffset()], then [tz.fromutc].  When [tz]
    is the very tzinfo object of [dt], Python returns [dt] as it is; the
    embedding does not tell tzinfo objects of equal offset apart and
    takes the general path.  The two agree on every datetime that
    [localize] or [fromutc] placed in the zone and whose UTC instant is
    a datetime, and on every datetime in UTC; a datetime to
    which the zone object of the manager was attached by hand, or one of
    that object within its offset of the ends of the range, is outside
    the embedding. *)
Definition astimezone (tz : tzinfo) (w off : Z) : result PyTime.datetime :=
  let u := PyTime.utc_instant w off in
  if PyTime.in_range u then fromutc tz u else Raise PyTime.overflow.

(** [tz.localize(dt)] for the naive datetime of reading [w], as the
    offset of the tzinfo it attaches.  A zone with one offset attaches
    itself; a zone with transitions first looks for candidates a day
    before and a day after the reading ([dt + timedelta(days=-1)],
    [dt + timedelta(days=1)]). *)
Definition localize (tz : tzinfo) (w : Z) : result Z :=
  if fixed tz
     || PyTime.in_range (w - PyTime.us_day) && PyTime.in_range (w + PyTime.us_day)
  then Ok (utcoffset_at_wall tz w)
  else Raise PyTime.overflow.

End Pytz.

(** What the process reads from its clock: the current instant and the
    wall clock of the machine's local zone, both datetimes. *)
Record clock : Type := {
  utc_now : Z;
  local_now : Z
}.

Module TimezoneManager.

Record t : Type := { user_timezone : Pytz.tzinfo }.

(** [__init__]; [pytz_timezone] is the lookup in the tz database,
    [None] for UnknownTimeZoneError. *)
Definition init (pytz_timezone : string -> option Pytz.tzinfo)
  (timezone_str : option string) : t :=
  match timezone_str with
  | Some (String _ _ as name) =>
      match pytz_timezone name with
      | Some tz => {| user_timezone := tz |}
      | None => {| user_timezone := Pytz.UTC |}
      end
  | _ => {| user_timezone := Pytz.UTC |}
  end.

Definition set_timezone (pytz_timezone : string -> option Pytz.tzinfo)
  (self : t) (timezone_str : string) : t * bool :=
  match pytz_timezone timezone_str with
  | Some tz => ({| user_timezone := tz |}, true)
  | None => (self, false)
  end.

Definition convert_to_user_tz (self : t) (dt : PyTime.datetime)
  : result PyTime.datetime :=
  match dt with
  | PyTime.Naive w =>
      (* pytz.UTC.localize(dt), which attaches UTC; then astimezone *)
      Pytz.astimezone (user_timezone self) w 0
  | PyTime.Aware w off => Pytz.astimezone (user_timezone self) w off
  end.

Definition convert_to_utc (self : t) (dt : PyTime.datetime)
  : result PyTime.datetime :=
  match dt with
  | PyTime.Naive w =>
      off ← Pytz.localize (user_timezone self) w;
      Pytz.astimezone Pytz.UTC w off
  | PyTime.Aware w off => Pytz.astimezone Pytz.UTC w off
  end.

(** [datetime.now(tz)] is [tz.fromutc] of the current instant. *)
Definition now_in_user_tz (self : t) (clk : clock) : result PyTime.datetime :=
  Pytz.fromutc (user_timezone self) (utc_now clk).

Definition format_for_sqlite (self : t) (dt : PyTime.datetime)
  : result string :=
  utc_dt ←
    match dt with
    | PyTime.Naive w =>
        off ← Pytz.localize (user_timezone self) w;
        Pytz.astimezone Pytz.UTC w off
    | PyTime.Aware w off => Pytz.astimezone Pytz.UTC w off
    end;
  Ok (PyTime.strftime_sqlite utc_dt).

Definition parse_from_sqlite (self : t) (sqlite_str : string)
  : result PyTime.datetime :=
  utc_dt ← PyTime.strptime_sqlite sqlite_str;
  (* pytz.UTC.localize(utc_dt), then astimezone *)
  Pytz.astimezone (user_timezone self) (PyTime.wall_of utc_dt) 0.

End TimezoneManager.

(** ** The completion endpoint *)

(** The outcome of one [client.chat.completions.create] request: an
    exception, or a response whose choices carry their message content
    ([None] when the content is null). *)
Inductive completion : Type :=
| CallRaises (e : exn)
| CallReturns (choices : list (option string)).

(** [response.choices[0].message.content.strip()] *)
Definition content_strip (reply : completion) : result string :=
  match reply with
  | CallRaises e => Raise e
  | CallReturns [] => Raise IndexError
  | CallReturns (None :: _) => Raise (AttributeError "strip")
  | CallReturns (Some content :: _) => Ok (PyStr.strip content)
  end.

(** ** Events *)

(** The start or the end of a provider event: a dict with a dateTime or,
    for an all-day event, a date; an absent key is [None]. *)
Record time_field : Type := {
  dateTime : option string;
  date : option string;
  timeZone : option string
}.

(** An event as the calendar provider returns and accepts it. *)
Record provider_event : Type := {
  pe_id : option string;
  pe_summary : option string;
  pe_description : option string;
  pe_location : option string;
  pe_attendees : option (list (option string));   (* the email of each *)
  pe_start : time_field;
  pe_end : time_field;
  pe_status : option string;
  pe_htmlLink : option string
}.

(** The calendar service, as the answers of the provider to the calls of
    the agents. *)
Record calendar_service : Type := {
  (** [events().get(calendarId, eventId).execute()] *)
  events_get : string -> result provider_event;
  (** [events().update(calendarId, eventId, body).execute()] *)
  events_update : string -> provider_event -> result provider_event;
  (** [events().list(calendarId, timeMin, timeMax, singleEvents,
      orderBy).execute()], as the value of its ['items'] key *)
  events_list : string -> string -> result (option (list provider_event))
}.

(** An event as CalendarAgent.get_all_events builds it and hands it on:
    every key is present, the start and the end are datetimes. *)
Record cal_event : Type := {
  ce_id : option string;
  ce_summary : string;
  ce_description : string;
  ce_start : PyTime.datetime;
  ce_end : PyTime.datetime;
  ce_location : string;
  ce_attendees : list string;
  ce_status : string;
  ce_htmlLink : string
}.

(** An event as DatabaseAgent.execute_query returns it. *)
Record db_event : Type := {
  de_id : option string;
  de_summary : string;
  de_description : option string;
  de_start : PyTime.datetime;
  de_end : PyTime.datetime;
  de_location : option string;
  de_attendees : Json.json;
  de_status : option string;
  de_htmlLink : option string
}.

(** ** IntentAgent (src/agents/intent_agent.py) *)

Module IntentAgent.

Record t : Type := { client : completion }.

Definition valid_intents : list string :=
  ["query"; "create"; "modify"; "cancel"; "quit"].

Definition identify_intent (self : t) (user_query : string) : string :=
  match
    content ← content_strip (client self);
    Ok (PyStr.lower content)
  with
  | Ok intent =>
      if negb (PyStr.in_list intent valid_intents) then "query" else intent
  | Raise _ => "query"
  end.

End IntentAgent.

(** ** ResponseAgent and QAAgent *)

(** Both operations format their events into the prompt before the
    [try]; the events of these types have datetimes for start and end, so
    nothing there raises, and the result depends on the events only
    through the fallback. *)

Module ResponseAgent.

Record t : Type := { client : completion }.

Definition generate_response (self : t) (user_query : string)
  (events : list db_event) : string :=
  match content_strip (client self) with
  | Ok text => text
  | Raise _ =>
      match events with
      | _ :: _ =>
          "Found " +:+ PyStr.of_Z (Z.of_nat (length events))
            +:+ " event(s) matching your query."
      | [] => "I don't see any events matching your request."
      end
  end.

End ResponseAgent.

Module QAAgent.

Record t : Type := { client : completion }.

Definition answer (self : t) (user_query : string)
  (events : list cal_event) : string :=
  match content_strip (client self) with
  | Ok text => text
  | Raise e => "Error: " +:+ str_exn e
  end.

End QAAgent.

(** ** SQLAgent (src/agents/sql_agent.py) *)

Module SQLAgent.

Record t : Type := {
  client : completion;
  qa_agent : option QAAgent.t;
  timezone_manager : option TimezoneManager.t
}.

Definition fence : string := "```".

(** The body of the [try]: the text of the reply without its Markdown
    fence. *)
Definition generated_sql (reply : completion) : result string :=
  sql ← content_strip reply;
  if PyStr.startswith fence sql then
    sql1 ← of_option IndexError (PyStr.split fence sql !! 1%nat);
    let sql2 := if PyStr.startswith "sql" sql1 then PyStr.drop 3 sql1 else sql1 in
    Ok (PyStr.strip sql2)
  else Ok sql.

(** [text_to_sql] returns what it prints, line by line, and its
    value.  The schema that goes into the prompt is read from the cache
    file by [_get_schema]; a failure of that read, which prints one more
    line and lets the request go on, is not modelled.  Nor is the date of
    today that [now_in_user_tz] gives for the prompt when a timezone
    manager is configured: the clock is taken to be one whose reading
    the user zone can show. *)
Definition text_to_sql (self : t) (user_query : string)
  (events : option (list cal_event)) : list string * option string :=
  match generated_sql (client self) with
  | Ok sql => ([], Some sql)
  | Raise e =>
      let line1 := "Error generating SQL: " +:+ str_exn e in
      match qa_agent self, events with
      | Some qa, Some ((_ :: _) as evs) =>
          let answer := QAAgent.answer qa user_query evs in
          ([line1; "Using fallback QA agent..."; String (ascii_of_N 10) answer],
           None)
      | _, _ => ([line1], Some "SELECT * FROM events ORDER BY start_time")
      end
  end.

End SQLAgent.

(** ** ValidationAgent (src/agents/validation_agent.py) *)

Module ValidationAgent.

Record t : Type := { client : completion }.

(** The body of the [try]. *)
Definition parsed_reply (reply : completion) : result Json.json :=
  content ← content_strip reply;
  let content1 :=
    if PyStr.startswith "```" content then
      let parts := PyStr.split "```" content in
      let content2 :=
        if (1 <? length parts)%nat then
          match parts !! 1%nat with
          | Some part =>
              if PyStr.startswith "json" part then PyStr.drop 4 part else part
          | None => content
          end
        else content in
      PyStr.strip content2
    else content in
  Json.loads content1.

Definition validate (self : t) (user_query action_type : string)
  (event_data : option db_event) : Json.json :=
  match parsed_reply (client self) with
  | Ok result => result
  | Raise e =>
      Json.JObj [("valid", Json.JBool true);
                 ("message", Json.JStr ("Validation error: " +:+ str_exn e))]
  end.

End ValidationAgent.

(** ** CalendarManagementAgent (src/agents/calendar_management_agent.py) *)

Module CalendarManagementAgent.

Record t : Type := {
  service : calendar_service;
  timezone_manager : option TimezoneManager.t
}.

(** The conversion every operation applies to a datetime it is given;
    without a timezone manager,
    [dt.astimezone(timezone.utc) if dt.tzinfo else dt]. *)
Definition to_utc (self : t) (dt : PyTime.datetime) : result PyTime.datetime :=
  match timezone_manager self with
  | Some tm => TimezoneManager.convert_to_utc tm dt
  | None =>
      match dt with
      | PyTime.Aware w off => Pytz.astimezone Pytz.UTC w off
      | PyTime.Naive _ => Ok dt
      end
  end.

Definition utc_field (rfc : string) : time_field :=
  {| dateTime := Some rfc; date := None; timeZone := Some "UTC" |}.

(** What is sent for a start or an end: the datetime converted to UTC
    and printed with ['%Y-%m-%dT%H:%M:%SZ']. *)
Definition sent_time (self : t) (dt : PyTime.datetime) : result time_field :=
  dt_utc ← to_utc self dt;
  Ok (utc_field (PyTime.strftime_rfc dt_utc)).

(** [f.get('dateTime', f.get('date'))] *)
Definition time_str (f : time_field) : option string :=
  match dateTime f with
  | Some s => Some s
  | None => date f
  end.

(** The start and end of a provider event as datetimes: the [if 'T' in
    ...] block shared by [modify_event] and [check_conflicts]. *)
Definition event_times (event : provider_event)
  : result (PyTime.datetime * PyTime.datetime) :=
  start_str ← of_option (TypeError "argument of type 'NoneType' is not iterable")
                (time_str (pe_start event));
  let end_str := time_str (pe_end event) in
  if PyStr.contains_char "T" start_str then
    event_start ← PyTime.fromisoformat (PyStr.replace_char "Z" "+00:00" start_str);
    end_str' ← of_option (AttributeError "replace") end_str;
    event_end ← PyTime.fromisoformat (PyStr.replace_char "Z" "+00:00" end_str');
    Ok (event_start, event_end)
  else
    event_start ← PyTime.fromisoformat start_str;
    end_str' ← of_option (TypeError "fromisoformat: argument must be str") end_str;
    event_end ← PyTime.fromisoformat end_str';
    Ok (PyTime.replace_tzinfo_utc event_start, PyTime.replace_tzinfo_utc event_end).

(** *** modify_event *)

Record outcome : Type := {
  success : bool;
  event_id : option string;
  summary : option string;
  message : string;
  error : option string
}.


(** The end time [modify_event] works with: the one given, or, when only
    a start is given, the start plus the duration of the original
    event. *)
Definition inferred_end (event : provider_event)
  (start_time end_time : option PyTime.datetime)
  : result (option PyTime.datetime) :=
  match start_time, end_time with
  | Some st, None =>
      '(original_start, original_end) ← event_times event;
      duration ← PyTime.sub original_end original_start;
      new_end ← PyTime.add st duration;
      Ok (Some new_end)
  | _, _ => Ok end_time
  end.

(** The body [modify_event] sends to the provider, from the event it
    read. *)
Definition modify_body (self : t) (event : provider_event)
  (summary : option string) (start_time end_time : option PyTime.datetime)
  (description location : option string) (attendees : option (list string))
  : result provider_event :=
  end_time ← inferred_end event start_time end_time;
  let pe_summary' :=
    match summary with
    | Some (String _ _ as s) => Some s       (* if summary: *)
    | _ => pe_summary event
    end in
  let pe_description' :=
    match description with
    | Some d => Some d                       (* if description is not None: *)
    | None => pe_description event
    end in
  let pe_location' :=
    match location with
    | Some l => Some l
    | None => pe_location event
    end in
  let pe_attendees' :=
    match attendees with
    | Some l => Some (map Some l)
    | None => pe_attendees event
    end in
  pe_start' ←
    match start_time with
    | Some st => sent_time self st
    | None => Ok (pe_start event)
    end;
  pe_end' ←
    match end_time with
    | Some et => sent_time self et
    | None => Ok (pe_end event)
    end;
  Ok {| pe_id := pe_id event;
        pe_summary := pe_summary';
        pe_description := pe_description';
        pe_location := pe_location';
        pe_attendees := pe_attendees';
        pe_start := pe_start';
        pe_end := pe_end';
        pe_status := pe_status event;
        pe_htmlLink := pe_htmlLink event |}.



(** *** check_conflicts *)

Record conflict : Type := {
  c_id : option string;
  c_summary : string;
  c_start : PyTime.datetime;
  c_end : PyTime.datetime;
  c_location : string
}.

(** [exclude_event_id and event_id == exclude_event_id] *)
Definition skipped (exclude_event_id : option string)
  (event_id : option string) : bool :=
  match exclude_event_id with
  | Some (String _ _ as x) =>
      match event_id with
      | Some y => String.eqb y x
      | None => false
      end
  | _ => false
  end.

(** [start_utc < event_end and end_utc > event_start] *)
Definition overlaps (start_utc end_utc event_start event_end : PyTime.datetime)
  : result bool :=
  b ← PyTime.lt start_utc event_end;
  if b : bool then PyTime.gt end_utc event_start else Ok false.

Definition conflict_of (event : provider_event)
  (event_start event_end : PyTime.datetime) : conflict :=
  {| c_id := pe_id event;
     c_summary := default "Untitled Event" (pe_summary event);
     c_start := event_start;
     c_end := event_end;
     c_location := default "" (pe_location event) |}.

(** The [for] loop over the listed events. *)
Fixpoint scan_conflicts (start_utc end_utc : PyTime.datetime)
  (exclude_event_id : option string) (items : list provider_event)
  : result (list conflict) :=
  match items with
  | [] => Ok []
  | event :: rest =>
      if skipped exclude_event_id (pe_id event)
      then scan_conflicts start_utc end_utc exclude_event_id rest
      else
        '(event_start, event_end) ← event_times event;
        b ← overlaps start_utc end_utc event_start event_end;
        conflicts ← scan_conflicts start_utc end_utc exclude_event_id rest;
        Ok (if b : bool
            then conflict_of event event_start event_end :: conflicts
            else conflicts)
  end.

Definition check_conflicts (self : t) (start_time end_time : PyTime.datetime)
  (exclude_event_id : option string) : list conflict :=
  match
    start_utc ← to_utc self start_time;
    end_utc ← to_utc self end_time;
    items ← events_list (service self)
              (PyTime.strftime_rfc start_utc) (PyTime.strftime_rfc end_utc);
    scan_conflicts start_utc end_utc exclude_event_id (default [] items)
  with
  | Ok conflicts => conflicts
  | Raise _ => []
  end.

(** *** create_event *)

(** The body [create_event] sends to the provider; the key [attendees]
    is set only for a non-empty list ([if attendees:]). *)
Definition create_body (self : t) (summary : string)
  (start_time end_time : PyTime.datetime) (description location : string)
  (attendees : option (list string)) : result provider_event :=
  pe_start' ← sent_time self start_time;
  pe_end' ← sent_time self end_time;
  Ok {| pe_id := None;
        pe_summary := Some summary;
        pe_description := Some description;
        pe_location := Some location;
        pe_attendees :=
          match attendees with
          | Some ((_ :: _) as l) => Some (map Some l)
          | _ => None
          end;
        pe_start := pe_start';
        pe_end := pe_end';
        pe_status := None;
        pe_htmlLink := None |}.

(** The dict [create_event] returns for the outcome of its [try];
    [title] is the summary that was asked for. *)
Definition report_created (title : string) (r : result provider_event)
  : outcome :=
  match r with
  | Ok event =>
      match pe_id event with
      | Some (String _ _ as i) =>          (* if event and event.get('id'): *)
          {| success := true;
             event_id := Some i;
             summary := pe_summary event;
             message := "Event '" +:+ title +:+ "' created successfully";
             error := None |}
      | _ =>
          {| success := false; event_id := None; summary := None;
             message := "Failed to create event: No event ID returned";
             error := Some "Event creation returned no event ID" |}
      end
  | Raise (HttpError m) =>
      {| success := false; event_id := None; summary := None;
         message := "Failed to create event: " +:+ m;
         error := Some m |}
  | Raise e =>
      {| success := false; event_id := None; summary := None;
         message := "Error creating event: " +:+ str_exn e;
         error := Some (str_exn e) |}
  end.

(** [events_insert] is the answer of the provider to
    [events().insert(calendarId, body).execute()]. *)
Definition create_event (self : t)
  (events_insert : provider_event -> result provider_event)
  (summary : string) (start_time end_time : PyTime.datetime)
  (description location : string) (attendees : option (list string))
  : outcome :=
  report_created summary
    (event_body ← create_body self summary start_time end_time description
                    location attendees;
     events_insert event_body).

(** *** cancel_event *)

(** A request [cancel_event] makes of the provider. *)
Inductive request : Type :=
| Get (event_id : string)
| Delete (event_id : string).

(** The dict [cancel_event] returns for the outcome of its [try]; on
    success the [try] yields the summary of the event it read. *)
Definition report_cancelled (event_id : string) (r : result string) : outcome :=
  match r with
  | Ok title =>
      {| success := true; event_id := Some event_id; summary := None;
         message := "Event '" +:+ title +:+ "' cancelled successfully";
         error := None |}
  | Raise (HttpError m) =>
      {| success := false; event_id := None; summary := None;
         message := "Failed to cancel event: " +:+ m;
         error := Some m |}
  | Raise e =>
      {| success := false; event_id := None; summary := None;
         message := "Error cancelling event: " +:+ str_exn e;
         error := Some (str_exn e) |}
  end.

(** [cancel_event] with the requests it made, in order; [events_delete]
    is the answer of the provider to
    [events().delete(calendarId, eventId).execute()]. *)
Definition cancel_event (self : t) (events_delete : string -> result unit)
  (event_id : string) : outcome * list request :=
  match events_get (service self) event_id with
  | Raise e => (report_cancelled event_id (Raise e), [Get event_id])
  | Ok event =>
      let title := default "Event" (pe_summary event) in
      (report_cancelled event_id (_ ← events_delete event_id; Ok title),
       [Get event_id; Delete event_id])
  end.

End CalendarManagementAgent.

(** ** The cache: the table [events] (src/database.py) *)

Module Cache.

(** A row of the table [events] of the cache (src/database.py); a
    nullable column is an [option]. *)
Record row : Type := {
  id : option string;
  summary : string;
  description : option string;
  start_time : string;
  end_time : string;
  location : option string;
  attendees : option string;
  status : option string;
  html_link : option string;
  created_at : string;
  updated_at : string
}.

(** The table: [id TEXT PRIMARY KEY] makes the rows with an id unique by
    it; SQLite lets any number of rows have a NULL id. *)
Record table : Type := {
  keyed : gmap string row;
  null_id : list row
}.

Definition empty : table := {| keyed := ∅; null_id := [] |}.

(** [SELECT created_at FROM events WHERE id = ?] *)
Definition select_created_at (tbl : table) (key : option string)
  : option string :=
  match key with
  | Some k => created_at <$> keyed tbl !! k
  | None => None
  end.

(** [INSERT OR REPLACE INTO events ... VALUES ...] *)
Definition insert_or_replace (tbl : table) (r : row) : table :=
  match id r with
  | Some k => {| keyed := <[k := r]> (keyed tbl); null_id := null_id tbl |}
  | None => {| keyed := keyed tbl; null_id := null_id tbl ++ [r] |}
  end.

(** [clear_all_events] *)
Definition clear_all_events (tbl : table) : table := empty.

End Cache.

(** ** CalendarAgent._store_events (src/agents/calendar_agent.py) *)

Module CalendarAgent.

Record t : Type := {
  timezone_manager : option TimezoneManager.t
}.

(** The text stored for a start or an end.  The start and the end of a
    [cal_event] are datetimes, so the [isinstance] test holds and the
    branch that stores a text as it is does not arise. *)
Definition time_text (self : t) (dt : PyTime.datetime) : result string :=
  match timezone_manager self with
  | Some tm => TimezoneManager.format_for_sqlite tm dt
  | None => Ok (PyTime.strftime_sqlite dt)
  end.

Definition now_text (self : t) (clk : clock) : result string :=
  match timezone_manager self with
  | Some tm =>
      now ← TimezoneManager.now_in_user_tz tm clk;
      TimezoneManager.format_for_sqlite tm now
  | None => Ok (PyTime.strftime_sqlite (PyTime.Naive (local_now clk)))
  end.

(** One turn of the loop: the two times are formatted, then the
    statement [INSERT OR REPLACE ... COALESCE((SELECT created_at FROM
    events WHERE id = ?), ?), ?] runs with its parameters. *)
Definition store_event (self : t) (now : string) (tbl : Cache.table)
  (event : cal_event) : result Cache.table :=
  start_time ← time_text self (ce_start event);
  end_time ← time_text self (ce_end event);
  Ok (Cache.insert_or_replace tbl
        {| Cache.id := ce_id event;
           Cache.summary := ce_summary event;
           Cache.description := Some (ce_description event);
           Cache.start_time := start_time;
           Cache.end_time := end_time;
           Cache.location := Some (ce_location event);
           Cache.attendees := Some (Json.dumps_str_list (ce_attendees event));
           Cache.status := Some (ce_status event);
           Cache.html_link := Some (ce_htmlLink event);
           Cache.created_at :=
             default now (Cache.select_created_at tbl (ce_id event));
           Cache.updated_at := now |}).

(** The [try] of [_store_events]: the stamp of the run, then the loop;
    the table it gives is the one the commit writes. *)
Definition stored (self : t) (clk : clock) (tbl : Cache.table)
  (events : list cal_event) : result Cache.table :=
  now ← now_text self clk;
  rfoldl (store_event self now) tbl events.

(** [_store_events]: the table afterwards and the count returned.  When
    a step raises, the function returns 0 without a commit, and the
    inserts made so far are rolled back as the connection is dropped: the
    table is as it was.  A failure of sqlite3 itself, which ends the same
    way, is not modelled. *)
Definition _store_events (self : t) (clk : clock) (tbl : Cache.table)
  (events : list cal_event) : Cache.table * nat :=
  match stored self clk tbl events with
  | Ok tbl' => (tbl', length events)
  | Raise _ => (tbl, 0%nat)
  end.

(** *** get_all_events *)

Definition NUM_RECENT_EVENTS : Z := 6.

(** [now.isoformat().replace('+00:00', 'Z')] for the aware UTC datetime
    of reading [now]: the fraction is printed unless it is zero. *)
Definition time_min (now : Z) : string :=
  let f := PyTime.fields_of_wall now in
  PyStr.pad0 4 (PyTime.year f) +:+ "-" +:+ PyStr.pad0 2 (PyTime.month f)
    +:+ "-" +:+ PyStr.pad0 2 (PyTime.day f) +:+ "T" +:+ PyTime.strftime_time f
    +:+ (if PyTime.microsecond f =? 0 then ""
         else "." +:+ PyStr.pad0 6 (PyTime.microsecond f))
    +:+ "Z".

(** [convert_to_user_tz] when a timezone manager is configured. *)
Definition to_user_tz (self : t) (dt : PyTime.datetime)
  : result PyTime.datetime :=
  match timezone_manager self with
  | Some tm => TimezoneManager.convert_to_user_tz tm dt
  | None => Ok dt
  end.

(** One turn of the loop over the listed events; the times are parsed by
    the same [if 'T' in ...] block as in CalendarManagementAgent. *)
Definition process_event (self : t) (event : provider_event) : result cal_event :=
  '(event_start_dt, event_end_dt) ← CalendarManagementAgent.event_times event;
  event_start_dt ← to_user_tz self event_start_dt;
  event_end_dt ← to_user_tz self event_end_dt;
  Ok {| ce_id := pe_id event;
        ce_summary := default "No title" (pe_summary event);
        ce_description := default "" (pe_description event);
        ce_start := event_start_dt;
        ce_end := event_end_dt;
        ce_location := default "" (pe_location event);
        ce_attendees := map (default "") (default [] (pe_attendees event));
        ce_status := default "confirmed" (pe_status event);
        ce_htmlLink := default "" (pe_htmlLink event) |}.

(** The dict [get_all_events] returns. *)
Record listing : Type := {
  success : bool;
  events : list cal_event;
  count : nat;
  message : string;
  error : option string
}.

Definition retrieved (n : nat) : string :=
  "Retrieved " +:+ PyStr.of_Z (Z.of_nat n) +:+ " events".

(** [get_all_events]: the dict returned and the table afterwards.
    [events_list] is the answer of the provider to
    [events().list(calendarId, timeMin, maxResults, singleEvents,
    orderBy).execute()], as the value of its ['items'] key; [now] is the
    instant read for [timeMin], [clk] the clock [_store_events] reads. *)
Definition get_all_events (self : t)
  (events_list : string -> Z -> result (option (list provider_event)))
  (now : Z) (clk : clock) (tbl : Cache.table) (store_in_db : bool)
  : listing * Cache.table :=
  match
    items ← events_list (time_min now) NUM_RECENT_EVENTS;
    rmapM (process_event self) (default [] items)
  with
  | Ok processed_events =>
      match store_in_db, processed_events with
      | true, _ :: _ =>
          let '(tbl', stored_count) := _store_events self clk tbl processed_events in
          ({| success := true; events := processed_events;
              count := length processed_events;
              message := retrieved (length processed_events) +:+ " and stored "
                           +:+ PyStr.of_Z (Z.of_nat stored_count)
                           +:+ " in database";
              error := None |}, tbl')
      | _, _ =>
          ({| success := true; events := processed_events;
              count := length processed_events;
              message := retrieved (length processed_events);
              error := None |}, tbl)
      end
  | Raise (HttpError m) =>
      ({| success := false; events := []; count := 0;
          message := "An error occurred: " +:+ m; error := Some m |}, tbl)
  | Raise e =>
      ({| success := false; events := []; count := 0;
          message := "Could not retrieve events: " +:+ str_exn e;
          error := Some (str_exn e) |}, tbl)
  end.

End CalendarAgent.

(** ** DatabaseAgent (src/agents/database_agent.py) *)

Module DatabaseAgent.

(** [conn] stands for the cache file: the rows a query selects, or the
    error of sqlite3. *)
Record t : Type := {
  conn : string -> result (list Cache.row);
  timezone_manager : option TimezoneManager.t
}.

(** [fromisoformat] when the text has a T, [strptime] otherwise. *)
Definition parse_either (s : string) : result PyTime.datetime :=
  if PyStr.contains_char "T" s then PyTime.fromisoformat s
  else PyTime.strptime_sqlite s.

(** The body of the loop over the rows. *)
Definition event_of_row (self : t) (r : Cache.row) : result db_event :=
  let start_str := Cache.start_time r in
  let end_str := Cache.end_time r in
  start_dt ← parse_either start_str;
  end_dt ← parse_either end_str;
  '(start_dt, end_dt) ←
    match timezone_manager self with
    | Some tm =>
        s ← TimezoneManager.parse_from_sqlite tm start_str;
        e ← TimezoneManager.parse_from_sqlite tm end_str;
        Ok (s, e)
    | None => Ok (start_dt, end_dt)
    end;
  attendees ←
    match Cache.attendees r with
    | Some (String _ _ as a) => Json.loads a
    | _ => Ok (Json.JArr [])
    end;
  Ok {| de_id := Cache.id r;
        de_summary := Cache.summary r;
        de_description := Cache.description r;
        de_start := start_dt;
        de_end := end_dt;
        de_location := Cache.location r;
        de_attendees := attendees;
        de_status := Cache.status r;
        de_htmlLink := Cache.html_link r |}.

(** The [try] of [execute_query]. *)
Definition selected (self : t) (sql_query : string) : result (list db_event) :=
  rows ← conn self sql_query;
  rmapM (event_of_row self) rows.

Definition execute_query (self : t) (sql_query : string) : list db_event :=
  match selected self sql_query with
  | Ok events => events
  | Raise _ => []
  end.

(** What [execute_query] prints: the line of its [except]. *)
Definition execute_query_prints (self : t) (sql_query : string) : list string :=
  match selected self sql_query with
  | Ok _ => []
  | Raise e => ["Error executing query: " +:+ str_exn e]
  end.

End DatabaseAgent.

(** ** ActionParserAgent (src/agents/action_parser_agent.py) *)

Module ActionParserAgent.

Record t : Type := { client : completion }.

(** The block [if content.startswith('```'): ...] of the three parsers:
    the reply without its Markdown fence. *)
Definition unfenced (content : string) : string :=
  if PyStr.startswith "```" content then
    let parts := PyStr.split "```" content in
    let content2 :=
      if (1 <? length parts)%nat then
        match parts !! 1%nat with
        | Some part =>
            if PyStr.startswith "json" part then PyStr.drop 4 part else part
        | None => content
        end
      else content in
    PyStr.strip content2
  else content.

Definition error_dict (text : string) : Json.json :=
  Json.JObj [("error", Json.JStr text)].

(** The [try] of [parse_create], [parse_modify] and [parse_cancel], which
    differ in their prompts only; [None] stands for the early return on an
    empty reply. *)
Definition parsed_reply (reply : completion) : result (option Json.json) :=
  content ← content_strip reply;
  match unfenced content with
  | EmptyString => Ok None                     (* if not content: *)
  | content1 => result ← Json.loads content1; Ok (Some result)
  end.

Definition parse (reply : completion) : Json.json :=
  match parsed_reply reply with
  | Ok (Some result) => result
  | Ok None => error_dict "Empty response from LLM"
  | Raise JSONDecodeError =>
      error_dict ("Invalid JSON response: " +:+ str_exn JSONDecodeError)
  | Raise e => error_dict (str_exn e)
  end.

Definition parse_create (self : t) (user_query : string)
  (current_date : option string) : Json.json :=
  parse (client self).

(** The events go into the prompt, the first ten of them
    (MAX_EVENTS_FOR_PARSER); their start is a datetime, so formatting
    them does not raise. *)
Definition parse_modify (self : t) (user_query : string)
  (events : list cal_event) : Json.json :=
  parse (client self).

Definition parse_cancel (self : t) (user_query : string)
  (events : list cal_event) : Json.json :=
  parse (client self).

(** The proposed event is a dict of three texts: summary, start_time
    and end_time. *)
Definition generate_conflict_message (self : t) (user_query : string)
  (proposed_event : string * string * string)
  (conflicts : list CalendarManagementAgent.conflict) : string :=
  match content_strip (client self) with
  | Ok text => text
  | Raise _ =>
      "I found a scheduling conflict. You already have an event at that time."
  end.

End ActionParserAgent.

(** ** TimezoneAgent (src/agents/timezone_agent.py) *)

Module TimezoneAgent.

(** [ask_user_timezone]: the loop over the lines the user types, from
    the manager the agent holds ([None] at first).  The result is [None]
    when the lines run out before the loop returns. *)
Fixpoint ask_user_timezone (pytz_timezone : string -> option Pytz.tzinfo)
  (timezone_manager : option TimezoneManager.t) (inputs : list string)
  : option TimezoneManager.t :=
  match inputs with
  | [] => None
  | line :: rest =>
      let user_input := PyStr.strip line in
      if String.eqb (PyStr.lower user_input) "list"
      then ask_user_timezone pytz_timezone timezone_manager rest
      else
        match user_input with
        | EmptyString =>                        (* if not user_input: *)
            Some (TimezoneManager.init pytz_timezone (Some "UTC"))
        | _ =>
            let tm :=
              match timezone_manager with
              | Some tm => tm
              | None => TimezoneManager.init pytz_timezone None
              end in
            let '(tm', ok) :=
              TimezoneManager.set_timezone pytz_timezone tm user_input in
            if ok : bool then Some tm'
            else ask_user_timezone pytz_timezone (Some tm') rest
        end
  end.

End TimezoneAgent.

(** ** The orchestrator: the branch of a query (src/orchestrator.py) *)

Module Orchestrator.

(** The agents the branch uses; the SQL agent holds the QA agent of the
    orchestrator. *)
Record t : Type := {
  calendar_agent : CalendarAgent.t;
  sql_agent : SQLAgent.t;
  database_agent : DatabaseAgent.t;
  response_agent : ResponseAgent.t
}.

(** [if intent == 'query': ...] of the run loop, as the lines it
    prints.  [events_list], [now], [clk] and [tbl] are what
    [get_all_events] meets. *)
Definition query (self : t)
  (events_list : string -> Z -> result (option (list provider_event)))
  (now : Z) (clk : clock) (tbl : Cache.table) (user_input : string)
  : list string :=
  let result :=
    fst (CalendarAgent.get_all_events (calendar_agent self) events_list now clk
           tbl false) in
  let events_data :=
    if CalendarAgent.success result then CalendarAgent.events result else [] in
  let '(printed, sql_query) :=
    SQLAgent.text_to_sql (sql_agent self) user_input (Some events_data) in
  match sql_query with
  | Some (String _ _ as q) =>                   (* if sql_query: *)
      let events := DatabaseAgent.execute_query (database_agent self) q in
      let response :=
        ResponseAgent.generate_response (response_agent self) user_input events in
      (printed ++ ["SQL Query: " +:+ q]
         ++ DatabaseAgent.execute_query_prints (database_agent self) q
         ++ [response])%list
  | _ => printed
  end.

End Orchestrator.

(** ** Notions used by the statements, and sample data *)

(** The reading of the clock a datetime is compared by: the UTC instant
    of an aware datetime, the wall clock of a naive one (which is its
    instant when the naive datetime is read as UTC). *)
Definition reading (dt : PyTime.datetime) : Z :=
  match dt with
  | PyTime.Naive w => w
  | PyTime.Aware w off => PyTime.utc_instant w off
  end.

Definition is_aware (dt : PyTime.datetime) : bool :=
  match dt with
  | PyTime.Aware _ _ => true
  | PyTime.Naive _ => false
  end.


(** The query [text_to_sql] falls back to. *)
Definition select_all : string := "SELECT * FROM events ORDER BY start_time".

(** JSON text is written with single quotes in the examples. *)
Definition dq (s : string) : string :=
  PyStr.replace_char "'" (String Json.dquote EmptyString) s.

(** [d.get('valid')] *)
Definition valid_flag (j : Json.json) : option Json.json :=
  match j with
  | Json.JObj ms => Json.lookup_members "valid" ms
  | _ => None
  end.

(** Asia/Kolkata: UTC+05:30 all year. *)
Definition kolkata : Pytz.tzinfo :=
  {| Pytz.zone := "Asia/Kolkata"; Pytz.fixed := false;
     Pytz.utcoffset_at_utc := fun _ => 19800 * PyTime.us_second;
     Pytz.utcoffset_at_wall := fun _ => 19800 * PyTime.us_second |}.

Definition wall (y m d h mi sec : Z) : Z :=
  PyTime.wall_of_fields
    {| PyTime.year := y; PyTime.month := m; PyTime.day := d;
       PyTime.hour := h; PyTime.minute := mi; PyTime.second := sec;
       PyTime.microsecond := 0 |}.

(** America/New_York with the rules in force during 2024: daylight time
    from 10 March 07:00 UTC to 3 November 06:00 UTC. *)
Definition new_york_2024 : Pytz.tzinfo :=
  let est := -5 * PyTime.us_hour in
  let edt := -4 * PyTime.us_hour in
  {| Pytz.zone := "America/New_York"; Pytz.fixed := false;
     Pytz.utcoffset_at_utc := fun u =>
       if (wall 2024 3 10 7 0 0 <=? u) && (u <? wall 2024 11 3 6 0 0)
       then edt else est;
     Pytz.utcoffset_at_wall := fun w =>
       if (wall 2024 3 10 3 0 0 <=? w) && (w <? wall 2024 11 3 1 0 0)
       then edt else est |}.

Definition sample_cal_event : cal_event :=
  {| ce_id := Some "evt1"; ce_summary := "Standup"; ce_description := "";
     ce_start := PyTime.Aware (wall 2024 3 11 9 0 0) 0;
     ce_end := PyTime.Aware (wall 2024 3 11 9 30 0) 0;
     ce_location := ""; ce_attendees := []; ce_status := "confirmed";
     ce_htmlLink := "" |}.

(** The row [_store_events] writes for the event [e], with the texts of
    its start and end, the creation stamp [created] and the update stamp
    [updated]. *)
Definition row_with (e : cal_event) (start_text end_text created updated : string)
  : Cache.row :=
  {| Cache.id := ce_id e;
     Cache.summary := ce_summary e;
     Cache.description := Some (ce_description e);
     Cache.start_time := start_text;
     Cache.end_time := end_text;
     Cache.location := Some (ce_location e);
     Cache.attendees := Some (Json.dumps_str_list (ce_attendees e));
     Cache.status := Some (ce_status e);
     Cache.html_link := Some (ce_htmlLink e);
     Cache.created_at := created;
     Cache.updated_at := updated |}.

(** The same row, when the two times of [e] can be formatted. *)
Definition row_of (self : CalendarAgent.t) (e : cal_event)
  (created updated : string) : result Cache.row :=
  start_text ← CalendarAgent.time_text self (ce_start e);
  end_text ← CalendarAgent.time_text self (ce_end e);
  Ok (row_with e start_text end_text created updated).

(** The sample event after the user moved it: a naive start, as typed in
    the user zone. *)
Definition moved_cal_event : cal_event :=
  {| ce_id := Some "evt1"; ce_summary := "Standup (moved)"; ce_description := "";
     ce_start := PyTime.Naive (wall 2024 3 12 10 0 0);
     ce_end := PyTime.Naive (wall 2024 3 12 10 30 0);
     ce_location := "Room 2"; ce_attendees := ["ana@example.com"];
     ce_status := "confirmed"; ce_htmlLink := "" |}.

(** A run of [_store_events] that cannot format a time: the stamp of the
    run, or the start or the end of an event of the batch. *)
Definition store_fails (self : CalendarAgent.t) (clk : clock)
  (events : list cal_event) : Prop :=
  exists err,
    CalendarAgent.now_text self clk = Raise err
    \/ Exists (fun e => CalendarAgent.time_text self (ce_start e) = Raise err
                        \/ CalendarAgent.time_text self (ce_end e) = Raise err)
         events.

(** Successive refreshes of the cache, each with the clock of its run. *)
Definition store_runs (self : CalendarAgent.t) (tbl : Cache.table)
  (runs : list (clock * list cal_event)) : Cache.table :=
  foldl (fun t run => fst (CalendarAgent._store_events self (fst run) t (snd run)))
    tbl runs.

Definition kolkata_calendar_agent : CalendarAgent.t :=
  {| CalendarAgent.timezone_manager :=
       Some {| TimezoneManager.user_timezone := kolkata |} |}.

Definition morning : clock :=
  {| utc_now := wall 2024 3 10 8 0 0; local_now := wall 2024 3 10 13 30 0 |}.

Definition evening : clock :=
  {| utc_now := wall 2024 3 10 18 45 10; local_now := wall 2024 3 11 0 15 10 |}.

Definition failing_qa_agent : QAAgent.t :=
  {| QAAgent.client := CallRaises (APIError "rate limit exceeded") |}.

(** The overlap test of the specification on two ranges of instants:
    [start < other_end] and [end > other_start]. *)
Definition strictly_overlaps (start_ end_ other_start other_end : Z) : bool :=
  (start_ <? other_end) && (end_ >? other_start).

(** [e.id != excludeId], for an exclusion that may be absent. *)
Definition not_excluded (exclude : option string) (e : provider_event) : bool :=
  match exclude with
  | Some x => negb (bool_decide (pe_id e = Some x))
  | None => true
  end.

(** A provider event as the provider sends it: a non-empty id, and a
    start and an end that parse to zone-aware datetimes. *)
Definition well_formed_event (e : provider_event) : bool :=
  negb (bool_decide (pe_id e = Some ""))
  && match CalendarManagementAgent.event_times e with
     | Ok (es, ee) => is_aware es && is_aware ee
     | Raise _ => false
     end.

(** What a conflict says of the event [e] it reports: its id, its title
    or the words Untitled Event, its start and end, and its location or
    the empty text. *)
Definition names_event (c : CalendarManagementAgent.conflict)
  (e : provider_event) (event_start event_end : PyTime.datetime) : Prop :=
  CalendarManagementAgent.c_id c = pe_id e
  /\ CalendarManagementAgent.c_summary c
     = match pe_summary e with Some title => title | None => "Untitled Event" end
  /\ CalendarManagementAgent.c_start c = event_start
  /\ CalendarManagementAgent.c_end c = event_end
  /\ CalendarManagementAgent.c_location c
     = match pe_location e with Some place => place | None => "" end.

(** The report the specification asks for on the event [e]. *)
Definition expected_report (e : provider_event)
  (event_start event_end : PyTime.datetime) : CalendarManagementAgent.conflict :=
  {| CalendarManagementAgent.c_id := pe_id e;
     CalendarManagementAgent.c_summary :=
       match pe_summary e with Some title => title | None => "Untitled Event" end;
     CalendarManagementAgent.c_start := event_start;
     CalendarManagementAgent.c_end := event_end;
     CalendarManagementAgent.c_location :=
       match pe_location e with Some place => place | None => "" end |}.

(** The conflicts the specification asks for: of the fetched events, in
    order, those not excluded whose range strictly overlaps the proposed
    range [start_ .. end_] of UTC instants. *)
Fixpoint expected_conflicts (start_ end_ : Z) (exclude : option string)
  (items : list provider_event) : list CalendarManagementAgent.conflict :=
  match items with
  | [] => []
  | e :: rest =>
      let tail := expected_conflicts start_ end_ exclude rest in
      match CalendarManagementAgent.event_times e with
      | Ok (es, ee) =>
          if not_excluded exclude e
             && strictly_overlaps start_ end_ (reading es) (reading ee)
          then expected_report e es ee :: tail
          else tail
      | Raise _ => tail
      end
  end.

Definition timed_event (eid title start_text end_text : string) : provider_event :=
  {| pe_id := Some eid; pe_summary := Some title; pe_description := None;
     pe_location := None; pe_attendees := None;
     pe_start := {| dateTime := Some start_text; date := None; timeZone := None |};
     pe_end := {| dateTime := Some end_text; date := None; timeZone := None |};
     pe_status := Some "confirmed"; pe_htmlLink := None |}.

(** The event of the scenario of the specification: 11 March 2024,
    09:00 to 10:30 in New York. *)
Definition review_event : provider_event :=
  timed_event "rev1" "Design review"
    "2024-03-11T09:00:00-04:00" "2024-03-11T10:30:00-04:00".

Definition lunch_event : provider_event :=
  timed_event "lun1" "Lunch" "2024-03-11T16:00:00Z" "2024-03-11T17:00:00Z".

(** A provider that holds the two events and echoes an update. *)
Definition sample_service : calendar_service :=
  {| events_get := fun eid =>
       if String.eqb eid "rev1" then Ok review_event
       else if String.eqb eid "lun1" then Ok lunch_event
       else Raise (HttpError "404 Not Found");
     events_update := fun _ body => Ok body;
     events_list := fun _ _ => Ok (Some [review_event; lunch_event]) |}.

Definition new_york_agent : CalendarManagementAgent.t :=
  {| CalendarManagementAgent.service := sample_service;
     CalendarManagementAgent.timezone_manager :=
       Some {| TimezoneManager.user_timezone := new_york_2024 |} |}.

(** The same provider behind an agent built without a timezone manager. *)
Definition plain_agent : CalendarManagementAgent.t :=
  {| CalendarManagementAgent.service := sample_service;
     CalendarManagementAgent.timezone_manager := None |}.

(** The characters the expression of [strptime_sqlite] can consume. *)
Definition sqlite_char (c : ascii) : bool :=
  PyStr.isdecimal c || PyStr.isspace c || Ascii.eqb c "-" || Ascii.eqb c ":".

Fixpoint all_chars (ok : ascii -> bool) (s : string) : bool :=
  match s with
  | EmptyString => true
  | String c s' => ok c && all_chars ok s'
  end.

(** A matcher consumes only characters that satisfy [ok]. *)
Definition consumes (ok : ascii -> bool) {A} (p : Re.P A) : Prop :=
  forall s a r, In (a, r) (p s) ->
    exists pre, s = pre +:+ r /\ all_chars ok pre = true.

Definition cache_row (eid start_text end_text : string) : Cache.row :=
  {| Cache.id := Some eid; Cache.summary := "Standup";
     Cache.description := Some ""; Cache.start_time := start_text;
     Cache.end_time := end_text; Cache.location := Some "";
     Cache.attendees := Some "[]"; Cache.status := Some "confirmed";
     Cache.html_link := Some "";
     Cache.created_at := "2024-03-10 08:00:00";
     Cache.updated_at := "2024-03-10 08:00:00" |}.

(** One row in the storage format, one in ISO 8601 with an offset. *)
Definition sqlite_row : Cache.row :=
  cache_row "evt1" "2024-03-11 09:00:00" "2024-03-11 09:30:00".

Definition iso_row : Cache.row :=
  cache_row "evt2" "2024-03-11T09:00:00+00:00" "2024-03-11T09:30:00+00:00".

(** A database agent over a cache that answers every query with the
    given rows, with or without a timezone manager. *)
Definition database_agent (rows : list Cache.row)
  (tm : option TimezoneManager.t) : DatabaseAgent.t :=
  {| DatabaseAgent.conn := fun _ => Ok rows;
     DatabaseAgent.timezone_manager := tm |}.

Definition utc_manager : TimezoneManager.t :=
  {| TimezoneManager.user_timezone := Pytz.UTC |}.

Definition standup_event (eid : string) : db_event :=
  {| de_id := Some eid; de_summary := "Standup"; de_description := Some "";
     de_start := PyTime.Aware (wall 2024 3 11 9 0 0) 0;
     de_end := PyTime.Aware (wall 2024 3 11 9 30 0) 0;
     de_location := Some ""; de_attendees := Json.JArr [];
     de_status := Some "confirmed"; de_htmlLink := Some "" |}.

(** [P] holds of the [n] day numbers from [r] on. *)
Fixpoint all_from (P : Z -> bool) (r : Z) (n : nat) : bool :=
  match n with
  | O => true
  | S k => P r && all_from P (r + 1) k
  end.

(** A date of the first 400 years: in range, and the day number it stands for. *)
Definition cycle_day_ok (r : Z) : bool :=
  let '(y, m, d) := PyTime.ord2ymd (r + 1) in
  (1 <=? y) && (y <=? 400) && (1 <=? m) && (m <=? 12) && (1 <=? d)
  && (d <=? PyTime.days_in_month y m) && (PyTime.ymd2ord y m d =? r + 1).

(** The match the backtracking search finds first. *)
Definition first_match {A} (p : Re.P A) (s : string) (a : A) (r : string) : Prop :=
  head (p s) = Some (a, r).

(** The fields of a datetime that the storage format keeps: all but the
    microseconds. *)
Definition whole_second (f : PyTime.fields) : PyTime.fields :=
  {| PyTime.year := PyTime.year f; PyTime.month := PyTime.month f;
     PyTime.day := PyTime.day f; PyTime.hour := PyTime.hour f;
     PyTime.minute := PyTime.minute f; PyTime.second := PyTime.second f;
     PyTime.microsecond := 0 |}.

(** The fields of a date and time of the calendar. *)
Definition valid_fields (f : PyTime.fields) : Prop :=
  1 <= PyTime.month f <= 12
  /\ 1 <= PyTime.day f <= PyTime.days_in_month (PyTime.year f) (PyTime.month f)
  /\ 0 <= PyTime.hour f <= 23 /\ 0 <= PyTime.minute f <= 59
  /\ 0 <= PyTime.second f <= 59 /\ 0 <= PyTime.microsecond f <= 999999.

(** [dt.replace(microsecond=0)] *)
Definition truncate (dt : PyTime.datetime) : PyTime.datetime :=
  match dt with
  | PyTime.Naive w => PyTime.Naive (w - w mod PyTime.us_second)
  | PyTime.Aware w off => PyTime.Aware (w - w mod PyTime.us_second) off
  end.

(** The year of the wall-clock reading of a datetime is written with
    four digits. *)
Definition four_digit_year (dt : PyTime.datetime) : Prop :=
  1000 <= PyTime.year (PyTime.fields_of_wall (PyTime.wall_of dt)) <= 9999.

(** A wall-clock reading exists in a zone when the offset [localize]
    picks for it is the one in force at the instant it then denotes
    (it does not during the hour skipped at the start of daylight
    saving). *)
Definition exists_in_zone (tz : Pytz.tzinfo) (w : Z) : Prop :=
  Pytz.utcoffset_at_utc tz (w - Pytz.utcoffset_at_wall tz w)
  = Pytz.utcoffset_at_wall tz w.

Definition kolkata_manager : TimezoneManager.t :=
  {| TimezoneManager.user_timezone := kolkata |}.

Definition new_york_manager : TimezoneManager.t :=
  {| TimezoneManager.user_timezone := new_york_2024 |}.

(** The datetime [d] microseconds after [dt], on the clock of [dt]. *)
Definition later (dt : PyTime.datetime) (d : Z) : PyTime.datetime :=
  match dt with
  | PyTime.Naive w => PyTime.Naive (w + d)
  | PyTime.Aware w off => PyTime.Aware (w + d) off
  end.

(** The instant a datetime handed to the timezone manager denotes, as
    the reading of a UTC clock: a naive datetime is a reading of the
    user's wall clock. *)
Definition instant_of (tz : Pytz.tzinfo) (dt : PyTime.datetime) : Z :=
  match dt with
  | PyTime.Naive w => w - Pytz.utcoffset_at_wall tz w
  | PyTime.Aware w off => w - off
  end.

(** What the clock of a zone shows at the instant [u]. *)
Definition in_zone (tz : Pytz.tzinfo) (u : Z) : PyTime.datetime :=
  PyTime.Aware (u + Pytz.utcoffset_at_utc tz u) (Pytz.utcoffset_at_utc tz u).

(** A datetime of Python: its reading lies in the years 1 to 9999. *)
Definition is_datetime (dt : PyTime.datetime) : Prop :=
  PyTime.in_range (PyTime.wall_of dt) = true.

(** A UTC instant as [convert_to_user_tz] takes it: a datetime of Python
    that is zone-aware at the offset zero, or naive and then read as
    UTC. *)
Definition utc_instant_datetime (dt : PyTime.datetime) : Prop :=
  is_datetime dt
  /\ match dt with
     | PyTime.Naive _ => True
     | PyTime.Aware _ off => off = 0
     end.

(** A datetime the zone can place: an aware one, a naive one in a zone
    of one offset, and in a zone with transitions a naive one that has a
    datetime a day before it and a day after it. *)
Definition localizable (tz : Pytz.tzinfo) (dt : PyTime.datetime) : Prop :=
  match dt with
  | PyTime.Naive w =>
      Pytz.fixed tz = true
      \/ (PyTime.in_range (w - PyTime.us_day) = true
          /\ PyTime.in_range (w + PyTime.us_day) = true)
  | PyTime.Aware _ _ => True
  end.

(** The datetime whose wall clock [_store_events] prints for [dt]: the
    UTC datetime of its instant when a timezone manager is configured,
    [dt] itself otherwise. *)
Definition stored_reading (otm : option TimezoneManager.t)
  (dt : PyTime.datetime) : PyTime.datetime :=
  match otm with
  | Some tm => PyTime.Aware (instant_of (TimezoneManager.user_timezone tm) dt) 0
  | None => dt
  end.

(** The datetime [execute_query] is to make of the text stored for
    [dt]: with a timezone manager the same instant, cut to the whole
    second, on the clock of the user zone; without one the naive reading
    that was printed, cut to the whole second. *)
Definition read_back (otm : option TimezoneManager.t)
  (dt : PyTime.datetime) : PyTime.datetime :=
  match otm with
  | Some tm =>
      in_zone (TimezoneManager.user_timezone tm)
        (PyTime.wall_of (truncate (stored_reading otm dt)))
  | None => PyTime.Naive (PyTime.wall_of (truncate dt))
  end.

(** The event [execute_query] is to return for the row of [e]. *)
Definition read_event (otm : option TimezoneManager.t) (e : cal_event)
  : db_event :=
  {| de_id := ce_id e;
     de_summary := ce_summary e;
     de_description := Some (ce_description e);
     de_start := read_back otm (ce_start e);
     de_end := read_back otm (ce_end e);
     de_location := Some (ce_location e);
     de_attendees := Json.JArr (map Json.JStr (ce_attendees e));
     de_status := Some (ce_status e);
     de_htmlLink := Some (ce_htmlLink e) |}.

(** The events whose start and end are stored with a year of four
    digits. *)
Definition storable (otm : option TimezoneManager.t) (e : cal_event) : Prop :=
  four_digit_year (stored_reading otm (ce_start e))
  /\ four_digit_year (stored_reading otm (ce_end e)).

(** The events that come back from the cache: stored with a year of
    four digits, at instants at which the clock of the user zone shows a
    datetime. *)
Definition retrievable (otm : option TimezoneManager.t) (e : cal_event) : Prop :=
  storable otm e
  /\ is_datetime (read_back otm (ce_start e))
  /\ is_datetime (read_back otm (ce_end e)).

(** The calendar agent and the database agent of one run share the
    timezone manager. *)
Definition calendar_agent_of (otm : option TimezoneManager.t) : CalendarAgent.t :=
  {| CalendarAgent.timezone_manager := otm |}.

Definition database_agent_of (conn : string -> result (list Cache.row))
  (otm : option TimezoneManager.t) : DatabaseAgent.t :=
  {| DatabaseAgent.conn := conn; DatabaseAgent.timezone_manager := otm |}.

(** The rows of a table. *)
Definition in_table (tbl : Cache.table) (r : Cache.row) : Prop :=
  (exists k, Cache.keyed tbl !! k = Some r) \/ In r (Cache.null_id tbl).

(** An event whose times cannot be read, and a provider that lists it
    after the review. *)
Definition broken_event : provider_event :=
  timed_event "bad1" "Imported" "tomorrow" "later".

Definition broken_agent : CalendarManagementAgent.t :=
  {| CalendarManagementAgent.service :=
       {| events_get := fun _ => Raise (HttpError "404 Not Found");
          events_update := fun _ body => Ok body;
          events_list := fun _ _ => Ok (Some [review_event; broken_event]) |};
     CalendarManagementAgent.timezone_manager :=
       Some {| TimezoneManager.user_timezone := new_york_2024 |} |}.

(** A provider event whose start or end cannot be read. *)
Definition unreadable (ev : provider_event) : Prop :=
  exists e, CalendarManagementAgent.event_times ev = Raise e.

(** A provider event with a start or an end that the clock of the user
    zone cannot show: a timezone manager is configured and the instant of
    that time, or what the clock of the user zone reads at it, lies
    outside the years 1 to 9999. *)
Definition beyond_user_clock (otm : option TimezoneManager.t)
  (ev : provider_event) : Prop :=
  exists tm event_start event_end dt,
    otm = Some tm
    /\ CalendarManagementAgent.event_times ev = Ok (event_start, event_end)
    /\ (dt = event_start \/ dt = event_end)
    /\ ~ (PyTime.in_range (reading dt) = true
          /\ is_datetime (in_zone (TimezoneManager.user_timezone tm) (reading dt))).

(** A provider that lists one event, which ends in the last half hour
    of the year 9999 in UTC. *)
Definition last_event : provider_event :=
  timed_event "end1" "Farewell" "9999-12-31T18:00:00Z" "9999-12-31T23:30:00Z".

Definition listing_last (time_min : string) (max_results : Z)
  : result (option (list provider_event)) :=
  Ok (Some [last_event]).

(** An event whose start and end fall on whole seconds. *)
Definition whole_seconds (e : cal_event) : Prop :=
  reading (ce_start e) mod PyTime.us_second = 0
  /\ reading (ce_end e) mod PyTime.us_second = 0.

(** A provider that lists the review and the lunch as upcoming. *)
Definition upcoming (time_min : string) (max_results : Z)
  : result (option (list provider_event)) :=
  Ok (Some [review_event; lunch_event]).

(** The refresh of the cache the orchestrator runs at start and after
    every change (src/orchestrator.py): [clear_all_events()], then
    [get_all_events(store_in_db=True)]. *)
Definition refresh (otm : option TimezoneManager.t)
  (events_list : string -> Z -> result (option (list provider_event)))
  (now : Z) (clk : clock) (old : Cache.table)
  : CalendarAgent.listing * Cache.table :=
  CalendarAgent.get_all_events (calendar_agent_of otm) events_list now clk
    (Cache.clear_all_events old) true.

(** The row of the review in the cache after a refresh in the morning. *)
Definition review_row : Cache.row :=
  {| Cache.id := Some "rev1"; Cache.summary := "Design review";
     Cache.description := Some "";
     Cache.start_time := "2024-03-11 13:00:00";
     Cache.end_time := "2024-03-11 14:30:00"; Cache.location := Some "";
     Cache.attendees := Some "[]"; Cache.status := Some "confirmed";
     Cache.html_link := Some "";
     Cache.created_at := "2024-03-10 08:00:00";
     Cache.updated_at := "2024-03-10 08:00:00" |}.

Definition lunch_cal_event : cal_event :=
  {| ce_id := Some "lun1"; ce_summary := "Lunch"; ce_description := "";
     ce_start := PyTime.Aware (wall 2024 3 11 16 0 0) 0;
     ce_end := PyTime.Aware (wall 2024 3 11 17 0 0) 0;
     ce_location := ""; ce_attendees := []; ce_status := "confirmed";
     ce_htmlLink := "" |}.

(** A line that ends the loop of [ask_user_timezone]: not the word list,
    and empty or the name of a zone of the tz database. *)
Definition decisive (pytz_timezone : string -> option Pytz.tzinfo)
  (line : string) : Prop :=
  PyStr.lower (PyStr.strip line) <> "list"
  /\ (PyStr.strip line = "" \/ is_Some (pytz_timezone (PyStr.strip line))).

(** The manager the loop returns for a decisive line. *)
Definition manager_for (pytz_timezone : string -> option Pytz.tzinfo)
  (line : string) : TimezoneManager.t :=
  match PyStr.strip line with
  | EmptyString => TimezoneManager.init pytz_timezone (Some "UTC")
  | name =>
      {| TimezoneManager.user_timezone := default Pytz.UTC (pytz_timezone name) |}
  end.

(** A tz database with three zones. *)
Definition sample_pytz (name : string) : option Pytz.tzinfo :=
  if String.eqb name "UTC" then Some Pytz.UTC
  else if String.eqb name "Asia/Kolkata" then Some kolkata
  else if String.eqb name "America/New_York" then Some new_york_2024
  else None.

(** An orchestrator whose SQL model replies with [reply], over an empty
    cache. *)
Definition orchestrator_replying (reply : completion) : Orchestrator.t :=
  {| Orchestrator.calendar_agent := kolkata_calendar_agent;
     Orchestrator.sql_agent :=
       {| SQLAgent.client := reply; SQLAgent.qa_agent := Some failing_qa_agent;
          SQLAgent.timezone_manager := Some kolkata_manager |};
     Orchestrator.database_agent := database_agent [] (Some kolkata_manager);
     Orchestrator.response_agent :=
       {| ResponseAgent.client := CallReturns [Some "Nothing today."] |} |}.

(** A request body as the provider lists it once it holds the event:
    with the id it gave it. *)
Definition listed_as (k : string) (body : provider_event) : provider_event :=
  {| pe_id := Some k;
     pe_summary := pe_summary body;
     pe_description := pe_description body;
     pe_location := pe_location body;
     pe_attendees := pe_attendees body;
     pe_start := pe_start body;
     pe_end := pe_end body;
     pe_status := pe_status body;
     pe_htmlLink := pe_htmlLink body |}.

(** The agent of New York over a provider that holds one event, the
    planning the agent created for 12 March 2024, 09:00 to 10:00: the
    body [create_event] sent for it. *)
Definition planning_body : provider_event :=
  {| pe_id := None; pe_summary := Some "Planning"; pe_description := Some "";
     pe_location := Some ""; pe_attendees := None;
     pe_start := CalendarManagementAgent.utc_field "2024-03-12T13:00:00Z";
     pe_end := CalendarManagementAgent.utc_field "2024-03-12T14:00:00Z";
     pe_status := None; pe_htmlLink := None |}.

Definition planning_agent : CalendarManagementAgent.t :=
  {| CalendarManagementAgent.service :=
       {| events_get := fun _ => Ok (listed_as "pln1" planning_body);
          events_update := fun _ body => Ok body;
          events_list := fun _ _ => Ok (Some [listed_as "pln1" planning_body]) |};
     CalendarManagementAgent.timezone_manager :=
       Some {| TimezoneManager.user_timezone := new_york_2024 |} |}.

(** * Properties *)

(** ** The Python primitives on sample values *)

Example strip_ex : PyStr.strip "  Query
 " = "Query".
Proof. reflexivity. Qed.

Example split_ex :
  PyStr.split "```" "```json {} ``` tail" = [""; "json {} "; " tail"].
Proof. reflexivity. Qed.

Example of_Z_ex : PyStr.of_Z 120 = "120" /\ PyStr.pad0 2 7 = "07".
Proof. split; reflexivity. Qed.

Example strptime_ex :
  PyTime.strptime_sqlite "2024-03-11 09:00:00"
  = Ok (PyTime.Naive (wall 2024 3 11 9 0 0))
  /\ PyTime.strptime_sqlite "2024-3-1  9:5:7"
     = Ok (PyTime.Naive (wall 2024 3 1 9 5 7))
  /\ PyTime.strptime_sqlite "2024-02-30 09:00:00"
     = Raise (ValueError "day is out of range for month")
  /\ PyTime.strptime_sqlite "2024-03-11T09:00:00"
     = Raise (ValueError "time data '2024-03-11T09:00:00' does not match format '%Y-%m-%d %H:%M:%S'")
  /\ PyTime.strptime_sqlite "2024-03-11 09:00:00Z"
     = Raise (ValueError "unconverted data remains: Z").
Proof. vm_compute. repeat split; reflexivity. Qed.

Example repr_ex :
  PyStr.repr "it's" = String PyStr.dquote ("it's" +:+ String PyStr.dquote "")
  /\ PyStr.repr "tab	" = "'tab\t'"
  /\ PyStr.repr (String (ascii_of_N 233) "") = String "'" (String (ascii_of_N 233) "'")
  /\ PyStr.repr (String (ascii_of_N 160) "") = "'\xa0'".
Proof. vm_compute. repeat split; reflexivity. Qed.

(** A trailing Z is not accepted before CPython 3.11, which is why the
    agents replace it by an explicit offset. *)
Example fromisoformat_ex :
  PyTime.fromisoformat "2024-03-11T09:00:00-04:00"
  = Ok (PyTime.Aware (wall 2024 3 11 9 0 0) (-4 * PyTime.us_hour))
  /\ PyTime.fromisoformat "2024-03-11"
     = Ok (PyTime.Naive (wall 2024 3 11 0 0 0))
  /\ PyTime.fromisoformat "2024-03-11T09:00:00.250"
     = Ok (PyTime.Naive (wall 2024 3 11 9 0 0 + 250000))
  /\ PyTime.fromisoformat "2024-03-11T09:00:00Z"
     = Raise (ValueError "Invalid isoformat string: '2024-03-11T09:00:00Z'")
  /\ PyTime.fromisoformat (PyStr.replace_char "Z" "+00:00" "2024-03-11T09:00:00Z")
     = Ok (PyTime.Aware (wall 2024 3 11 9 0 0) 0)
  /\ PyTime.fromisoformat "2024-13-11T09:00:00+24:00"
     = Raise (ValueError "offset must be a timedelta strictly between -timedelta(hours=24) and timedelta(hours=24), not datetime.timedelta(days=1).")
  /\ PyTime.fromisoformat "0000-01-01"
     = Raise (ValueError "year 0 is out of range").
Proof. vm_compute. repeat split; reflexivity. Qed.

(** The first and the last datetime, and the arithmetic at the two ends
    of the range. *)
Example range_ex :
  PyTime.in_range (wall 1 1 1 0 0 0) = true
  /\ PyTime.in_range (wall 1 1 1 0 0 0 - 1) = false
  /\ PyTime.in_range (wall 9999 12 31 23 59 59 + 999999) = true
  /\ PyTime.in_range (wall 9999 12 31 23 59 59 + 1000000) = false
  /\ PyTime.add (PyTime.Naive (wall 9999 12 31 23 0 0)) (90 * PyTime.us_minute)
     = Raise (OverflowError "date value out of range")
  /\ PyTime.add (PyTime.Naive (wall 2024 3 12 9 0 0)) (90 * PyTime.us_minute)
     = Ok (PyTime.Naive (wall 2024 3 12 10 30 0)).
Proof. vm_compute. repeat split; reflexivity. Qed.

Example strftime_ex :
  PyTime.strftime_rfc (PyTime.Aware (wall 2024 2 29 23 59 59 + 999999) 0)
  = "2024-02-29T23:59:59Z"
  /\ PyTime.strftime_sqlite (PyTime.Naive (wall 2100 3 1 0 0 0 - 1))
     = "2100-02-28 23:59:59"
  /\ PyTime.strftime_sqlite (PyTime.Naive (wall 2000 12 31 0 0 0 + PyTime.us_day))
     = "2001-01-01 00:00:00".
Proof. vm_compute. repeat split; reflexivity. Qed.

Example json_ex :
  Json.loads (dq " {'valid': true, 'n': [1, -2.5e3, null], 's': 'aA\n'} ")
  = Ok (Json.JObj [("valid", Json.JBool true);
                   ("n", Json.JArr [Json.JNum "1"; Json.JNum "-2.5e3"; Json.JNull]);
                   ("s", Json.JStr "aA
")])
  /\ Json.loads "[1,]" = Raise JSONDecodeError
  /\ Json.loads "01" = Raise JSONDecodeError
  /\ Json.loads "" = Raise JSONDecodeError
  /\ Json.loads (Json.dumps_str_list ["a@example.com"; dq "x'y"])
     = Ok (Json.JArr [Json.JStr "a@example.com"; Json.JStr (dq "x'y")]).
Proof. vm_compute. repeat split; reflexivity. Qed.

(** ** IntentAgent *)

Lemma in_list_In (x : string) (l : list string) :
  PyStr.in_list x l = true <-> In x l.
Proof.
  unfold PyStr.in_list. rewrite existsb_exists. split.
  - intros (y & Hy & Heq). apply String.eqb_eq in Heq. now subst.
  - intros H. exists x. split; [assumption | apply String.eqb_refl].
Qed.

Lemma identify_intent_cases (self : IntentAgent.t) (q : string) :
  IntentAgent.identify_intent self q = "query"
  \/ exists content rest,
       IntentAgent.client self = CallReturns (Some content :: rest)
       /\ In (PyStr.lower (PyStr.strip content)) IntentAgent.valid_intents
       /\ IntentAgent.identify_intent self q = PyStr.lower (PyStr.strip content).
Proof.
  unfold IntentAgent.identify_intent.
  destruct (IntentAgent.client self) as [e | [ | [content | ] rest]] eqn:Hc;
    try (left; reflexivity).
  cbn -[PyStr.in_list PyStr.lower PyStr.strip IntentAgent.valid_intents].
  destruct (PyStr.in_list (PyStr.lower (PyStr.strip content))
              IntentAgent.valid_intents) eqn:Hin.
  - right. exists content, rest. rewrite in_list_In in Hin. auto.
  - left. reflexivity.
Qed.

(** C4.  Whatever the completion request produces, [identify_intent]
    returns one of query, create, modify, cancel, quit; it returns query
    when the request raises, when the response has no usable content, and
    when the content, trimmed and lowercased, is not one of the five words
    (the empty content included); and it returns the content, trimmed and
    lowercased, when that is one of the five words. *)
Theorem identify_intent_failsafe (self : IntentAgent.t) (q : string) :
  In (IntentAgent.identify_intent self q) IntentAgent.valid_intents
  /\ (forall e, IntentAgent.client self = CallRaises e ->
        IntentAgent.identify_intent self q = "query")
  /\ (forall e, content_strip (IntentAgent.client self) = Raise e ->
        IntentAgent.identify_intent self q = "query")
  /\ (forall content rest,
        IntentAgent.client self = CallReturns (Some content :: rest) ->
        ~ In (PyStr.lower (PyStr.strip content)) IntentAgent.valid_intents ->
        IntentAgent.identify_intent self q = "query")
  /\ (forall content rest,
        IntentAgent.client self = CallReturns (Some content :: rest) ->
        In (PyStr.lower (PyStr.strip content)) IntentAgent.valid_intents ->
        IntentAgent.identify_intent self q = PyStr.lower (PyStr.strip content)).
Proof.
  split; [ | split; [ | split; [ | split]]].
  - destruct (identify_intent_cases self q) as [-> | (c & r & _ & Hin & ->)].
    + cbn. auto.
    + exact Hin.
  - intros e He. unfold IntentAgent.identify_intent. rewrite He. reflexivity.
  - intros e He. unfold IntentAgent.identify_intent. rewrite He. reflexivity.
  - intros content rest Hc Hnot.
    unfold IntentAgent.identify_intent. rewrite Hc.
    cbn -[PyStr.in_list PyStr.lower PyStr.strip IntentAgent.valid_intents].
    destruct (PyStr.in_list _ _) eqn:Hin; [ | reflexivity].
    apply in_list_In in Hin. contradiction.
  - intros content rest Hc Hin.
    unfold IntentAgent.identify_intent. rewrite Hc.
    cbn -[PyStr.in_list PyStr.lower PyStr.strip IntentAgent.valid_intents].
    apply in_list_In in Hin. rewrite Hin. reflexivity.
Qed.

Lemma identify_intent_failsafe_witness :
  IntentAgent.identify_intent
    {| IntentAgent.client := CallReturns [Some " Reschedule it "] |} "move it"
  = "query"
  /\ IntentAgent.identify_intent
       {| IntentAgent.client := CallRaises (APIError "timeout") |} "move it"
     = "query".
Proof.
  split.
  - apply (proj1 (proj2 (proj2 (proj2 (identify_intent_failsafe
             {| IntentAgent.client := CallReturns [Some " Reschedule it "] |}
             "move it")))) " Reschedule it " []).
    + reflexivity.
    + vm_compute. intros H.
      repeat (destruct H as [H | H]; [discriminate H | ]). exact H.
  - apply (proj1 (proj2 (identify_intent_failsafe
             {| IntentAgent.client := CallRaises (APIError "timeout") |}
             "move it")) (APIError "timeout")).
    reflexivity.
Defined.

Example identify_intent_accepts :
  IntentAgent.identify_intent
    {| IntentAgent.client := CallReturns [Some "  CANCEL
"] |} "drop my 3pm" = "cancel"
  /\ IntentAgent.identify_intent
       {| IntentAgent.client := CallReturns [Some ""] |} "..." = "query".
Proof. split; reflexivity. Qed.

(** ** TimezoneManager *)

(** What [astimezone] gives: the clock of the zone at the same instant,
    when the instant and what that clock shows are datetimes. *)
Lemma astimezone_cases (tz : Pytz.tzinfo) (w off : Z) :
  Pytz.astimezone tz w off
  = if PyTime.in_range (w - off)
       && PyTime.in_range (PyTime.wall_of (in_zone tz (w - off)))
    then Ok (in_zone tz (w - off))
    else Raise PyTime.overflow.
Proof.
  unfold Pytz.astimezone, Pytz.fromutc, PyTime.utc_instant, in_zone.
  cbn [PyTime.wall_of].
  destruct (PyTime.in_range (w - off)); [ | reflexivity].
  destruct (PyTime.in_range _); reflexivity.
Qed.

Lemma astimezone_utc (w off : Z) :
  Pytz.astimezone Pytz.UTC w off
  = if PyTime.in_range (w - off) then Ok (PyTime.Aware (w - off) 0)
    else Raise PyTime.overflow.
Proof.
  rewrite astimezone_cases. unfold in_zone. cbn [Pytz.utcoffset_at_utc Pytz.UTC
    PyTime.wall_of].
  rewrite Z.add_0_r. destruct (PyTime.in_range (w - off)); reflexivity.
Qed.

Lemma astimezone_Ok (tz : Pytz.tzinfo) (w off : Z) (d : PyTime.datetime) :
  Pytz.astimezone tz w off = Ok d ->
  d = in_zone tz (w - off) /\ PyTime.in_range (w - off) = true
  /\ is_datetime d.
Proof.
  rewrite astimezone_cases. unfold is_datetime.
  destruct (PyTime.in_range (w - off)); [ | discriminate].
  destruct (PyTime.in_range (PyTime.wall_of _)) eqn:Hr; [ | discriminate].
  intros [= <-]. auto.
Qed.

Lemma in_zone_reading (tz : Pytz.tzinfo) (u : Z) :
  reading (in_zone tz u) = u /\ is_aware (in_zone tz u) = true.
Proof. unfold in_zone, reading, PyTime.utc_instant. cbn. split; [lia | reflexivity]. Qed.

Lemma reading_sub (w : Z) : w - 0 = w.
Proof. lia. Qed.

(** [convert_to_user_tz] shows the instant of [t] on the clock of the
    user zone, or raises when the instant or that reading is no
    datetime. *)
Lemma convert_to_user_tz_cases (self : TimezoneManager.t) (t : PyTime.datetime) :
  TimezoneManager.convert_to_user_tz self t
  = if PyTime.in_range (reading t)
       && PyTime.in_range
            (PyTime.wall_of (in_zone (TimezoneManager.user_timezone self) (reading t)))
    then Ok (in_zone (TimezoneManager.user_timezone self) (reading t))
    else Raise PyTime.overflow.
Proof.
  destruct t as [w | w off]; cbn [TimezoneManager.convert_to_user_tz reading];
    rewrite astimezone_cases; unfold PyTime.utc_instant;
    rewrite ?reading_sub; reflexivity.
Qed.

Lemma convert_to_user_tz_Ok (self : TimezoneManager.t) (t d : PyTime.datetime) :
  TimezoneManager.convert_to_user_tz self t = Ok d ->
  d = in_zone (TimezoneManager.user_timezone self) (reading t)
  /\ PyTime.in_range (reading t) = true /\ is_datetime d.
Proof.
  rewrite convert_to_user_tz_cases. unfold is_datetime.
  destruct (PyTime.in_range (reading t)); [ | discriminate].
  destruct (PyTime.in_range (PyTime.wall_of _)) eqn:Hr; [ | discriminate].
  intros [= <-]. auto.
Qed.

(** [convert_to_utc] on an aware datetime. *)
Lemma convert_to_utc_aware (self : TimezoneManager.t) (w off : Z) :
  TimezoneManager.convert_to_utc self (PyTime.Aware w off)
  = if PyTime.in_range (w - off) then Ok (PyTime.Aware (w - off) 0)
    else Raise PyTime.overflow.
Proof. apply astimezone_utc. Qed.

Lemma convert_to_utc_in_zone (self : TimezoneManager.t) (tz : Pytz.tzinfo) (u : Z) :
  PyTime.in_range u = true ->
  TimezoneManager.convert_to_utc self (in_zone tz u) = Ok (PyTime.Aware u 0).
Proof.
  intros Hu. unfold in_zone. rewrite convert_to_utc_aware.
  replace (u + Pytz.utcoffset_at_utc tz u - Pytz.utcoffset_at_utc tz u) with u
    by lia.
  now rewrite Hu.
Qed.

(** C5, as the code has it.  For every zone the manager can hold and
    every UTC instant [t], zone-aware or naive (then read as UTC): when
    what the clock of the user zone shows at that instant is a datetime
    (it lies in the years 1 to 9999), [convert_to_user_tz] gives that
    reading and [convert_to_utc] takes it back to the UTC datetime of the
    same instant; in every other case [convert_to_user_tz] raises
    OverflowError and there is no round trip. *)
Theorem convert_round_trip (self : TimezoneManager.t) (t : PyTime.datetime) :
  utc_instant_datetime t ->
  (is_datetime (in_zone (TimezoneManager.user_timezone self) (reading t)) ->
   TimezoneManager.convert_to_user_tz self t
   = Ok (in_zone (TimezoneManager.user_timezone self) (reading t))
   /\ (local ← TimezoneManager.convert_to_user_tz self t;
       TimezoneManager.convert_to_utc self local)
      = Ok (PyTime.Aware (reading t) 0))
  /\ (~ is_datetime (in_zone (TimezoneManager.user_timezone self) (reading t)) ->
      TimezoneManager.convert_to_user_tz self t
      = Raise (OverflowError "date value out of range")
      /\ (local ← TimezoneManager.convert_to_user_tz self t;
          TimezoneManager.convert_to_utc self local)
         = Raise (OverflowError "date value out of range")).
Proof.
  intros [Ht Hutc].
  assert (Hu : PyTime.in_range (reading t) = true).
  { unfold is_datetime in Ht. destruct t as [w | w off]; cbn in *; [exact Ht | ].
    subst off. unfold PyTime.utc_instant. rewrite Z.sub_0_r. exact Ht. }
  unfold is_datetime. rewrite convert_to_user_tz_cases, Hu. cbn [andb]. split.
  - intros Hl. rewrite Hl. split; [reflexivity | ].
    cbn [mbind result_bind rbind]. apply convert_to_utc_in_zone. exact Hu.
  - intros Hl. destruct (PyTime.in_range (PyTime.wall_of _)); [congruence | ].
    split; reflexivity.
Qed.

(** The last second before daylight saving starts in New York, taken to
    New York and back. *)
Lemma convert_round_trip_witness :
  TimezoneManager.convert_to_user_tz new_york_manager
    (PyTime.Naive (wall 2024 3 10 6 59 59))
  = Ok (PyTime.Aware (wall 2024 3 10 1 59 59) (-5 * PyTime.us_hour))
  /\ (local ← TimezoneManager.convert_to_user_tz new_york_manager
                (PyTime.Naive (wall 2024 3 10 6 59 59));
      TimezoneManager.convert_to_utc new_york_manager local)
     = Ok (PyTime.Aware (wall 2024 3 10 6 59 59) 0).
Proof.
  apply (proj1 (convert_round_trip new_york_manager
                  (PyTime.Naive (wall 2024 3 10 6 59 59))
                  ltac:(split; [vm_compute; reflexivity | exact I])));
    vm_compute; reflexivity.
Defined.

(** C5 as stated fails at the ends of the range: 20:00 UTC on the last
    day of the year 9999 is a datetime, but the clock of Kolkata shows
    01:30 of the year 10000 then, which is none; the conversion raises
    and nothing comes back. *)
Lemma convert_to_user_tz_overflows :
  utc_instant_datetime (PyTime.Aware (wall 9999 12 31 20 0 0) 0)
  /\ utc_instant_datetime (PyTime.Naive (wall 9999 12 31 20 0 0))
  /\ TimezoneManager.convert_to_user_tz kolkata_manager
       (PyTime.Aware (wall 9999 12 31 20 0 0) 0)
     = Raise (OverflowError "date value out of range")
  /\ (local ← TimezoneManager.convert_to_user_tz kolkata_manager
                (PyTime.Naive (wall 9999 12 31 20 0 0));
      TimezoneManager.convert_to_utc kolkata_manager local)
     = Raise (OverflowError "date value out of range").
Proof. vm_compute. repeat split; reflexivity. Qed.

(** The manager built from any identifier, valid or not, holds a zone:
    when the way to the user zone succeeds, the way back keeps the
    instant there too. *)
Lemma convert_keeps_instant_init (pytz_timezone : string -> option Pytz.tzinfo)
  (name : option string) (t local : PyTime.datetime) :
  TimezoneManager.convert_to_user_tz (TimezoneManager.init pytz_timezone name) t
  = Ok local ->
  exists utc,
    TimezoneManager.convert_to_utc (TimezoneManager.init pytz_timezone name) local
    = Ok utc
    /\ reading utc = reading t.
Proof.
  intros Hl. apply convert_to_user_tz_Ok in Hl as (-> & Hu & _).
  rewrite (convert_to_utc_in_zone _ _ _ Hu). eexists. split; [reflexivity | ].
  cbn. unfold PyTime.utc_instant. lia.
Qed.

Example convert_round_trip_new_york :
  TimezoneManager.convert_to_user_tz new_york_manager
    (PyTime.Naive (wall 2024 3 10 7 0 0))
  = Ok (PyTime.Aware (wall 2024 3 10 3 0 0) (-4 * PyTime.us_hour))
  /\ TimezoneManager.convert_to_user_tz new_york_manager
       (PyTime.Aware (wall 1 1 1 0 0 0) 0)
     = Raise (OverflowError "date value out of range").
Proof. vm_compute. repeat split; reflexivity. Qed.

(** ** ResponseAgent and QAAgent *)




Example generate_response_counts :
  forall e1 e2 e3 : db_event,
  ResponseAgent.generate_response
    {| ResponseAgent.client := CallReturns [] |} "this week" [e1; e2; e3]
  = "Found 3 event(s) matching your query.".
Proof. reflexivity. Qed.

(** ** SQLAgent *)




Example text_to_sql_strips_fence :
  SQLAgent.text_to_sql
    {| SQLAgent.client := CallReturns [Some "```sql
SELECT * FROM events
```"];
       SQLAgent.qa_agent := None; SQLAgent.timezone_manager := None |}
    "all events" None
  = ([], Some "SELECT * FROM events").
Proof. reflexivity. Qed.

(** ** ValidationAgent *)

(** The fail-open half of the contract of the validator holds: when the
    request or the decoding of its reply raises, [validate] returns a dict
    whose valid flag is true.  When the reply decodes, [validate] returns
    the decoded value as it is. *)
Lemma validate_fail_open (self : ValidationAgent.t) (q kind : string)
  (event_data : option db_event) :
  (forall e, ValidationAgent.parsed_reply (ValidationAgent.client self) = Raise e ->
     valid_flag (ValidationAgent.validate self q kind event_data)
     = Some (Json.JBool true))
  /\ (forall j, ValidationAgent.parsed_reply (ValidationAgent.client self) = Ok j ->
        ValidationAgent.validate self q kind event_data = j).
Proof.
  split; intros x Hx; unfold ValidationAgent.validate; rewrite Hx; reflexivity.
Qed.

Example validate_fail_open_cases :
  valid_flag (ValidationAgent.validate
                {| ValidationAgent.client := CallReturns [Some "Sure! It matches."] |}
                "lunch tomorrow at noon" "create" None)
  = Some (Json.JBool true)
  /\ valid_flag (ValidationAgent.validate
                   {| ValidationAgent.client := CallRaises (APIError "503") |}
                   "lunch tomorrow at noon" "create" None)
     = Some (Json.JBool true).
Proof. split; reflexivity. Qed.

(** C10, on the code.  A reply that decodes comes back as it is, with or
    without a valid flag: for a reply that is a JSON object with a message
    only, and for one that is an empty JSON array, the result of
    [validate] has no valid flag. *)
Theorem validate_result_without_flag :
  ValidationAgent.validate
    {| ValidationAgent.client :=
         CallReturns [Some (dq "```json
{'message': 'The event was created as requested.'}
```")] |}
    "lunch tomorrow at noon" "create" None
  = Json.JObj [("message", Json.JStr "The event was created as requested.")]
  /\ Json.has_key "valid"
       (ValidationAgent.validate
          {| ValidationAgent.client :=
               CallReturns [Some (dq "```json
{'message': 'The event was created as requested.'}
```")] |}
          "lunch tomorrow at noon" "create" None) = false
  /\ ValidationAgent.validate
       {| ValidationAgent.client := CallReturns [Some "[]"] |}
       "lunch tomorrow at noon" "create" None
     = Json.JArr []
  /\ valid_flag (Json.JArr []) = None.
Proof. vm_compute. repeat split. Qed.

Example validate_passes_reply :
  ValidationAgent.validate
    {| ValidationAgent.client :=
         CallReturns [Some (dq "{'valid': false, 'message': 'Wrong day'}")] |}
    "lunch tomorrow at noon" "create" None
  = Json.JObj [("valid", Json.JBool false); ("message", Json.JStr "Wrong day")].
Proof. reflexivity. Qed.

(** ** The cache upsert of CalendarAgent._store_events *)

Lemma rfoldl_app {A B} (f : B -> A -> result B) (b : B) (l1 l2 : list A) :
  rfoldl f b (l1 ++ l2) = (b' ← rfoldl f b l1; rfoldl f b' l2).
Proof.
  revert b. induction l1 as [ | a l1 IH]; intros b; cbn; [reflexivity | ].
  destruct (f b a) as [b1 | e]; cbn; [apply IH | reflexivity].
Qed.

Section Upsert.

Variable self : CalendarAgent.t.
Variable now : string.

(** A turn of the loop that does not raise has formatted the two times
    and written the row. *)
Lemma store_event_Ok (tbl tbl' : Cache.table) (e : cal_event) :
  CalendarAgent.store_event self now tbl e = Ok tbl' ->
  exists start_text end_text,
    CalendarAgent.time_text self (ce_start e) = Ok start_text
    /\ CalendarAgent.time_text self (ce_end e) = Ok end_text
    /\ tbl' = Cache.insert_or_replace tbl
                (row_with e start_text end_text
                   (default now (Cache.select_created_at tbl (ce_id e))) now).
Proof.
  unfold CalendarAgent.store_event.
  destruct (CalendarAgent.time_text self (ce_start e)) as [st | ?];
    cbn [mbind result_bind rbind]; [ | discriminate].
  destruct (CalendarAgent.time_text self (ce_end e)) as [et | ?];
    cbn [mbind result_bind rbind]; [ | discriminate].
  intros [= <-]. exists st, et. auto.
Qed.

Lemma store_event_same (tbl tbl' : Cache.table) (e : cal_event) (k : string) :
  ce_id e = Some k ->
  CalendarAgent.store_event self now tbl e = Ok tbl' ->
  exists start_text end_text,
    CalendarAgent.time_text self (ce_start e) = Ok start_text
    /\ CalendarAgent.time_text self (ce_end e) = Ok end_text
    /\ Cache.keyed tbl' !! k
       = Some (row_with e start_text end_text
                 (default now (Cache.created_at <$> Cache.keyed tbl !! k)) now).
Proof.
  intros Hk Hst. apply store_event_Ok in Hst as (st & et & Hs & He & ->).
  exists st, et. split; [exact Hs | ]. split; [exact He | ].
  unfold Cache.insert_or_replace, row_with. cbn [Cache.id]. rewrite Hk.
  cbn [Cache.keyed Cache.select_created_at]. apply lookup_insert_eq.
Qed.

Lemma store_event_other (tbl tbl' : Cache.table) (e : cal_event) (k : string) :
  ce_id e <> Some k ->
  CalendarAgent.store_event self now tbl e = Ok tbl' ->
  Cache.keyed tbl' !! k = Cache.keyed tbl !! k.
Proof.
  intros Hk Hst. apply store_event_Ok in Hst as (st & et & _ & _ & ->).
  unfold Cache.insert_or_replace, row_with. cbn [Cache.id].
  destruct (ce_id e) as [k' | ]; cbn [Cache.keyed]; [ | reflexivity].
  apply lookup_insert_ne. congruence.
Qed.

(** Storing any event keeps the creation stamp of a row already there. *)
Lemma store_event_created_at (tbl tbl' : Cache.table) (e : cal_event)
  (k : string) (r : Cache.row) :
  Cache.keyed tbl !! k = Some r ->
  CalendarAgent.store_event self now tbl e = Ok tbl' ->
  exists r', Cache.keyed tbl' !! k = Some r'
             /\ Cache.created_at r' = Cache.created_at r.
Proof.
  intros Hr Hst. destruct (decide (ce_id e = Some k)) as [Heq | Hne].
  - destruct (store_event_same _ _ _ _ Heq Hst) as (st & et & _ & _ & ->).
    rewrite Hr. cbn. eauto.
  - rewrite (store_event_other _ _ _ _ Hne Hst). eauto.
Qed.

Lemma store_events_created_at (events : list cal_event) (tbl tbl' : Cache.table)
  (k : string) (r : Cache.row) :
  Cache.keyed tbl !! k = Some r ->
  rfoldl (CalendarAgent.store_event self now) tbl events = Ok tbl' ->
  exists r', Cache.keyed tbl' !! k = Some r'
             /\ Cache.created_at r' = Cache.created_at r.
Proof.
  revert tbl r. induction events as [ | e events IH]; intros tbl r Hr; cbn [rfoldl].
  - intros [= <-]. eauto.
  - destruct (CalendarAgent.store_event self now tbl e) as [tbl1 | ?] eqn:H1;
      cbn [mbind result_bind rbind]; [ | discriminate].
    intros Hrest.
    destruct (store_event_created_at tbl tbl1 e k r Hr H1) as (r1 & Hr1 & Hc1).
    destruct (IH _ _ Hr1 Hrest) as (r2 & Hr2 & Hc2).
    exists r2. split; [exact Hr2 | congruence].
Qed.

Lemma store_events_other (events : list cal_event) (tbl tbl' : Cache.table)
  (k : string) :
  Forall (fun e => ce_id e <> Some k) events ->
  rfoldl (CalendarAgent.store_event self now) tbl events = Ok tbl' ->
  Cache.keyed tbl' !! k = Cache.keyed tbl !! k.
Proof.
  intros Hall. revert tbl.
  induction Hall as [ | e events He _ IH]; intros tbl; cbn [rfoldl].
  - intros [= <-]. reflexivity.
  - destruct (CalendarAgent.store_event self now tbl e) as [tbl1 | ?] eqn:H1;
      cbn [mbind result_bind rbind]; [ | discriminate].
    intros Hrest. rewrite (IH _ Hrest). exact (store_event_other _ _ _ _ He H1).
Qed.

(** The row of [k] after a batch whose last event for [k] is [e]. *)
Lemma store_events_last (pre post : list cal_event) (e : cal_event)
  (tbl tbl' : Cache.table) (k : string) :
  ce_id e = Some k ->
  Forall (fun e' => ce_id e' <> Some k) post ->
  rfoldl (CalendarAgent.store_event self now) tbl (pre ++ e :: post) = Ok tbl' ->
  exists before start_text end_text,
    rfoldl (CalendarAgent.store_event self now) tbl pre = Ok before
    /\ CalendarAgent.time_text self (ce_start e) = Ok start_text
    /\ CalendarAgent.time_text self (ce_end e) = Ok end_text
    /\ Cache.keyed tbl' !! k
       = Some (row_with e start_text end_text
                 (default now (Cache.created_at <$> Cache.keyed before !! k))
                 now).
Proof.
  intros Hk Hpost. rewrite rfoldl_app.
  destruct (rfoldl _ tbl pre) as [before | ?]; cbn [mbind result_bind rbind rfoldl];
    [ | discriminate].
  destruct (CalendarAgent.store_event self now before e) as [tbl1 | ?] eqn:H1;
    cbn [mbind result_bind rbind]; [ | discriminate].
  intros Hrest.
  destruct (store_event_same _ _ _ _ Hk H1) as (st & et & Hs & He & Hrow).
  exists before, st, et. split; [reflexivity | ]. split; [exact Hs | ].
  split; [exact He | ].
  rewrite (store_events_other post _ _ k Hpost Hrest). exact Hrow.
Qed.

End Upsert.

Lemma store_event_Raise (self : CalendarAgent.t) (now : string)
  (tbl : Cache.table) (e : cal_event) (err : exn) :
  CalendarAgent.store_event self now tbl e = Raise err ->
  CalendarAgent.time_text self (ce_start e) = Raise err
  \/ CalendarAgent.time_text self (ce_end e) = Raise err.
Proof.
  unfold CalendarAgent.store_event.
  destruct (CalendarAgent.time_text self (ce_start e)) as [st | e1];
    cbn [mbind result_bind rbind]; [ | intros [= ->]; left; reflexivity].
  destruct (CalendarAgent.time_text self (ce_end e)) as [et | e1];
    cbn [mbind result_bind rbind];
    [discriminate | intros [= ->]; right; reflexivity].
Qed.

Lemma store_events_raise (self : CalendarAgent.t) (now : string)
  (events : list cal_event) (tbl : Cache.table) (err : exn) :
  rfoldl (CalendarAgent.store_event self now) tbl events = Raise err ->
  Exists (fun e => CalendarAgent.time_text self (ce_start e) = Raise err
                   \/ CalendarAgent.time_text self (ce_end e) = Raise err) events.
Proof.
  revert tbl. induction events as [ | e events IH]; intros tbl; cbn [rfoldl];
    [discriminate | ].
  destruct (CalendarAgent.store_event self now tbl e) as [tbl1 | e1] eqn:H1;
    cbn [mbind result_bind rbind].
  - intros H. right. exact (IH _ H).
  - intros [= ->]. left. exact (store_event_Raise self now tbl e err H1).
Qed.

(** [_store_events] stores the whole batch or nothing, and nothing only
    when a time cannot be formatted. *)
Lemma _store_events_cases (self : CalendarAgent.t) (clk : clock)
  (tbl : Cache.table) (events : list cal_event) :
  (exists now tbl',
     CalendarAgent.now_text self clk = Ok now
     /\ rfoldl (CalendarAgent.store_event self now) tbl events = Ok tbl'
     /\ CalendarAgent._store_events self clk tbl events = (tbl', length events))
  \/ (store_fails self clk events
      /\ CalendarAgent._store_events self clk tbl events = (tbl, 0%nat)).
Proof.
  unfold CalendarAgent._store_events, CalendarAgent.stored, store_fails.
  destruct (CalendarAgent.now_text self clk) as [now | e];
    cbn [mbind result_bind rbind];
    [ | right; split; [exists e; left | ]; reflexivity].
  destruct (rfoldl _ tbl events) as [tbl' | e] eqn:Hfold.
  - left. exists now, tbl'. split; [reflexivity | ]. split; [exact Hfold | ].
    reflexivity.
  - right. split; [ | reflexivity]. exists e. right.
    exact (store_events_raise self now events tbl e Hfold).
Qed.

(** C3.  When the cache already holds a row for the id [k] and a batch
    of events is stored again, the row keeps the creation stamp it had,
    in every case; and every other column has the value of the last
    event of the batch with that id: summary, description, start and end
    time (the texts the two times are formatted to), location,
    attendees, status, link, and the update stamp of this run.  The batch
    is stored as a whole or not at all: when a time of the run cannot be
    formatted, nothing is upserted, the count returned is 0 and the table
    is as it was. *)
Theorem upsert_keeps_created_at (self : CalendarAgent.t) (clk : clock)
  (tbl : Cache.table) (pre post : list cal_event) (e : cal_event)
  (k : string) (old : Cache.row) :
  Cache.keyed tbl !! k = Some old ->
  ce_id e = Some k ->
  Forall (fun e' => ce_id e' <> Some k) post ->
  (exists r,
      Cache.keyed
        (fst (CalendarAgent._store_events self clk tbl (pre ++ e :: post))) !! k
      = Some r
      /\ Cache.created_at r = Cache.created_at old)
  /\
  ((snd (CalendarAgent._store_events self clk tbl (pre ++ e :: post))
    = length (pre ++ e :: post)
    /\ exists now start_text end_text,
        CalendarAgent.now_text self clk = Ok now
        /\ CalendarAgent.time_text self (ce_start e) = Ok start_text
        /\ CalendarAgent.time_text self (ce_end e) = Ok end_text
        /\ Cache.keyed
             (fst (CalendarAgent._store_events self clk tbl (pre ++ e :: post)))
             !! k
           = Some {| Cache.id := Some k;
                     Cache.summary := ce_summary e;
                     Cache.description := Some (ce_description e);
                     Cache.start_time := start_text;
                     Cache.end_time := end_text;
                     Cache.location := Some (ce_location e);
                     Cache.attendees := Some (Json.dumps_str_list (ce_attendees e));
                     Cache.status := Some (ce_status e);
                     Cache.html_link := Some (ce_htmlLink e);
                     Cache.created_at := Cache.created_at old;
                     Cache.updated_at := now |})
   \/ (store_fails self clk (pre ++ e :: post)
       /\ CalendarAgent._store_events self clk tbl (pre ++ e :: post)
          = (tbl, 0%nat))).
Proof.
  intros Hold Hk Hpost.
  destruct (_store_events_cases self clk tbl (pre ++ e :: post))
    as [(now & tbl' & Hnow & Hfold & ->) | (Hfails & ->)]; cbn [fst snd];
    [ | split; [exists old; split; [exact Hold | reflexivity]
              | right; split; [exact Hfails | reflexivity]]].
  split; [exact (store_events_created_at self now _ tbl tbl' k old Hold Hfold) | ].
  left. split; [reflexivity | ].
  destruct (store_events_last self now pre post e tbl tbl' k Hk Hpost Hfold)
    as (before & st & et & Hpre & Hs & He & Hrow).
  destruct (store_events_created_at self now pre tbl before k old Hold Hpre)
    as (r' & Hr' & Hc).
  exists now, st, et. split; [exact Hnow | ]. split; [exact Hs | ].
  split; [exact He | ].
  rewrite Hrow, Hr'. cbn [fmap option_fmap option_map default].
  unfold row_with. rewrite Hk, Hc. reflexivity.
Qed.

(** The first write of an id stamps it with the time of that run. *)
Lemma first_insert_created_at (self : CalendarAgent.t) (clk : clock)
  (tbl tbl' : Cache.table) (post : list cal_event) (e : cal_event) (k : string) :
  Cache.keyed tbl !! k = None ->
  ce_id e = Some k ->
  CalendarAgent.stored self clk tbl (e :: post) = Ok tbl' ->
  exists r,
    Cache.keyed (fst (CalendarAgent._store_events self clk tbl (e :: post))) !! k
    = Some r
    /\ Ok (Cache.created_at r) = CalendarAgent.now_text self clk.
Proof.
  intros Hnone Hk Hst. unfold CalendarAgent._store_events. rewrite Hst.
  cbn [fst]. unfold CalendarAgent.stored in Hst.
  destruct (CalendarAgent.now_text self clk) as [now | ?];
    cbn [mbind result_bind rbind rfoldl] in Hst; [ | discriminate].
  destruct (CalendarAgent.store_event self now tbl e) as [tbl1 | ?] eqn:H1;
    cbn [mbind result_bind rbind] in Hst; [ | discriminate].
  destruct (store_event_same self now tbl tbl1 e k Hk H1)
    as (st & et & _ & _ & Hfirst).
  rewrite Hnone in Hfirst. cbn in Hfirst.
  destruct (store_events_created_at self now post tbl1 tbl' k _ Hfirst Hst)
    as (r & Hr & Hc).
  exists r. split; [exact Hr | ]. rewrite Hc. reflexivity.
Qed.

(** Over any number of refreshes the first creation stamp wins. *)
Lemma created_at_first_write_wins (self : CalendarAgent.t)
  (runs : list (clock * list cal_event)) (tbl : Cache.table)
  (k : string) (old : Cache.row) :
  Cache.keyed tbl !! k = Some old ->
  exists r, Cache.keyed (store_runs self tbl runs) !! k = Some r
            /\ Cache.created_at r = Cache.created_at old.
Proof.
  revert tbl old. induction runs as [ | [clk events] runs IH]; intros tbl old Hold.
  - cbn. eauto.
  - cbn [store_runs foldl fst snd].
    destruct (_store_events_cases self clk tbl events)
      as [(now & tbl' & _ & Hfold & ->) | (_ & ->)]; cbn [fst].
    + destruct (store_events_created_at self now events tbl tbl' k old Hold Hfold)
        as (r1 & Hr1 & Hc1).
      destruct (IH _ _ Hr1) as (r2 & Hr2 & Hc2).
      exists r2. split; [exact Hr2 | congruence].
    + exact (IH _ _ Hold).
Qed.

Lemma upsert_keeps_created_at_witness :
  Cache.keyed
    (fst (CalendarAgent._store_events kolkata_calendar_agent evening
            (fst (CalendarAgent._store_events kolkata_calendar_agent morning
                    Cache.empty [sample_cal_event]))
            ([] ++ moved_cal_event :: [])))
    !! "evt1"
  = Some {| Cache.id := Some "evt1";
            Cache.summary := "Standup (moved)";
            Cache.description := Some "";
            Cache.start_time := "2024-03-12 04:30:00";
            Cache.end_time := "2024-03-12 05:00:00";
            Cache.location := Some "Room 2";
            Cache.attendees := Some (dq "['ana@example.com']");
            Cache.status := Some "confirmed";
            Cache.html_link := Some "";
            Cache.created_at := "2024-03-10 08:00:00";
            Cache.updated_at := "2024-03-10 18:45:10" |}.
Proof.
  destruct (upsert_keeps_created_at kolkata_calendar_agent evening
              (fst (CalendarAgent._store_events kolkata_calendar_agent morning
                      Cache.empty [sample_cal_event]))
              [] [] moved_cal_event "evt1"
              (row_with sample_cal_event "2024-03-11 09:00:00"
                 "2024-03-11 09:30:00" "2024-03-10 08:00:00" "2024-03-10 08:00:00")
              ltac:(vm_compute; reflexivity) eq_refl ltac:(constructor))
    as [_ [(_ & now & st & et & Hnow & Hs & He & Hrow) | (_ & Hnone)]].
  - rewrite Hrow. vm_compute in Hnow, Hs, He.
    injection Hnow as <-. injection Hs as <-. injection He as <-.
    reflexivity.
  - vm_compute in Hnone. discriminate Hnone.
Defined.

Example upsert_twice_in_one_batch :
  Cache.created_at <$>
    Cache.keyed
      (fst (CalendarAgent._store_events kolkata_calendar_agent evening
              (fst (CalendarAgent._store_events kolkata_calendar_agent morning
                      Cache.empty [sample_cal_event]))
              [moved_cal_event; sample_cal_event]))
      !! "evt1"
  = Some "2024-03-10 08:00:00"
  /\ snd (CalendarAgent._store_events kolkata_calendar_agent evening Cache.empty
            [moved_cal_event; sample_cal_event]) = 2%nat.
Proof. vm_compute. split; reflexivity. Qed.

(** ** CalendarManagementAgent.modify_event *)



Lemma to_utc_aware (self : CalendarManagementAgent.t) (w off : Z) :
  CalendarManagementAgent.to_utc self (PyTime.Aware w off)
  = if PyTime.in_range (w - off) then Ok (PyTime.Aware (w - off) 0)
    else Raise PyTime.overflow.
Proof.
  unfold CalendarManagementAgent.to_utc.
  destruct (CalendarManagementAgent.timezone_manager self);
    [apply convert_to_utc_aware | apply astimezone_utc].
Qed.

(** The conversion gives an aware datetime when a timezone manager is
    configured or the datetime is aware already. *)
Lemma to_utc_is_aware (self : CalendarManagementAgent.t) (dt utc : PyTime.datetime) :
  CalendarManagementAgent.to_utc self dt = Ok utc ->
  is_aware utc
  = match CalendarManagementAgent.timezone_manager self with
    | Some _ => true
    | None => is_aware dt
    end.
Proof.
  destruct dt as [w | w off].
  - unfold CalendarManagementAgent.to_utc.
    destruct (CalendarManagementAgent.timezone_manager self) as [tm | ].
    + cbn [TimezoneManager.convert_to_utc].
      destruct (Pytz.localize _ w) as [off | ?]; cbn [mbind result_bind rbind];
        [ | discriminate].
      rewrite astimezone_utc. destruct (PyTime.in_range _); [ | discriminate].
      intros [= <-]. reflexivity.
    + intros [= <-]. reflexivity.
  - rewrite to_utc_aware. destruct (PyTime.in_range _); [ | discriminate].
    intros [= <-]. now destruct (CalendarManagementAgent.timezone_manager self).
Qed.


(** [dt + td] is the datetime [td] later, when that is a datetime. *)
Lemma add_cases (dt : PyTime.datetime) (td : Z) :
  PyTime.add dt td
  = if PyTime.in_range (PyTime.wall_of (later dt td)) then Ok (later dt td)
    else Raise PyTime.overflow.
Proof. destruct dt; reflexivity. Qed.




(** C7, as the code has it.  In the body [modify_event] sends to the
    provider, description, location and attendees keep the original value
    for a None argument and take the given value otherwise, the empty
    string or list included; summary keeps the original value for None and
    for the empty string alike, and only a non-empty summary replaces
    it. *)
Theorem modify_body_merges_fields (self : CalendarManagementAgent.t)
  (event body : provider_event) (summary : option string)
  (start_time end_time : option PyTime.datetime)
  (description location : option string) (attendees : option (list string)) :
  CalendarManagementAgent.modify_body self event summary start_time end_time
    description location attendees = Ok body ->
  pe_description body
  = match description with
    | None => pe_description event
    | Some d => Some d
    end
  /\ pe_location body
     = match location with
       | None => pe_location event
       | Some l => Some l
       end
  /\ pe_attendees body
     = match attendees with
       | None => pe_attendees event
       | Some emails => Some (map Some emails)
       end
  /\ pe_summary body
     = match summary with
       | None | Some EmptyString => pe_summary event
       | Some s => Some s
       end.
Proof.
  unfold CalendarManagementAgent.modify_body.
  destruct (CalendarManagementAgent.inferred_end event start_time end_time)
    as [et | e]; cbn [mbind result_bind rbind]; [ | discriminate].
  destruct (match start_time with
            | Some st => CalendarManagementAgent.sent_time self st
            | None => Ok (pe_start event)
            end) as [s' | e]; cbn [mbind result_bind rbind]; [ | discriminate].
  destruct (match et with
            | Some t => CalendarManagementAgent.sent_time self t
            | None => Ok (pe_end event)
            end) as [e' | e]; cbn [mbind result_bind rbind]; [ | discriminate].
  intros [= <-]. cbn.
  destruct description, location, attendees, summary as [[ | c title] | ];
    repeat split; reflexivity.
Qed.

Lemma modify_body_merges_fields_witness :
  CalendarManagementAgent.modify_body new_york_agent lunch_event
    (Some "") None None (Some "") None (Some [])
  = Ok {| pe_id := Some "lun1"; pe_summary := Some "Lunch";
          pe_description := Some ""; pe_location := None;
          pe_attendees := Some [];
          pe_start := pe_start lunch_event; pe_end := pe_end lunch_event;
          pe_status := Some "confirmed"; pe_htmlLink := None |}
  /\ pe_description
       {| pe_id := Some "lun1"; pe_summary := Some "Lunch";
          pe_description := Some ""; pe_location := None;
          pe_attendees := Some [];
          pe_start := pe_start lunch_event; pe_end := pe_end lunch_event;
          pe_status := Some "confirmed"; pe_htmlLink := None |}
     = Some "".
Proof.
  split; [reflexivity | ].
  apply (modify_body_merges_fields new_york_agent lunch_event _
           (Some "") None None (Some "") None (Some [])).
  reflexivity.
Defined.

(** C7 as stated fails for summary: the empty string does not clear it;
    it is taken as no change, exactly like None. *)
Lemma modify_empty_summary_is_no_change :
  CalendarManagementAgent.modify_body new_york_agent lunch_event
    (Some "") None None None None None
  = CalendarManagementAgent.modify_body new_york_agent lunch_event
      None None None None None None
  /\ (body ← CalendarManagementAgent.modify_body new_york_agent lunch_event
               (Some "") None None None None None;
      Ok (pe_summary body)) = Ok (Some "Lunch")
  /\ (body ← CalendarManagementAgent.modify_body new_york_agent lunch_event
               None None None (Some "") None None;
      Ok (pe_description body)) = Ok (Some "").
Proof. repeat split. Qed.

(** ** CalendarManagementAgent.check_conflicts *)

Lemma lt_reading (a b : PyTime.datetime) (r : bool) :
  PyTime.lt a b = Ok r -> r = (reading a <? reading b).
Proof. destruct a, b; cbn; intros H; inversion H; reflexivity. Qed.

Lemma lt_aware (a b : PyTime.datetime) :
  is_aware a = true -> is_aware b = true ->
  PyTime.lt a b = Ok (reading a <? reading b).
Proof. destruct a, b; cbn; intros Ha Hb; try discriminate; reflexivity. Qed.

(** When the comparison succeeds it is the strict test on the readings. *)
Lemma overlaps_reading (su eu es ee : PyTime.datetime) (r : bool) :
  CalendarManagementAgent.overlaps su eu es ee = Ok r ->
  r = true -> reading su < reading ee /\ reading es < reading eu.
Proof.
  unfold CalendarManagementAgent.overlaps, PyTime.gt.
  destruct (PyTime.lt su ee) as [b1 | e] eqn:H1; cbn; [ | discriminate].
  apply lt_reading in H1. destruct b1.
  - intros H2 ->. apply lt_reading in H2. lia.
  - intros [= <-]. discriminate.
Qed.

Lemma overlaps_aware (su eu es ee : PyTime.datetime) :
  is_aware su = true -> is_aware eu = true ->
  is_aware es = true -> is_aware ee = true ->
  CalendarManagementAgent.overlaps su eu es ee
  = Ok (strictly_overlaps (reading su) (reading eu) (reading es) (reading ee)).
Proof.
  intros Hsu Heu Hes Hee.
  unfold CalendarManagementAgent.overlaps, PyTime.gt, strictly_overlaps.
  rewrite (lt_aware su ee Hsu Hee). cbn.
  destruct (reading su <? reading ee); cbn; [ | reflexivity].
  rewrite (lt_aware es eu Hes Heu). f_equal. rewrite Z.gtb_ltb. reflexivity.
Qed.

(** The code skips an event exactly when the specification excludes it,
    as long as the event has a non-empty id. *)
Lemma skipped_not_excluded (exclude : option string) (e : provider_event) :
  pe_id e <> Some "" ->
  CalendarManagementAgent.skipped exclude (pe_id e) = negb (not_excluded exclude e).
Proof.
  intros Hid. unfold CalendarManagementAgent.skipped, not_excluded.
  destruct exclude as [[ | c x] | ]; cbn; try reflexivity.
  - rewrite bool_decide_eq_false_2; [reflexivity | exact Hid].
  - rewrite negb_involutive. destruct (pe_id e) as [y | ].
    + destruct (String.eqb_spec y (String c x)) as [-> | Hne].
      * rewrite bool_decide_eq_true_2; reflexivity.
      * rewrite bool_decide_eq_false_2; [reflexivity | congruence].
    + rewrite bool_decide_eq_false_2; [reflexivity | discriminate].
Qed.

(** The report of the code on an event is the one the specification
    asks for. *)
Lemma conflict_of_expected (e : provider_event) (es ee : PyTime.datetime) :
  CalendarManagementAgent.conflict_of e es ee = expected_report e es ee.
Proof.
  unfold CalendarManagementAgent.conflict_of, expected_report.
  destruct (pe_summary e), (pe_location e); reflexivity.
Qed.

Lemma scan_conflicts_expected (su eu : PyTime.datetime) (exclude : option string)
  (items : list provider_event) :
  is_aware su = true -> is_aware eu = true ->
  Forall (fun e => well_formed_event e = true) items ->
  CalendarManagementAgent.scan_conflicts su eu exclude items
  = Ok (expected_conflicts (reading su) (reading eu) exclude items).
Proof.
  intros Hsu Heu Hall.
  induction Hall as [ | e items He _ IH]; cbn [CalendarManagementAgent.scan_conflicts
                                                 expected_conflicts].
  - reflexivity.
  - unfold well_formed_event in He. apply andb_true_iff in He as [Hid Htimes].
    apply negb_true_iff, bool_decide_eq_false_1 in Hid.
    rewrite (skipped_not_excluded exclude e Hid).
    destruct (CalendarManagementAgent.event_times e) as [[es ee] | err];
      [ | discriminate].
    apply andb_true_iff in Htimes as [Hes Hee].
    destruct (not_excluded exclude e); cbn [negb andb].
    + cbn. rewrite (overlaps_aware su eu es ee Hsu Heu Hes Hee). cbn.
      rewrite IH. cbn. rewrite conflict_of_expected. reflexivity.
    + exact IH.
Qed.

Lemma scan_conflicts_strict (su eu : PyTime.datetime) (exclude : option string)
  (items : list provider_event) (found : list CalendarManagementAgent.conflict) :
  CalendarManagementAgent.scan_conflicts su eu exclude items = Ok found ->
  forall c, In c found ->
    reading su < reading (CalendarManagementAgent.c_end c)
    /\ reading (CalendarManagementAgent.c_start c) < reading eu.
Proof.
  revert found. induction items as [ | e items IH]; intros found; cbn.
  - intros [= <-] c [].
  - destruct (CalendarManagementAgent.skipped exclude (pe_id e)); [apply IH | ].
    destruct (CalendarManagementAgent.event_times e) as [[es ee] | err];
      cbn; [ | discriminate].
    destruct (CalendarManagementAgent.overlaps su eu es ee) as [b | err] eqn:Hov;
      cbn; [ | discriminate].
    destruct (CalendarManagementAgent.scan_conflicts su eu exclude items)
      as [tail | err]; cbn; [ | discriminate].
    intros [= <-] c Hc. destruct b.
    + destruct Hc as [<- | Hc]; [ | exact (IH tail eq_refl c Hc)].
      cbn. exact (overlaps_reading _ _ _ _ _ Hov eq_refl).
    + exact (IH tail eq_refl c Hc).
Qed.

(** [check_conflicts] once the two conversions have succeeded. *)
Lemma check_conflicts_converted (self : CalendarManagementAgent.t)
  (start_time end_time su eu : PyTime.datetime) (exclude : option string) :
  CalendarManagementAgent.to_utc self start_time = Ok su ->
  CalendarManagementAgent.to_utc self end_time = Ok eu ->
  CalendarManagementAgent.check_conflicts self start_time end_time exclude
  = match
      items ← events_list (CalendarManagementAgent.service self)
                (PyTime.strftime_rfc su) (PyTime.strftime_rfc eu);
      CalendarManagementAgent.scan_conflicts su eu exclude (default [] items)
    with
    | Ok conflicts => conflicts
    | Raise _ => []
    end.
Proof.
  intros Hs He. unfold CalendarManagementAgent.check_conflicts.
  rewrite Hs. cbn [mbind result_bind rbind]. rewrite He. reflexivity.
Qed.

(** When a conversion raises, the provider is not asked and nothing is
    reported. *)
Lemma check_conflicts_not_converted (self : CalendarManagementAgent.t)
  (start_time end_time : PyTime.datetime) (exclude : option string) :
  (exists e, CalendarManagementAgent.to_utc self start_time = Raise e)
  \/ (exists e, CalendarManagementAgent.to_utc self end_time = Raise e) ->
  CalendarManagementAgent.check_conflicts self start_time end_time exclude = [].
Proof.
  unfold CalendarManagementAgent.check_conflicts.
  intros [(e & ->) | (e & He)]; [reflexivity | ].
  destruct (CalendarManagementAgent.to_utc self start_time);
    cbn [mbind result_bind rbind]; [ | reflexivity].
  rewrite He. reflexivity.
Qed.

(** C1, as the code has it.  When the proposed times convert to UTC as
    zone-aware datetimes (a timezone manager is configured, or the
    proposal is aware) and every event the provider lists is well formed
    (a non-empty id, a start and an end that read as zone-aware
    datetimes), [check_conflicts] reports exactly the fetched events that
    are not excluded and whose range satisfies the strict test
    start < other end and end > other start against the converted
    proposal, each with its id, title, times and location.  And whatever
    the inputs, every conflict reported strictly overlaps the proposed
    range, so a range that only touches an endpoint of the proposed one
    is never reported. *)
Theorem check_conflicts_half_open (self : CalendarManagementAgent.t)
  (start_time end_time : PyTime.datetime) (exclude : option string) :
  (forall start_utc end_utc listed,
      CalendarManagementAgent.to_utc self start_time = Ok start_utc ->
      CalendarManagementAgent.to_utc self end_time = Ok end_utc ->
      events_list (CalendarManagementAgent.service self)
        (PyTime.strftime_rfc start_utc) (PyTime.strftime_rfc end_utc)
      = Ok listed ->
      is_aware start_utc = true -> is_aware end_utc = true ->
      Forall (fun e => well_formed_event e = true) (default [] listed) ->
      CalendarManagementAgent.check_conflicts self start_time end_time exclude
      = expected_conflicts (reading start_utc) (reading end_utc) exclude
          (default [] listed))
  /\ (forall c,
        In c (CalendarManagementAgent.check_conflicts self start_time end_time
                exclude) ->
        exists start_utc end_utc,
          CalendarManagementAgent.to_utc self start_time = Ok start_utc
          /\ CalendarManagementAgent.to_utc self end_time = Ok end_utc
          /\ (reading start_utc < reading (CalendarManagementAgent.c_end c)
              /\ reading end_utc > reading (CalendarManagementAgent.c_start c))
          /\ reading end_utc <> reading (CalendarManagementAgent.c_start c)
          /\ reading start_utc <> reading (CalendarManagementAgent.c_end c)).
Proof.
  split.
  - intros start_utc end_utc listed Hsu Heu Hlist Hs He Hall.
    rewrite (check_conflicts_converted _ _ _ _ _ _ Hsu Heu), Hlist. cbn.
    rewrite (scan_conflicts_expected _ _ _ _ Hs He Hall). reflexivity.
  - intros c.
    destruct (CalendarManagementAgent.to_utc self start_time) as [su | e1] eqn:Hsu;
      [ | rewrite check_conflicts_not_converted by (left; eauto); intros []].
    destruct (CalendarManagementAgent.to_utc self end_time) as [eu | e2] eqn:Heu;
      [ | rewrite check_conflicts_not_converted by (right; eauto); intros []].
    rewrite (check_conflicts_converted _ _ _ _ _ _ Hsu Heu).
    destruct (events_list _ _ _) as [items | err]; cbn; [ | intros []].
    destruct (CalendarManagementAgent.scan_conflicts su eu exclude
                (default [] items)) as [found | err] eqn:Hscan; [ | intros []].
    intros Hc. pose proof (scan_conflicts_strict _ _ _ _ _ Hscan c Hc).
    exists su, eu. repeat split; lia.
Qed.

(** A proposal of 10:30 to 12:00 in New York on 11 March 2024 touches
    the end of the review (09:00 to 10:30) and the start of the lunch
    (12:00 to 13:00 there): nothing conflicts.  Half an hour earlier it
    conflicts with the review, unless the review is the event being
    moved. *)
Lemma check_conflicts_half_open_witness :
  CalendarManagementAgent.check_conflicts new_york_agent
    (PyTime.Naive (wall 2024 3 11 10 30 0)) (PyTime.Naive (wall 2024 3 11 12 0 0))
    None
  = []
  /\ CalendarManagementAgent.check_conflicts new_york_agent
       (PyTime.Naive (wall 2024 3 11 10 0 0)) (PyTime.Naive (wall 2024 3 11 12 0 0))
       None
     = [ {| CalendarManagementAgent.c_id := Some "rev1";
            CalendarManagementAgent.c_summary := "Design review";
            CalendarManagementAgent.c_start :=
              PyTime.Aware (wall 2024 3 11 9 0 0) (-4 * PyTime.us_hour);
            CalendarManagementAgent.c_end :=
              PyTime.Aware (wall 2024 3 11 10 30 0) (-4 * PyTime.us_hour);
            CalendarManagementAgent.c_location := "" |} ]
  /\ CalendarManagementAgent.check_conflicts new_york_agent
       (PyTime.Naive (wall 2024 3 11 10 0 0)) (PyTime.Naive (wall 2024 3 11 12 0 0))
       (Some "rev1")
     = [].
Proof.
  split; [ | split].
  - apply (proj1 (check_conflicts_half_open new_york_agent
                    (PyTime.Naive (wall 2024 3 11 10 30 0))
                    (PyTime.Naive (wall 2024 3 11 12 0 0)) None)
             (PyTime.Aware (wall 2024 3 11 14 30 0) 0)
             (PyTime.Aware (wall 2024 3 11 16 0 0) 0)
             (Some [review_event; lunch_event]));
      [reflexivity | reflexivity | reflexivity | reflexivity | reflexivity | ].
    repeat constructor.
  - apply (proj1 (check_conflicts_half_open new_york_agent
                    (PyTime.Naive (wall 2024 3 11 10 0 0))
                    (PyTime.Naive (wall 2024 3 11 12 0 0)) None)
             (PyTime.Aware (wall 2024 3 11 14 0 0) 0)
             (PyTime.Aware (wall 2024 3 11 16 0 0) 0)
             (Some [review_event; lunch_event]));
      [reflexivity | reflexivity | reflexivity | reflexivity | reflexivity | ].
    repeat constructor.
  - apply (proj1 (check_conflicts_half_open new_york_agent
                    (PyTime.Naive (wall 2024 3 11 10 0 0))
                    (PyTime.Naive (wall 2024 3 11 12 0 0)) (Some "rev1"))
             (PyTime.Aware (wall 2024 3 11 14 0 0) 0)
             (PyTime.Aware (wall 2024 3 11 16 0 0) 0)
             (Some [review_event; lunch_event]));
      [reflexivity | reflexivity | reflexivity | reflexivity | reflexivity | ].
    repeat constructor.
Defined.

(** C1 as stated fails where the check fails open.  The review runs
    from 13:00 to 14:30 UTC and strictly overlaps a proposal of 14:00 to
    16:00, so the claim asks for it to be reported.  An agent built
    without a timezone manager leaves a naive proposal naive, the
    comparison with the aware times of the provider raises, and nothing
    is reported.  And with a timezone manager, one listed event whose
    times cannot be read makes the check report nothing, the overlapping
    review included. *)
Lemma check_conflicts_misses_overlap :
  expected_conflicts (wall 2024 3 11 14 0 0) (wall 2024 3 11 16 0 0) None
    [review_event; lunch_event]
  = [expected_report review_event
       (PyTime.Aware (wall 2024 3 11 9 0 0) (-4 * PyTime.us_hour))
       (PyTime.Aware (wall 2024 3 11 10 30 0) (-4 * PyTime.us_hour))]
  /\ CalendarManagementAgent.check_conflicts plain_agent
       (PyTime.Naive (wall 2024 3 11 14 0 0)) (PyTime.Naive (wall 2024 3 11 16 0 0))
       None
     = []
  /\ expected_conflicts (wall 2024 3 11 14 0 0) (wall 2024 3 11 16 0 0) None
       [review_event; broken_event]
     = [expected_report review_event
          (PyTime.Aware (wall 2024 3 11 9 0 0) (-4 * PyTime.us_hour))
          (PyTime.Aware (wall 2024 3 11 10 30 0) (-4 * PyTime.us_hour))]
  /\ CalendarManagementAgent.check_conflicts broken_agent
       (PyTime.Naive (wall 2024 3 11 10 0 0)) (PyTime.Naive (wall 2024 3 11 12 0 0))
       None
     = [].
Proof. vm_compute. repeat split; reflexivity. Qed.

(** On an error of the provider the check reports nothing. *)
Lemma check_conflicts_provider_error (self : CalendarManagementAgent.t)
  (start_time end_time su eu : PyTime.datetime) (exclude : option string)
  (e : exn) :
  CalendarManagementAgent.to_utc self start_time = Ok su ->
  CalendarManagementAgent.to_utc self end_time = Ok eu ->
  events_list (CalendarManagementAgent.service self)
    (PyTime.strftime_rfc su) (PyTime.strftime_rfc eu)
  = Raise e ->
  CalendarManagementAgent.check_conflicts self start_time end_time exclude = [].
Proof.
  intros Hs He Hl. rewrite (check_conflicts_converted _ _ _ _ _ _ Hs He), Hl.
  reflexivity.
Qed.

(** An all-day event is given by dates, read as midnight UTC. *)
Example event_times_all_day :
  CalendarManagementAgent.event_times
    {| pe_id := Some "day1"; pe_summary := Some "Offsite"; pe_description := None;
       pe_location := None; pe_attendees := None;
       pe_start := {| dateTime := None; date := Some "2024-03-11"; timeZone := None |};
       pe_end := {| dateTime := None; date := Some "2024-03-12"; timeZone := None |};
       pe_status := None; pe_htmlLink := None |}
  = Ok (PyTime.Aware (wall 2024 3 11 0 0 0) 0, PyTime.Aware (wall 2024 3 12 0 0 0) 0).
Proof. vm_compute. reflexivity. Qed.

(** ** DatabaseAgent.execute_query *)

Lemma all_chars_app (ok : ascii -> bool) (a b : string) :
  all_chars ok (a +:+ b) = all_chars ok a && all_chars ok b.
Proof.
  induction a as [ | c a IH]; simpl; [reflexivity | ].
  rewrite IH. apply andb_assoc.
Qed.

Lemma string_app_assoc (a b c : string) : (a +:+ b) +:+ c = a +:+ (b +:+ c).
Proof.
  induction a as [ | x a IH]; [reflexivity | ].
  change (String x ((a +:+ b) +:+ c) = String x (a +:+ (b +:+ c))).
  f_equal. exact IH.
Qed.

Section Consumes.

Variable ok : ascii -> bool.

Lemma consumes_ret {A} (a : A) : consumes ok (Re.ret a).
Proof.
  intros s a' r [[= <- <-] | []]. exists EmptyString. split; reflexivity.
Qed.

Lemma consumes_fail {A} : consumes ok (fun _ => [] : list (A * string)).
Proof. intros s a r []. Qed.

Lemma consumes_bind {A B} (p : Re.P A) (k : A -> Re.P B) :
  consumes ok p -> (forall a, consumes ok (k a)) -> consumes ok (Re.bind p k).
Proof.
  intros Hp Hk s b r Hin. unfold Re.bind in Hin.
  apply in_flat_map in Hin as ([a r1] & Hin1 & Hin2).
  destruct (Hp _ _ _ Hin1) as (pre1 & -> & Hpre1).
  destruct (Hk a _ _ _ Hin2) as (pre2 & -> & Hpre2).
  exists (pre1 +:+ pre2). split.
  - symmetry. apply string_app_assoc.
  - rewrite all_chars_app, Hpre1, Hpre2. reflexivity.
Qed.

Lemma consumes_alt {A} (p q : Re.P A) :
  consumes ok p -> consumes ok q -> consumes ok (Re.alt p q).
Proof.
  intros Hp Hq s a r Hin. unfold Re.alt in Hin.
  apply in_app_or in Hin as [Hin | Hin]; eauto.
Qed.

Lemma consumes_sat (f : ascii -> bool) :
  (forall c, f c = true -> ok c = true) -> consumes ok (Re.sat f).
Proof.
  intros Hf [ | c s] a r; cbn; [intros [] | ].
  destruct (f c) eqn:Hc; [ | intros []].
  intros [[= <- <-] | []]. exists (String c EmptyString). split; [reflexivity | ].
  cbn. rewrite (Hf c Hc). reflexivity.
Qed.

Lemma consumes_chr (c : ascii) : ok c = true -> consumes ok (Re.chr c).
Proof.
  intros Hc. apply consumes_bind; [ | intros; apply consumes_ret].
  apply consumes_sat. intros c' Heq. apply Ascii.eqb_eq in Heq. now subst.
Qed.

Hypothesis ok_digit : forall c, PyStr.isdecimal c = true -> ok c = true.
Hypothesis ok_space : forall c, PyStr.isspace c = true -> ok c = true.

Lemma consumes_dig (lo hi : Z) : consumes ok (Re.dig lo hi).
Proof.
  apply consumes_bind; [apply consumes_sat, ok_digit | ].
  intros c. cbn zeta. destruct (_ && _); [apply consumes_ret | apply consumes_fail].
Qed.

Lemma consumes_two (p q : Re.P Z) :
  consumes ok p -> consumes ok q -> consumes ok (Re.two p q).
Proof.
  intros Hp Hq. apply consumes_bind; [exact Hp | intros a].
  apply consumes_bind; [exact Hq | intros b]. apply consumes_ret.
Qed.

Lemma consumes_spaces1 : consumes ok Re.spaces1.
Proof.
  intros s. induction s as [ | c s IH]; intros a r; cbn; [intros [] | ].
  destruct (PyStr.isspace c) eqn:Hc; [ | intros []].
  intros Hin. apply in_app_or in Hin as [Hin | [[= <- <-] | []]].
  - destruct (IH _ _ Hin) as (pre & -> & Hpre).
    exists (String c pre). split; [reflexivity | ].
    cbn. rewrite (ok_space c Hc), Hpre. reflexivity.
  - exists (String c EmptyString). split; [reflexivity | ].
    cbn. rewrite (ok_space c Hc). reflexivity.
Qed.

End Consumes.

Lemma sqlite_char_digit (c : ascii) :
  PyStr.isdecimal c = true -> sqlite_char c = true.
Proof. intros H. unfold sqlite_char. rewrite H. reflexivity. Qed.

Lemma sqlite_char_space (c : ascii) :
  PyStr.isspace c = true -> sqlite_char c = true.
Proof. intros H. unfold sqlite_char. rewrite H. now destruct (PyStr.isdecimal c). Qed.

Ltac consumes_tac :=
  repeat first
    [ apply consumes_ret
    | apply (consumes_dig _ sqlite_char_digit)
    | apply consumes_two
    | apply consumes_alt
    | apply consumes_chr; reflexivity
    | apply (consumes_spaces1 _ sqlite_char_space)
    | apply consumes_bind; [ | intros ? ] ].

Lemma re_sqlite_consumes : consumes sqlite_char PyTime.re_sqlite.
Proof.
  unfold PyTime.re_sqlite, PyTime.re_Y, PyTime.re_m, PyTime.re_d, PyTime.re_H,
    PyTime.re_M, PyTime.re_S, Re.d4, Re.d2, Re.digit.
  consumes_tac.
Qed.

Lemma contains_char_app (c : ascii) (a b : string) :
  PyStr.contains_char c (a +:+ b)
  = PyStr.contains_char c a || PyStr.contains_char c b.
Proof.
  induction a as [ | x a IH]; simpl; [reflexivity | ].
  rewrite IH. apply orb_assoc.
Qed.

Lemma all_chars_no_T (s : string) :
  all_chars sqlite_char s = true -> PyStr.contains_char "T" s = false.
Proof.
  induction s as [ | c s IH]; cbn [all_chars PyStr.contains_char];
    [reflexivity | ].
  intros H. apply andb_true_iff in H as [Hc Hs]. rewrite (IH Hs).
  destruct (Ascii.eqb_spec "T"%char c) as [<- | Hne]; [discriminate Hc | reflexivity].
Qed.

(** [strptime] with the storage format rejects every text that has a
    T. *)
Lemma strptime_sqlite_rejects_T (s : string) :
  PyStr.contains_char "T" s = true ->
  exists e, PyTime.strptime_sqlite s = Raise e.
Proof.
  intros HT. unfold PyTime.strptime_sqlite.
  destruct (PyTime.re_sqlite s) as [ | [f [ | c r]] rest] eqn:Hre; eauto.
  exfalso.
  destruct (re_sqlite_consumes s f EmptyString) as (pre & Hs & Hpre).
  { rewrite Hre. left. reflexivity. }
  apply all_chars_no_T in Hpre.
  rewrite Hs, contains_char_app, Hpre in HT. discriminate HT.
Qed.

Lemma rmapM_raises {A B} (f : A -> result B) (l : list A) :
  Exists (fun a => exists e, f a = Raise e) l ->
  exists e, rmapM f l = Raise e.
Proof.
  induction 1 as [a l (e & He) | a l _ (e & IH)]; cbn.
  - rewrite He. cbn. eauto.
  - destruct (f a); cbn; [ | eauto]. rewrite IH. cbn. eauto.
Qed.

Lemma event_of_row_raises_on_T (self : DatabaseAgent.t) (tm : TimezoneManager.t)
  (r : Cache.row) :
  DatabaseAgent.timezone_manager self = Some tm ->
  PyStr.contains_char "T" (Cache.start_time r) = true
  \/ PyStr.contains_char "T" (Cache.end_time r) = true ->
  exists e, DatabaseAgent.event_of_row self r = Raise e.
Proof.
  intros Htm HT. unfold DatabaseAgent.event_of_row. rewrite Htm.
  destruct (DatabaseAgent.parse_either (Cache.start_time r)); cbn; [ | eauto].
  destruct (DatabaseAgent.parse_either (Cache.end_time r)); cbn; [ | eauto].
  destruct HT as [HT | HT];
    destruct (strptime_sqlite_rejects_T _ HT) as (e & He).
  - unfold TimezoneManager.parse_from_sqlite. rewrite He. cbn. eauto.
  - destruct (TimezoneManager.parse_from_sqlite tm (Cache.start_time r));
      cbn [mbind result_bind rbind]; [ | eauto].
    unfold TimezoneManager.parse_from_sqlite. rewrite He. cbn. eauto.
Qed.

(** With a timezone manager configured, one row whose start or end is in
    the ISO format makes the whole query come back empty. *)
Lemma execute_query_iso_row_empties_result (self : DatabaseAgent.t)
  (tm : TimezoneManager.t) (sql : string) (rows : list Cache.row) :
  DatabaseAgent.timezone_manager self = Some tm ->
  DatabaseAgent.conn self sql = Ok rows ->
  Exists (fun r => PyStr.contains_char "T" (Cache.start_time r) = true
                   \/ PyStr.contains_char "T" (Cache.end_time r) = true) rows ->
  DatabaseAgent.execute_query self sql = [].
Proof.
  intros Htm Hconn Hex. unfold DatabaseAgent.execute_query, DatabaseAgent.selected. rewrite Hconn. cbn.
  destruct (rmapM_raises (DatabaseAgent.event_of_row self) rows) as (e & He).
  - eapply Exists_impl; [exact Hex | ]. intros r Hr.
    exact (event_of_row_raises_on_T self tm r Htm Hr).
  - rewrite He. reflexivity.
Qed.

(** C6, on the code.  A row in the storage format is read with or
    without a timezone manager; a row in the ISO format with an offset is
    read without a timezone manager, but with one configured the read
    path parses the text a second time with the storage format only,
    which raises, and the query returns no event at all, the well-formed
    row included. *)
Theorem execute_query_iso_with_manager :
  DatabaseAgent.execute_query (database_agent [sqlite_row] None) "SELECT * FROM events"
  = [ {| de_id := Some "evt1"; de_summary := "Standup"; de_description := Some "";
         de_start := PyTime.Naive (wall 2024 3 11 9 0 0);
         de_end := PyTime.Naive (wall 2024 3 11 9 30 0);
         de_location := Some ""; de_attendees := Json.JArr [];
         de_status := Some "confirmed"; de_htmlLink := Some "" |} ]
  /\ DatabaseAgent.execute_query (database_agent [sqlite_row] (Some utc_manager))
       "SELECT * FROM events"
     = [standup_event "evt1"]
  /\ DatabaseAgent.execute_query (database_agent [iso_row] None)
       "SELECT * FROM events"
     = [standup_event "evt2"]
  /\ DatabaseAgent.execute_query (database_agent [iso_row] (Some utc_manager))
       "SELECT * FROM events"
     = []
  /\ DatabaseAgent.execute_query
       (database_agent [sqlite_row; iso_row] (Some utc_manager))
       "SELECT * FROM events"
     = [].
Proof. vm_compute. repeat split; reflexivity. Qed.

(** * Further properties

    Round trips of the texts the agents write, the refresh of the cache,
    and what the requests to the provider and the readers of replies do
    and never do. *)

(** ** The calendar behind datetime *)

Lemma all_from_spec (P : Z -> bool) (n : nat) :
  forall r0, all_from P r0 n = true ->
  forall r, r0 <= r < r0 + Z.of_nat n -> P r = true.
Proof.
  induction n as [ | k IH]; cbn [all_from]; intros r0 H r Hr; [lia | ].
  apply andb_true_iff in H as [Hk Hall].
  destruct (Z.eq_dec r r0) as [-> | Hne]; [exact Hk | ].
  apply (IH (r0 + 1)); [exact Hall | lia].
Qed.

Lemma cycle_days_ok : all_from cycle_day_ok 0 (Z.to_nat 146097) = true.
Proof. vm_compute. reflexivity. Qed.

Lemma is_leap_cycle (y q : Z) : PyTime.is_leap (y + 400 * q) = PyTime.is_leap y.
Proof.
  unfold PyTime.is_leap.
  replace (y + 400 * q) with (y + (100 * q) * 4) at 1 by lia.
  replace (y + 400 * q) with (y + (4 * q) * 100) at 1 by lia.
  replace (y + 400 * q) with (y + q * 400) by lia.
  now rewrite !Z_mod_plus_full.
Qed.

Lemma days_in_month_cycle (y m q : Z) :
  PyTime.days_in_month (y + 400 * q) m = PyTime.days_in_month y m.
Proof. unfold PyTime.days_in_month. now rewrite is_leap_cycle. Qed.

Lemma ymd2ord_cycle (y m d q : Z) :
  PyTime.ymd2ord (y + 400 * q) m d = PyTime.ymd2ord y m d + 146097 * q.
Proof.
  unfold PyTime.ymd2ord, PyTime.days_before_month, PyTime.days_before_year.
  rewrite is_leap_cycle. cbv zeta.
  replace (y + 400 * q - 1) with (y - 1 + (100 * q) * 4) at 2 by lia.
  replace (y + 400 * q - 1) with (y - 1 + (4 * q) * 100) at 2 by lia.
  replace (y + 400 * q - 1) with (y - 1 + q * 400) at 2 by lia.
  rewrite !Z.div_add by lia. lia.
Qed.

Lemma ord2ymd_cycle (q r : Z) :
  0 <= r < 146097 ->
  PyTime.ord2ymd (146097 * q + r + 1)
  = let '(y, m, d) := PyTime.ord2ymd (r + 1) in (y + 400 * q, m, d).
Proof.
  intros Hr. unfold PyTime.ord2ymd.
  replace (146097 * q + r + 1 - 1) with (r + q * 146097) by lia.
  replace (r + 1 - 1) with r by lia.
  rewrite Z.div_add, Z_mod_plus_full by lia.
  rewrite (Z.div_small r 146097), (Z.mod_small r 146097) by lia.
  cbv zeta.
  repeat match goal with
         | |- context [if ?c then _ else _] => destruct c
         end; f_equal; try f_equal; lia.
Qed.

(** [_ord2ymd] gives a date of the calendar, and [_ymd2ord] takes it back
    to the day number. *)
Lemma ord2ymd_ymd2ord (n : Z) :
  let '(y, m, d) := PyTime.ord2ymd n in
  1 <= m <= 12 /\ 1 <= d <= PyTime.days_in_month y m
  /\ PyTime.ymd2ord y m d = n.
Proof.
  pose proof (Z.div_mod (n - 1) 146097 ltac:(lia)) as Hdm.
  pose proof (Z.mod_pos_bound (n - 1) 146097 ltac:(lia)) as Hr.
  set (q := (n - 1) / 146097) in *. set (r := (n - 1) mod 146097) in *.
  replace n with (146097 * q + r + 1) by lia.
  rewrite ord2ymd_cycle by exact Hr.
  pose proof (all_from_spec cycle_day_ok _ 0 cycle_days_ok r ltac:(lia)) as Hok.
  unfold cycle_day_ok in Hok.
  destruct (PyTime.ord2ymd (r + 1)) as [[y m] d].
  rewrite !andb_true_iff in Hok.
  destruct Hok as [[[[[[H1 H2] H3] H4] H5] H6] H7].
  rewrite days_in_month_cycle, ymd2ord_cycle. lia.
Qed.

Lemma wall_of_fields_of_wall (w : Z) :
  PyTime.wall_of_fields (PyTime.fields_of_wall w) = w.
Proof.
  unfold PyTime.fields_of_wall.
  pose proof (ord2ymd_ymd2ord (w / PyTime.us_day)) as H.
  destruct (PyTime.ord2ymd (w / PyTime.us_day)) as [[y m] d].
  destruct H as (_ & _ & H).
  unfold PyTime.wall_of_fields; cbn [PyTime.year PyTime.month PyTime.day PyTime.hour PyTime.minute PyTime.second PyTime.microsecond].
  rewrite H.
  unfold PyTime.us_day, PyTime.us_hour, PyTime.us_minute, PyTime.us_second.
  Z.div_mod_to_equations. lia.
Qed.

Lemma days_before_year_succ y :
  PyTime.days_before_year (y + 1)
  = PyTime.days_before_year y + 365 + (if PyTime.is_leap y then 1 else 0).
Proof.
  unfold PyTime.days_before_year, PyTime.is_leap. cbv zeta.
  replace (y + 1 - 1) with y by lia.
  destruct (Z.eqb_spec (y mod 4) 0), (Z.eqb_spec (y mod 100) 0),
    (Z.eqb_spec (y mod 400) 0); cbn [andb orb negb];
    Z.div_mod_to_equations; lia.
Qed.

Lemma days_before_year_mono y y' :
  y <= y' -> PyTime.days_before_year y <= PyTime.days_before_year y'.
Proof.
  intros H. replace y' with (y + Z.of_nat (Z.to_nat (y' - y))) by lia.
  induction (Z.to_nat (y' - y)) as [ | n IH].
  - replace (y + Z.of_nat 0) with y by lia. lia.
  - replace (y + Z.of_nat (S n)) with (y + Z.of_nat n + 1) by lia.
    rewrite days_before_year_succ. destruct (PyTime.is_leap _); lia.
Qed.

Lemma ymd2ord_bounds y m d :
  1 <= m <= 12 -> 1 <= d <= PyTime.days_in_month y m ->
  PyTime.days_before_year y + 1 <= PyTime.ymd2ord y m d
  <= PyTime.days_before_year (y + 1).
Proof.
  intros Hm Hd. rewrite days_before_year_succ.
  unfold PyTime.ymd2ord, PyTime.days_before_month, PyTime.days_in_month in *.
  assert (Hc : m = 1 \/ m = 2 \/ m = 3 \/ m = 4 \/ m = 5 \/ m = 6 \/ m = 7
               \/ m = 8 \/ m = 9 \/ m = 10 \/ m = 11 \/ m = 12) by lia.
  destruct (PyTime.is_leap y);
    repeat (destruct Hc as [-> | Hc]; [cbn in *; lia | ]); subst m; cbn in *; lia.
Qed.

(** The datetimes are the readings whose year lies in 1 to 9999. *)
Lemma year_in_range w :
  1 <= PyTime.year (PyTime.fields_of_wall w) <= 9999
  <-> PyTime.in_range w = true.
Proof.
  unfold PyTime.fields_of_wall, PyTime.in_range.
  pose proof (ord2ymd_ymd2ord (w / PyTime.us_day)) as H.
  destruct (PyTime.ord2ymd (w / PyTime.us_day)) as [[y m] d].
  destruct H as (Hm & Hd & Hn). cbn [PyTime.year].
  pose proof (ymd2ord_bounds y m d Hm Hd) as Hb. rewrite Hn in Hb.
  assert (H1 : PyTime.days_before_year 1 = 0) by reflexivity.
  assert (H2 : PyTime.days_before_year 10000 = 3652059) by reflexivity.
  rewrite andb_true_iff, Z.leb_le, Z.ltb_lt.
  unfold PyTime.MAXORDINAL, PyTime.us_day, PyTime.us_hour, PyTime.us_minute,
    PyTime.us_second in *.
  split.
  - intros [Hy1 Hy2].
    pose proof (days_before_year_mono 1 y Hy1).
    pose proof (days_before_year_mono (y + 1) 10000 ltac:(lia)).
    split; Z.div_mod_to_equations; lia.
  - intros [Hw1 Hw2].
    destruct (Z_lt_le_dec y 1) as [Hlt | Hge].
    + pose proof (days_before_year_mono (y + 1) 1 ltac:(lia)).
      exfalso. Z.div_mod_to_equations; lia.
    + split; [exact Hge | ].
      destruct (Z_lt_le_dec 9999 y) as [Hgt | Hle]; [ | exact Hle].
      pose proof (days_before_year_mono 10000 y ltac:(lia)).
      exfalso. Z.div_mod_to_equations; lia.
Qed.

(** ** What the expressions find first in a printed text *)

Lemma append_cons c s r : String c s +:+ r = String c (s +:+ r).
Proof. reflexivity. Qed.

Lemma append_nil r : "" +:+ r = r.
Proof. reflexivity. Qed.

Lemma first_match_bind {A B} (p : Re.P A) (k : A -> Re.P B) s a r b r' :
  first_match p s a r -> first_match (k a) r b r' ->
  first_match (Re.bind p k) s b r'.
Proof.
  unfold first_match, Re.bind. intros Hp Hk.
  destruct (p s) as [ | [a0 r0] tl]; [discriminate | ].
  injection Hp as -> ->. cbn [flat_map].
  destruct (k a r) as [ | x tl']; [discriminate | ].
  exact Hk.
Qed.

Lemma first_match_ret {A} (a : A) s : first_match (Re.ret a) s a s.
Proof. reflexivity. Qed.

Lemma first_match_chr c r : first_match (Re.chr c) (String c r) tt r.
Proof.
  unfold first_match, Re.chr, Re.bind, Re.sat.
  now rewrite Ascii.eqb_refl.
Qed.

(** A goal about a number of a small range, by evaluation at each. *)
Tactic Notation "each_value" constr(n) integer(count) :=
  let k := fresh "k" in
  let Hn := fresh "Hn" in
  assert (Hn : exists k : nat, n = Z.of_nat k) by (exists (Z.to_nat n); lia);
  destruct Hn as [k ->];
  do count (destruct k as [ | k]; [first [lia | vm_compute; reflexivity] | ]);
  lia.

Lemma first_match_re_m m r :
  1 <= m <= 12 -> first_match PyTime.re_m (PyStr.pad0 2 m +:+ r) m r.
Proof. intros H. each_value m 13. Qed.

Lemma first_match_re_d d r :
  1 <= d <= 31 -> first_match PyTime.re_d (PyStr.pad0 2 d +:+ r) d r.
Proof. intros H. each_value d 32. Qed.

Lemma first_match_re_H h r :
  0 <= h <= 23 -> first_match PyTime.re_H (PyStr.pad0 2 h +:+ r) h r.
Proof. intros H. each_value h 24. Qed.

Lemma first_match_re_M mi r :
  0 <= mi <= 59 -> first_match PyTime.re_M (PyStr.pad0 2 mi +:+ r) mi r.
Proof. intros H. each_value mi 60. Qed.

Lemma first_match_re_S sec r :
  0 <= sec <= 59 -> first_match PyTime.re_S (PyStr.pad0 2 sec +:+ r) sec r.
Proof. intros H. each_value sec 60. Qed.

Lemma first_match_spaces1 h r :
  0 <= h <= 23 ->
  first_match Re.spaces1 (" " +:+ PyStr.pad0 2 h +:+ r) tt (PyStr.pad0 2 h +:+ r).
Proof. intros H. each_value h 24. Qed.

Lemma d2_pad0 n r :
  0 <= n <= 59 -> Re.d2 (PyStr.pad0 2 n +:+ r) = [(n, r)].
Proof. intros H. each_value n 60. Qed.

Lemma digit_digit_char a r :
  0 <= a <= 9 -> Re.digit (String (PyStr.digit_char a) r) = [(a, r)].
Proof. intros H. each_value a 10. Qed.

Lemma d2_digits a b r :
  0 <= a <= 9 -> 0 <= b <= 9 ->
  Re.d2 (String (PyStr.digit_char a) (String (PyStr.digit_char b) r))
  = [(10 * a + b, r)].
Proof.
  intros Ha Hb. unfold Re.d2, Re.two, Re.bind.
  rewrite digit_digit_char by exact Ha. cbn [flat_map].
  rewrite digit_digit_char by exact Hb. reflexivity.
Qed.

Lemma d4_digits a b c d r :
  0 <= a <= 9 -> 0 <= b <= 9 -> 0 <= c <= 9 -> 0 <= d <= 9 ->
  Re.d4 (String (PyStr.digit_char a) (String (PyStr.digit_char b)
           (String (PyStr.digit_char c) (String (PyStr.digit_char d) r))))
  = [(100 * (10 * a + b) + (10 * c + d), r)].
Proof.
  intros Ha Hb Hc Hd. unfold Re.d4, Re.bind.
  rewrite d2_digits by assumption. cbn [flat_map].
  rewrite d2_digits by assumption. reflexivity.
Qed.

(** [str(y)] for a year of four digits. *)
Lemma of_Z_four_digits y :
  1000 <= y <= 9999 ->
  PyStr.of_Z y
  = String (PyStr.digit_char (y / 1000)) (String (PyStr.digit_char (y / 100 mod 10))
      (String (PyStr.digit_char (y / 10 mod 10))
         (String (PyStr.digit_char (y mod 10)) ""))).
Proof.
  intros Hy. unfold PyStr.of_Z.
  destruct (Z.ltb_spec y 0) as [Hneg | _]; [lia | ].
  assert (Hlog : 9 <= Z.log2 y) by (apply Z.log2_le_pow2; lia).
  assert (Hfuel : exists f, (Z.to_nat (Z.log2 y) + 1)%nat = S (S (S (S f)))).
  { exists (Z.to_nat (Z.log2 y) - 3)%nat. lia. }
  destruct Hfuel as [f ->].
  cbn [PyStr.digits_aux].
  destruct (Z.eqb_spec (y / 10) 0) as [H0 | _];
    [exfalso; Z.div_mod_to_equations; lia | ].
  destruct (Z.eqb_spec (y / 10 / 10) 0) as [H0 | _];
    [exfalso; Z.div_mod_to_equations; lia | ].
  destruct (Z.eqb_spec (y / 10 / 10 / 10) 0) as [H0 | _];
    [exfalso; Z.div_mod_to_equations; lia | ].
  destruct (Z.eqb_spec (y / 10 / 10 / 10 / 10) 0) as [H4 | H0];
    [ | exfalso; Z.div_mod_to_equations; lia].
  replace (y / 10 / 10 / 10 mod 10) with (y / 1000)
    by (Z.div_mod_to_equations; lia).
  replace (y / 10 / 10 mod 10) with (y / 100 mod 10)
    by (Z.div_mod_to_equations; lia).
  reflexivity.
Qed.

Lemma first_match_re_Y y r :
  1000 <= y <= 9999 -> first_match PyTime.re_Y (PyStr.of_Z y +:+ r) y r.
Proof.
  intros Hy. unfold first_match, PyTime.re_Y.
  rewrite of_Z_four_digits by exact Hy.
  rewrite !append_cons, append_nil.
  rewrite d4_digits by (Z.div_mod_to_equations; lia).
  cbn [head]. do 2 f_equal. Z.div_mod_to_equations. lia.
Qed.

(** ** The storage format, read back *)

Lemma append_nil_r s : s +:+ "" = s.
Proof.
  induction s as [ | c s IH]; [reflexivity | ].
  rewrite append_cons. now rewrite IH.
Qed.

Lemma days_in_month_le y m : PyTime.days_in_month y m <= 31.
Proof.
  unfold PyTime.days_in_month.
  repeat match goal with |- context [if ?c then _ else _] => destruct c end; lia.
Qed.

Lemma fields_of_wall_valid w : valid_fields (PyTime.fields_of_wall w).
Proof.
  unfold valid_fields, PyTime.fields_of_wall.
  pose proof (ord2ymd_ymd2ord (w / PyTime.us_day)) as H.
  destruct (PyTime.ord2ymd (w / PyTime.us_day)) as [[y m] d].
  destruct H as (Hm & Hd & _).
  cbn [PyTime.year PyTime.month PyTime.day PyTime.hour PyTime.minute
       PyTime.second PyTime.microsecond].
  split; [exact Hm | ]. split; [exact Hd | ].
  unfold PyTime.us_day, PyTime.us_hour, PyTime.us_minute, PyTime.us_second.
  repeat split; Z.div_mod_to_equations; lia.
Qed.

Lemma microsecond_of_wall w :
  PyTime.microsecond (PyTime.fields_of_wall w) = w mod PyTime.us_second.
Proof.
  unfold PyTime.fields_of_wall.
  destruct (PyTime.ord2ymd (w / PyTime.us_day)) as [[y m] d].
  cbn [PyTime.microsecond].
  unfold PyTime.us_day, PyTime.us_hour, PyTime.us_minute, PyTime.us_second.
  Z.div_mod_to_equations; lia.
Qed.

Lemma wall_of_fields_whole_second f :
  PyTime.wall_of_fields (whole_second f)
  = PyTime.wall_of_fields f - PyTime.microsecond f.
Proof.
  destruct f as [y m d h mi sec us].
  unfold PyTime.wall_of_fields, whole_second.
  cbn [PyTime.year PyTime.month PyTime.day PyTime.hour PyTime.minute
       PyTime.second PyTime.microsecond].
  lia.
Qed.

Lemma wall_of_whole_second w :
  PyTime.wall_of_fields (whole_second (PyTime.fields_of_wall w))
  = w - w mod PyTime.us_second.
Proof.
  rewrite wall_of_fields_whole_second, wall_of_fields_of_wall,
    microsecond_of_wall.
  reflexivity.
Qed.

Lemma check_fields_valid f :
  1 <= PyTime.year f <= 9999 -> valid_fields f ->
  PyTime.check_fields f = Ok (PyTime.wall_of_fields f).
Proof.
  intros Hy (Hm & Hd & Hh & Hmi & Hs & Hus). unfold PyTime.check_fields.
  repeat match goal with
         | |- context [negb (?a && ?b)] =>
             replace (a && b) with true
               by (symmetry; apply andb_true_iff; split; apply Z.leb_le; lia);
             cbn [negb]
         end.
  reflexivity.
Qed.

Lemma valid_whole_second f : valid_fields f -> valid_fields (whole_second f).
Proof. unfold valid_fields, whole_second. cbn. intuition lia. Qed.

(** The expression of the storage format finds, first, the fields that
    were printed. *)
Lemma first_match_re_sqlite f :
  1000 <= PyTime.year f <= 9999 -> valid_fields f ->
  first_match PyTime.re_sqlite
    (PyTime.strftime_date f +:+ " " +:+ PyTime.strftime_time f)
    (whole_second f) "".
Proof.
  intros Hy (Hm & Hd & Hh & Hmi & Hs & Hus).
  pose proof (days_in_month_le (PyTime.year f) (PyTime.month f)) as Hdim.
  unfold PyTime.strftime_date, PyTime.strftime_time, PyTime.re_sqlite.
  rewrite !string_app_assoc.
  eapply first_match_bind; [apply first_match_re_Y; exact Hy | ].
  eapply first_match_bind; [apply first_match_chr | ].
  eapply first_match_bind; [apply first_match_re_m; exact Hm | ].
  eapply first_match_bind; [apply first_match_chr | ].
  eapply first_match_bind; [apply first_match_re_d; lia | ].
  eapply first_match_bind; [apply first_match_spaces1; exact Hh | ].
  eapply first_match_bind; [apply first_match_re_H; exact Hh | ].
  eapply first_match_bind; [apply first_match_chr | ].
  eapply first_match_bind; [apply first_match_re_M; exact Hmi | ].
  eapply first_match_bind; [apply first_match_chr | ].
  eapply first_match_bind;
    [rewrite <- (append_nil_r (PyStr.pad0 2 (PyTime.second f)));
     apply first_match_re_S; exact Hs | ].
  apply first_match_ret.
Qed.

(** Printing a datetime in the storage format and parsing the text gives
    back its wall-clock reading, without the microseconds. *)
Lemma strptime_strftime_sqlite dt :
  four_digit_year dt ->
  PyTime.strptime_sqlite (PyTime.strftime_sqlite dt)
  = Ok (PyTime.Naive
          (PyTime.wall_of dt - PyTime.wall_of dt mod PyTime.us_second)).
Proof.
  unfold four_digit_year. intros Hy.
  pose proof (fields_of_wall_valid (PyTime.wall_of dt)) as Hv.
  pose proof (first_match_re_sqlite _ Hy Hv) as Hfirst.
  unfold PyTime.strptime_sqlite, PyTime.strftime_sqlite. cbv zeta.
  unfold first_match in Hfirst.
  destruct (PyTime.re_sqlite _) as [ | [f r] tl]; [discriminate | ].
  injection Hfirst as -> ->.
  rewrite check_fields_valid
    by (try apply valid_whole_second; cbn; try assumption; lia).
  cbn. now rewrite wall_of_whole_second.
Qed.

(** ** The provider format, read back *)

Lemma first_match_alt_l {A} (p q : Re.P A) s a r :
  first_match p s a r -> first_match (Re.alt p q) s a r.
Proof.
  unfold first_match, Re.alt. intros H.
  destruct (p s) as [ | x tl]; [discriminate | exact H].
Qed.

Lemma first_match_alt_r {A} (p q : Re.P A) s a r :
  p s = [] -> first_match q s a r -> first_match (Re.alt p q) s a r.
Proof. unfold first_match, Re.alt. now intros ->. Qed.

Lemma first_match_d2 n r :
  0 <= n <= 59 -> first_match Re.d2 (PyStr.pad0 2 n +:+ r) n r.
Proof. intros H. unfold first_match. now rewrite d2_pad0. Qed.

Lemma replace_char_app c by_ a b :
  PyStr.replace_char c by_ (a +:+ b)
  = PyStr.replace_char c by_ a +:+ PyStr.replace_char c by_ b.
Proof.
  induction a as [ | x a IH]; [reflexivity | ].
  rewrite append_cons. cbn [PyStr.replace_char].
  now rewrite IH, string_app_assoc.
Qed.

Lemma replace_Z_pad0 n :
  0 <= n <= 59 ->
  PyStr.replace_char "Z" "+00:00" (PyStr.pad0 2 n) = PyStr.pad0 2 n.
Proof. intros H. each_value n 60. Qed.

Lemma replace_Z_digit a r :
  0 <= a <= 9 ->
  PyStr.replace_char "Z" "+00:00" (String (PyStr.digit_char a) r)
  = String (PyStr.digit_char a) (PyStr.replace_char "Z" "+00:00" r).
Proof. intros H. each_value a 10. Qed.

Lemma replace_Z_year y :
  1000 <= y <= 9999 ->
  PyStr.replace_char "Z" "+00:00" (PyStr.of_Z y) = PyStr.of_Z y.
Proof.
  intros Hy. rewrite of_Z_four_digits by exact Hy.
  rewrite !replace_Z_digit by (Z.div_mod_to_equations; lia).
  reflexivity.
Qed.

(** The text the agents send to the provider, with its Z made an
    explicit offset. *)
Lemma replace_Z_strftime_rfc dt :
  four_digit_year dt ->
  let f := PyTime.fields_of_wall (PyTime.wall_of dt) in
  PyStr.replace_char "Z" "+00:00" (PyTime.strftime_rfc dt)
  = PyTime.strftime_date f +:+ "T" +:+ PyTime.strftime_time f +:+ "+00:00".
Proof.
  intros Hy f. unfold four_digit_year in Hy. fold f in Hy.
  pose proof (fields_of_wall_valid (PyTime.wall_of dt)) as Hv. fold f in Hv.
  destruct Hv as (Hm & Hd & Hh & Hmi & Hs & Hus).
  pose proof (days_in_month_le (PyTime.year f) (PyTime.month f)) as Hdim.
  unfold PyTime.strftime_rfc. fold f.
  unfold PyTime.strftime_date, PyTime.strftime_time.
  rewrite !replace_char_app.
  rewrite replace_Z_year by exact Hy.
  rewrite !replace_Z_pad0 by lia.
  reflexivity.
Qed.

Lemma first_match_iso_date f r :
  1000 <= PyTime.year f <= 9999 -> valid_fields f ->
  first_match PyTime.iso_date (PyTime.strftime_date f +:+ r)
    (PyTime.year f, PyTime.month f, PyTime.day f) r.
Proof.
  intros Hy (Hm & Hd & _).
  pose proof (days_in_month_le (PyTime.year f) (PyTime.month f)) as Hdim.
  unfold PyTime.strftime_date, PyTime.iso_date.
  rewrite !string_app_assoc.
  eapply first_match_bind; [apply (first_match_re_Y _ _ Hy) | ].
  eapply first_match_bind; [apply first_match_chr | ].
  eapply first_match_bind; [apply first_match_d2; lia | ].
  eapply first_match_bind; [apply first_match_chr | ].
  eapply first_match_bind; [apply first_match_d2; lia | ].
  apply first_match_ret.
Qed.

Lemma first_match_iso_hms f r :
  valid_fields f ->
  first_match (PyTime.iso_hms PyTime.iso_fraction)
    (PyTime.strftime_time f +:+ "+" +:+ r)
    (PyTime.hour f, PyTime.minute f, PyTime.second f, 0) ("+" +:+ r).
Proof.
  intros (_ & _ & Hh & Hmi & Hs & _).
  unfold PyTime.strftime_time, PyTime.iso_hms.
  rewrite !string_app_assoc.
  eapply first_match_bind; [apply first_match_d2; lia | ].
  apply first_match_alt_l.
  eapply first_match_bind; [apply first_match_chr | ].
  eapply first_match_bind; [apply first_match_d2; lia | ].
  apply first_match_alt_l.
  eapply first_match_bind; [apply first_match_chr | ].
  eapply first_match_bind; [apply first_match_d2; lia | ].
  eapply first_match_bind;
    [apply first_match_alt_r; [reflexivity | apply first_match_ret] | ].
  apply first_match_ret.
Qed.

Lemma first_match_iso_datetime f :
  1000 <= PyTime.year f <= 9999 -> valid_fields f ->
  first_match PyTime.iso_datetime
    (PyTime.strftime_date f +:+ "T" +:+ PyTime.strftime_time f +:+ "+00:00")
    (whole_second f, Some 0) "".
Proof.
  intros Hy Hv. unfold PyTime.iso_datetime.
  eapply first_match_bind; [apply (first_match_iso_date _ _ Hy Hv) | ].
  cbv beta iota.
  apply first_match_alt_r; [reflexivity | ].
  eapply first_match_bind; [reflexivity | ].
  eapply first_match_bind; [apply (first_match_iso_hms f "00:00" Hv) | ].
  cbv beta iota.
  eapply first_match_bind; [ | apply first_match_ret].
  apply first_match_alt_r; [reflexivity | ].
  reflexivity.
Qed.

(** Reading back the text the agents send to the provider gives the
    wall-clock reading that was printed, without the microseconds, as a
    UTC datetime. *)
Lemma fromisoformat_strftime_rfc dt :
  four_digit_year dt ->
  PyTime.fromisoformat (PyStr.replace_char "Z" "+00:00" (PyTime.strftime_rfc dt))
  = Ok (PyTime.Aware
          (PyTime.wall_of dt - PyTime.wall_of dt mod PyTime.us_second) 0).
Proof.
  intros Hy. rewrite (replace_Z_strftime_rfc dt Hy). cbv zeta.
  unfold four_digit_year in Hy.
  pose proof (fields_of_wall_valid (PyTime.wall_of dt)) as Hv.
  pose proof (first_match_iso_datetime _ Hy Hv) as Hfirst.
  unfold PyTime.fromisoformat. unfold first_match in Hfirst.
  destruct (PyTime.iso_datetime _) as [ | [[f o] r] tl]; [discriminate | ].
  injection Hfirst as -> -> ->.
  rewrite check_fields_valid
    by (try apply valid_whole_second; cbn; try assumption; lia).
  cbn. now rewrite wall_of_whole_second.
Qed.

(** ** The attendees column, read back *)

Lemma scanstring_escape_char c r :
  Json.scanstring (Json.escape_char c +:+ r)
  = '(str, rest) ← Json.scanstring r; Ok (String c str, rest).
Proof. destruct c as [[] [] [] [] [] [] [] []]; reflexivity. Qed.

(** [py_scanstring] reads back what the encoder wrote. *)
Lemma scanstring_escape s r :
  Json.scanstring (Json.escape s +:+ String Json.dquote r) = Ok (s, r).
Proof.
  induction s as [ | c s IH]; [reflexivity | ].
  cbn [Json.escape]. rewrite string_app_assoc, scanstring_escape_char, IH.
  reflexivity.
Qed.

Lemma scan_once_dumps_str fuel s r :
  Json.scan_once (S fuel) (Json.dumps_str s +:+ r) = Ok (Json.JStr s, r).
Proof.
  unfold Json.dumps_str. rewrite append_cons, string_app_assoc, append_cons,
    append_nil.
  cbn [Json.scan_once]. change (Ascii.eqb Json.dquote Json.dquote) with true.
  cbv iota. now rewrite scanstring_escape.
Qed.

Lemma scan_items_S fuel s :
  Json.scan_items (S fuel) s
  = '(v, r1) ← Json.scan_once fuel s;
    match Json.skip_ws r1 with
    | String "]" r2 => Ok ([v], r2)
    | String "," r2 =>
        '(xs, r3) ← Json.scan_items fuel (Json.skip_ws r2);
        Ok (v :: xs, r3)
    | _ => Raise JSONDecodeError
    end.
Proof. reflexivity. Qed.

Lemma skip_ws_join x l r :
  Json.skip_ws (String " " (Json.join ", " (map Json.dumps_str (x :: l)) +:+ r))
  = Json.join ", " (map Json.dumps_str (x :: l)) +:+ r.
Proof. destruct l; reflexivity. Qed.

Lemma scan_items_dumps x l fuel r :
  (length l < fuel)%nat ->
  Json.scan_items (S fuel)
    (Json.join ", " (map Json.dumps_str (x :: l)) +:+ String "]" r)
  = Ok (map Json.JStr (x :: l), r).
Proof.
  revert x fuel. induction l as [ | y l IH]; intros x fuel Hfuel.
  - destruct fuel as [ | fuel]; [cbn in Hfuel; lia | ].
    rewrite scan_items_S. cbn [map Json.join].
    rewrite scan_once_dumps_str. reflexivity.
  - destruct fuel as [ | fuel]; [cbn in Hfuel; lia | ].
    change (Json.join ", " (map Json.dumps_str (x :: y :: l)))
      with (Json.dumps_str x +:+ ", "
              +:+ Json.join ", " (map Json.dumps_str (y :: l))).
    rewrite !string_app_assoc, scan_items_S, scan_once_dumps_str.
    rewrite !append_cons, append_nil.
    cbn [mbind result_bind rbind].
    change (Json.skip_ws (String "," ?s)) with (String "," s).
    cbv beta iota.
    rewrite skip_ws_join, IH by (cbn [length] in Hfuel; lia).
    reflexivity.
Qed.

Lemma length_append a b :
  String.length (a +:+ b) = (String.length a + String.length b)%nat.
Proof.
  induction a as [ | c a IH]; [reflexivity | ].
  rewrite append_cons. cbn [String.length]. now rewrite IH.
Qed.

Lemma length_join_dumps x l :
  (length l < String.length (Json.join ", " (map Json.dumps_str (x :: l))))%nat.
Proof.
  revert x. induction l as [ | y l IH]; intros x.
  - cbn. lia.
  - change (Json.join ", " (map Json.dumps_str (x :: y :: l)))
      with (Json.dumps_str x +:+ ", "
              +:+ Json.join ", " (map Json.dumps_str (y :: l))).
    rewrite !length_append. specialize (IH y).
    change (String.length ", ") with 2%nat. cbn [length]. lia.
Qed.

(** [json.loads] reads back the list of strings [json.dumps] wrote. *)
Lemma loads_dumps_str_list l :
  Json.loads (Json.dumps_str_list l) = Ok (Json.JArr (map Json.JStr l)).
Proof.
  destruct l as [ | x l]; [reflexivity | ].
  unfold Json.loads, Json.dumps_str_list.
  rewrite append_cons, append_nil.
  change (Json.skip_ws (String "[" ?s)) with (String "[" s).
  set (body := Json.join ", " (map Json.dumps_str (x :: l))).
  cbn [String.length Json.scan_once].
  change (Ascii.eqb "[" Json.dquote) with false.
  change (Ascii.eqb "[" "{") with false.
  change (Ascii.eqb "[" "[") with true. cbv iota.
  assert (Hws : Json.skip_ws (body +:+ "]") = body +:+ "]").
  { subst body. cbn [map Json.join]. destruct l; reflexivity. }
  rewrite Hws.
  assert (Hhead : exists c s, body +:+ "]" = String c s /\ c <> "]"%char).
  { subst body. cbn [map Json.join].
    destruct l; eexists _, _; (split; [reflexivity | discriminate]). }
  destruct Hhead as (c & s & Heq & Hc).
  assert (Hscan : Json.scan_items (S (String.length (body +:+ "]")))
                    (body +:+ "]")
                  = Ok (map Json.JStr (x :: l), "")).
  { apply scan_items_dumps. rewrite length_append.
    pose proof (length_join_dumps x l) as Hlen. fold body in Hlen. lia. }
  rewrite Heq in *.
  destruct c as [[] [] [] [] [] [] [] []];
    first [congruence | rewrite Hscan; reflexivity].
Qed.

(** ** The timezone manager: conversions and the storage format *)

Lemma four_digit_year_is_datetime dt : four_digit_year dt -> is_datetime dt.
Proof.
  unfold four_digit_year, is_datetime. intros H. apply year_in_range. lia.
Qed.

Lemma in_range_truncate w :
  PyTime.in_range w = true ->
  PyTime.in_range (w - w mod PyTime.us_second) = true.
Proof.
  unfold PyTime.in_range, PyTime.MAXORDINAL, PyTime.us_day, PyTime.us_hour,
    PyTime.us_minute, PyTime.us_second.
  rewrite !andb_true_iff, !Z.leb_le, !Z.ltb_lt.
  intros H. Z.div_mod_to_equations. lia.
Qed.

(** [localize] accepts the datetimes the zone can place. *)
Lemma localize_cases tz w :
  (localizable tz (PyTime.Naive w) ->
   Pytz.localize tz w = Ok (Pytz.utcoffset_at_wall tz w))
  /\ (~ localizable tz (PyTime.Naive w) ->
      Pytz.localize tz w = Raise PyTime.overflow).
Proof.
  unfold Pytz.localize, localizable.
  destruct (Pytz.fixed tz); cbn [orb]; [split; [reflexivity | tauto] | ].
  destruct (PyTime.in_range (w - PyTime.us_day)); cbn [andb].
  - destruct (PyTime.in_range (w + PyTime.us_day)).
    + split; [reflexivity | tauto].
    + split; [intros [H | [_ H]]; discriminate H | reflexivity].
  - split; [intros [H | [H _]]; discriminate H | reflexivity].
Qed.

(** [convert_to_utc] gives the UTC datetime of the instant, for a
    datetime the zone can place and an instant that is a datetime. *)
Lemma convert_to_utc_Ok tm dt utc :
  TimezoneManager.convert_to_utc tm dt = Ok utc ->
  utc = PyTime.Aware (instant_of (TimezoneManager.user_timezone tm) dt) 0
  /\ localizable (TimezoneManager.user_timezone tm) dt
  /\ is_datetime utc.
Proof.
  unfold is_datetime. destruct dt as [w | w off].
  - cbn [TimezoneManager.convert_to_utc instant_of].
    unfold Pytz.localize, localizable.
    destruct (Pytz.fixed _ || _) eqn:Hloc; cbn [mbind result_bind rbind];
      [ | discriminate].
    rewrite astimezone_utc.
    destruct (PyTime.in_range
                (w - Pytz.utcoffset_at_wall (TimezoneManager.user_timezone tm) w))
      eqn:Hr; [ | discriminate].
    intros [= <-]. split; [reflexivity | ]. split; [ | exact Hr].
    apply orb_true_iff in Hloc as [H | H]; [left; exact H | right].
    apply andb_true_iff in H. exact H.
  - rewrite convert_to_utc_aware. cbn [instant_of localizable].
    destruct (PyTime.in_range _) eqn:Hr; [ | discriminate].
    intros [= <-]. auto.
Qed.

Lemma convert_to_utc_placed tm dt :
  localizable (TimezoneManager.user_timezone tm) dt ->
  PyTime.in_range (instant_of (TimezoneManager.user_timezone tm) dt) = true ->
  TimezoneManager.convert_to_utc tm dt
  = Ok (PyTime.Aware (instant_of (TimezoneManager.user_timezone tm) dt) 0).
Proof.
  intros Hloc Hr. destruct dt as [w | w off].
  - cbn [TimezoneManager.convert_to_utc instant_of] in *.
    rewrite (proj1 (localize_cases _ w) Hloc). cbn [mbind result_bind rbind].
    rewrite astimezone_utc, Hr. reflexivity.
  - rewrite convert_to_utc_aware. cbn [instant_of] in Hr. now rewrite Hr.
Qed.

Lemma format_for_sqlite_utc tm dt :
  TimezoneManager.format_for_sqlite tm dt
  = (utc ← TimezoneManager.convert_to_utc tm dt; Ok (PyTime.strftime_sqlite utc)).
Proof. destruct dt; reflexivity. Qed.

(** [parse_from_sqlite] on a text of the storage format. *)
Lemma parse_from_sqlite_stored tm utc :
  four_digit_year utc ->
  TimezoneManager.parse_from_sqlite tm (PyTime.strftime_sqlite utc)
  = TimezoneManager.convert_to_user_tz tm
      (PyTime.Naive (PyTime.wall_of (truncate (PyTime.Naive (PyTime.wall_of utc))))).
Proof.
  intros Hy. unfold TimezoneManager.parse_from_sqlite.
  rewrite (strptime_strftime_sqlite _ Hy). reflexivity.
Qed.

Lemma wall_of_truncate dt :
  PyTime.wall_of (truncate dt)
  = PyTime.wall_of dt - PyTime.wall_of dt mod PyTime.us_second.
Proof. destruct dt; reflexivity. Qed.

(** X1.  What [format_for_sqlite] writes for a datetime whose UTC form
    has a year of four digits, [parse_from_sqlite] reads back as the same
    instant, cut to the whole second, on the clock of the user zone; it
    raises OverflowError exactly when that clock shows no datetime then
    (a reading outside the years 1 to 9999). *)
Theorem sqlite_round_trip (tm : TimezoneManager.t) (dt utc : PyTime.datetime) :
  TimezoneManager.convert_to_utc tm dt = Ok utc ->
  four_digit_year utc ->
  exists text,
    TimezoneManager.format_for_sqlite tm dt = Ok text
    /\ (is_datetime (in_zone (TimezoneManager.user_timezone tm)
                       (PyTime.wall_of (truncate utc))) ->
        TimezoneManager.parse_from_sqlite tm text
        = Ok (in_zone (TimezoneManager.user_timezone tm)
                (PyTime.wall_of (truncate utc))))
    /\ (~ is_datetime (in_zone (TimezoneManager.user_timezone tm)
                         (PyTime.wall_of (truncate utc))) ->
        TimezoneManager.parse_from_sqlite tm text
        = Raise (OverflowError "date value out of range")).
Proof.
  intros Hutc Hy. exists (PyTime.strftime_sqlite utc).
  rewrite format_for_sqlite_utc, Hutc. split; [reflexivity | ].
  rewrite (parse_from_sqlite_stored tm utc Hy), convert_to_user_tz_cases.
  cbn [reading truncate PyTime.wall_of]. rewrite wall_of_truncate.
  rewrite (in_range_truncate _ (four_digit_year_is_datetime _ Hy)).
  cbn [andb]. unfold is_datetime. split.
  - intros ->. reflexivity.
  - intros H. apply not_true_is_false in H. rewrite H. reflexivity.
Qed.

Lemma sqlite_round_trip_witness :
  exists text,
    TimezoneManager.format_for_sqlite kolkata_manager
      (PyTime.Naive (wall 2024 3 11 14 30 15 + 250000)) = Ok text
    /\ TimezoneManager.parse_from_sqlite kolkata_manager text
       = Ok (PyTime.Aware (wall 2024 3 11 14 30 15) (19800 * PyTime.us_second)).
Proof.
  destruct (sqlite_round_trip kolkata_manager
              (PyTime.Naive (wall 2024 3 11 14 30 15 + 250000))
              (PyTime.Aware (wall 2024 3 11 9 0 15 + 250000) 0)
              eq_refl ltac:(vm_compute; split; discriminate))
    as (text & Htext & Hback & _).
  exists text. split; [exact Htext | ]. apply Hback. reflexivity.
Defined.

(** Outside the years of four digits the round trip fails: the C
    library of Linux writes the year without padding, and the parser asks
    for four digits. *)
Example sqlite_round_trip_year_999 :
  (text ← TimezoneManager.format_for_sqlite kolkata_manager
            (PyTime.Aware (wall 999 12 31 23 59 59) 0);
   TimezoneManager.parse_from_sqlite kolkata_manager text)
  = Raise (ValueError "time data '999-12-31 23:59:59' does not match format '%Y-%m-%d %H:%M:%S'").
Proof. vm_compute. reflexivity. Qed.

(** At the end of the range the text is written and cannot be read
    back: 23:30 UTC on the last day of the year 9999 is 05:00 of the
    year 10000 in Kolkata. *)
Example sqlite_round_trip_year_9999 :
  TimezoneManager.format_for_sqlite kolkata_manager
    (PyTime.Aware (wall 9999 12 31 23 30 0) 0)
  = Ok "9999-12-31 23:30:00"
  /\ TimezoneManager.parse_from_sqlite kolkata_manager "9999-12-31 23:30:00"
     = Raise (OverflowError "date value out of range").
Proof. vm_compute. split; reflexivity. Qed.

(** X2.  Both conversions are idempotent, and converting to UTC on the
    way to the user zone changes nothing: a datetime already in the user
    zone (or in UTC) is left as it is, and a conversion that raises does
    so in one step as in two. *)
Theorem conversions_idempotent (tm : TimezoneManager.t) (dt : PyTime.datetime) :
  (local ← TimezoneManager.convert_to_user_tz tm dt;
   TimezoneManager.convert_to_user_tz tm local)
  = TimezoneManager.convert_to_user_tz tm dt
  /\ (utc ← TimezoneManager.convert_to_utc tm dt;
      TimezoneManager.convert_to_utc tm utc)
     = TimezoneManager.convert_to_utc tm dt
  /\ (is_aware dt = true ->
      (utc ← TimezoneManager.convert_to_utc tm dt;
       TimezoneManager.convert_to_user_tz tm utc)
      = TimezoneManager.convert_to_user_tz tm dt).
Proof.
  split; [ | split].
  - destruct (TimezoneManager.convert_to_user_tz tm dt) as [local | e] eqn:Hl;
      cbn [mbind result_bind rbind]; [ | reflexivity].
    apply convert_to_user_tz_Ok in Hl as (-> & Hu & Hd).
    rewrite convert_to_user_tz_cases.
    rewrite (proj1 (in_zone_reading _ _)), Hu. unfold is_datetime in Hd.
    rewrite Hd. reflexivity.
  - destruct (TimezoneManager.convert_to_utc tm dt) as [utc | e] eqn:Hu;
      cbn [mbind result_bind rbind]; [ | reflexivity].
    apply convert_to_utc_Ok in Hu as (-> & _ & Hd).
    rewrite convert_to_utc_aware. unfold is_datetime in Hd.
    cbn [PyTime.wall_of] in Hd. rewrite reading_sub, Hd. reflexivity.
  - destruct dt as [w | w off]; [discriminate | intros _].
    rewrite convert_to_utc_aware, !convert_to_user_tz_cases.
    cbn [reading]. unfold PyTime.utc_instant.
    destruct (PyTime.in_range (w - off)) eqn:Hr; cbn [mbind result_bind rbind];
      [ | reflexivity].
    rewrite convert_to_user_tz_cases. cbn [reading]. unfold PyTime.utc_instant.
    rewrite reading_sub, Hr. reflexivity.
Qed.

Lemma conversions_idempotent_witness :
  (utc ← TimezoneManager.convert_to_utc new_york_manager
           (PyTime.Aware (wall 2024 7 4 18 30 0) (19800 * PyTime.us_second));
   TimezoneManager.convert_to_user_tz new_york_manager utc)
  = Ok (PyTime.Aware (wall 2024 7 4 9 0 0) (-4 * PyTime.us_hour)).
Proof.
  apply (eq_trans
           (proj2 (proj2 (conversions_idempotent new_york_manager
              (PyTime.Aware (wall 2024 7 4 18 30 0) (19800 * PyTime.us_second))))
              eq_refl)).
  reflexivity.
Defined.

(** X3.  A naive datetime is a reading of the user's wall clock: when
    [convert_to_utc] takes it to UTC, [convert_to_user_tz] brings back
    the same reading, provided the reading exists in the zone.  The way
    to UTC succeeds for every reading the zone can place whose instant is
    a datetime. *)
Theorem naive_round_trip (tm : TimezoneManager.t) (w : Z) :
  exists_in_zone (TimezoneManager.user_timezone tm) w ->
  is_datetime (PyTime.Naive w) ->
  (forall utc,
      TimezoneManager.convert_to_utc tm (PyTime.Naive w) = Ok utc ->
      TimezoneManager.convert_to_user_tz tm utc
      = Ok (PyTime.Aware w
              (Pytz.utcoffset_at_wall (TimezoneManager.user_timezone tm) w)))
  /\ (localizable (TimezoneManager.user_timezone tm) (PyTime.Naive w) ->
      PyTime.in_range (instant_of (TimezoneManager.user_timezone tm)
                         (PyTime.Naive w)) = true ->
      exists utc, TimezoneManager.convert_to_utc tm (PyTime.Naive w) = Ok utc).
Proof.
  unfold exists_in_zone, is_datetime. cbn [PyTime.wall_of]. intros Hex Hw. split.
  - intros utc Hutc. apply convert_to_utc_Ok in Hutc as (-> & _ & Hd).
    unfold is_datetime in Hd. cbn [PyTime.wall_of instant_of] in Hd.
    rewrite convert_to_user_tz_cases. cbn [reading instant_of].
    unfold PyTime.utc_instant, in_zone. rewrite reading_sub, Hd, Hex.
    cbn [PyTime.wall_of].
    replace (w - Pytz.utcoffset_at_wall (TimezoneManager.user_timezone tm) w
             + Pytz.utcoffset_at_wall (TimezoneManager.user_timezone tm) w)
      with w by lia.
    rewrite Hw. reflexivity.
  - intros Hloc Hr. eexists. apply convert_to_utc_placed; assumption.
Qed.

Lemma naive_round_trip_witness :
  TimezoneManager.convert_to_user_tz new_york_manager
    (PyTime.Aware (wall 2024 7 4 13 0 0) 0)
  = Ok (PyTime.Aware (wall 2024 7 4 9 0 0) (-4 * PyTime.us_hour)).
Proof.
  apply (proj1 (naive_round_trip new_york_manager (wall 2024 7 4 9 0 0)
                  eq_refl eq_refl)).
  reflexivity.
Defined.

(** In the hour that daylight saving skips the reading comes back moved:
    02:30 on 10 March 2024 in New York returns as 03:30.  And within a
    day of the end of the range the zone cannot place a reading. *)
Example naive_round_trip_in_the_gap :
  (utc ← TimezoneManager.convert_to_utc new_york_manager
           (PyTime.Naive (wall 2024 3 10 2 30 0));
   TimezoneManager.convert_to_user_tz new_york_manager utc)
  = Ok (PyTime.Aware (wall 2024 3 10 3 30 0) (-4 * PyTime.us_hour))
  /\ TimezoneManager.convert_to_utc new_york_manager
       (PyTime.Naive (wall 9999 12 31 10 0 0))
     = Raise (OverflowError "date value out of range").
Proof. vm_compute. split; reflexivity. Qed.

(** ** From the calendar agent to the cache and back *)

Lemma no_T_digit a r :
  0 <= a <= 9 ->
  PyStr.contains_char "T" (String (PyStr.digit_char a) r)
  = PyStr.contains_char "T" r.
Proof. intros H. each_value a 10. Qed.

Lemma no_T_pad0 n :
  0 <= n <= 59 -> PyStr.contains_char "T" (PyStr.pad0 2 n) = false.
Proof. intros H. each_value n 60. Qed.

Lemma no_T_year y :
  1000 <= y <= 9999 -> PyStr.contains_char "T" (PyStr.of_Z y) = false.
Proof.
  intros Hy. rewrite of_Z_four_digits by exact Hy.
  rewrite !no_T_digit by (Z.div_mod_to_equations; lia). reflexivity.
Qed.

(** The storage format has no T. *)
Lemma no_T_strftime_sqlite dt :
  four_digit_year dt ->
  PyStr.contains_char "T" (PyTime.strftime_sqlite dt) = false.
Proof.
  unfold four_digit_year. intros Hy.
  destruct (fields_of_wall_valid (PyTime.wall_of dt))
    as (Hm & Hd & Hh & Hmi & Hs & _).
  set (f := PyTime.fields_of_wall (PyTime.wall_of dt)) in *.
  pose proof (days_in_month_le (PyTime.year f) (PyTime.month f)) as Hdim.
  unfold PyTime.strftime_sqlite. fold f.
  unfold PyTime.strftime_date, PyTime.strftime_time.
  rewrite !contains_char_app, no_T_year by exact Hy.
  rewrite !no_T_pad0 by lia. reflexivity.
Qed.

(** A time that was formatted for the cache was printed from the stored
    reading. *)
Lemma time_text_stored otm dt text :
  CalendarAgent.time_text (calendar_agent_of otm) dt = Ok text ->
  text = PyTime.strftime_sqlite (stored_reading otm dt).
Proof.
  unfold CalendarAgent.time_text. cbn [CalendarAgent.timezone_manager
    calendar_agent_of].
  destruct otm as [tm | ]; cbn [stored_reading]; [ | congruence].
  rewrite format_for_sqlite_utc.
  destruct (TimezoneManager.convert_to_utc tm dt) as [utc | ?] eqn:Hutc;
    cbn [mbind result_bind rbind]; [ | discriminate].
  apply convert_to_utc_Ok in Hutc as (-> & _ & _). congruence.
Qed.

Lemma parse_either_stored dt :
  four_digit_year dt ->
  DatabaseAgent.parse_either (PyTime.strftime_sqlite dt)
  = Ok (PyTime.Naive (PyTime.wall_of (truncate (PyTime.Naive (PyTime.wall_of dt))))).
Proof.
  intros Hy. unfold DatabaseAgent.parse_either.
  rewrite (no_T_strftime_sqlite dt Hy). apply (strptime_strftime_sqlite dt Hy).
Qed.

(** The two parses of [execute_query] on a stored text: the datetime to
    read back, or OverflowError when that is none. *)
Lemma read_stored_text otm conn dt :
  four_digit_year (stored_reading otm dt) ->
  (d ← DatabaseAgent.parse_either (PyTime.strftime_sqlite (stored_reading otm dt));
   match DatabaseAgent.timezone_manager (database_agent_of conn otm) with
   | Some tm =>
       TimezoneManager.parse_from_sqlite tm
         (PyTime.strftime_sqlite (stored_reading otm dt))
   | None => Ok d
   end)
  = if PyTime.in_range (PyTime.wall_of (read_back otm dt))
    then Ok (read_back otm dt) else Raise PyTime.overflow.
Proof.
  intros Hy. rewrite (parse_either_stored _ Hy).
  cbn [mbind result_bind rbind DatabaseAgent.timezone_manager database_agent_of].
  pose proof (in_range_truncate _ (four_digit_year_is_datetime _ Hy)) as Hr.
  destruct otm as [tm | ]; cbn [stored_reading read_back] in *.
  - rewrite (parse_from_sqlite_stored tm _ Hy), convert_to_user_tz_cases.
    cbn [reading truncate PyTime.wall_of] in *. rewrite Hr. reflexivity.
  - destruct dt as [w | w off]; cbn [truncate PyTime.wall_of] in *;
      rewrite Hr; reflexivity.
Qed.

Lemma event_of_row_row_with otm conn e start_text end_text created updated :
  CalendarAgent.time_text (calendar_agent_of otm) (ce_start e) = Ok start_text ->
  CalendarAgent.time_text (calendar_agent_of otm) (ce_end e) = Ok end_text ->
  storable otm e ->
  (is_datetime (read_back otm (ce_start e))
   /\ is_datetime (read_back otm (ce_end e)) ->
   DatabaseAgent.event_of_row (database_agent_of conn otm)
     (row_with e start_text end_text created updated)
   = Ok (read_event otm e))
  /\ (~ (is_datetime (read_back otm (ce_start e))
         /\ is_datetime (read_back otm (ce_end e))) ->
      DatabaseAgent.event_of_row (database_agent_of conn otm)
        (row_with e start_text end_text created updated)
      = Raise PyTime.overflow).
Proof.
  intros Hst Het [Hs He].
  apply time_text_stored in Hst, Het. subst start_text end_text.
  unfold DatabaseAgent.event_of_row, is_datetime.
  cbn [row_with Cache.start_time Cache.end_time Cache.attendees Cache.id
       Cache.summary Cache.description Cache.location Cache.status
       Cache.html_link].
  pose proof (read_stored_text otm conn _ Hs) as Rs.
  pose proof (read_stored_text otm conn _ He) as Re.
  destruct (DatabaseAgent.parse_either
              (PyTime.strftime_sqlite (stored_reading otm (ce_start e))))
    as [ds | ?] eqn:Hds;
    [ | rewrite (parse_either_stored _ Hs) in Hds; discriminate Hds].
  destruct (DatabaseAgent.parse_either
              (PyTime.strftime_sqlite (stored_reading otm (ce_end e))))
    as [de | ?] eqn:Hde;
    [ | rewrite (parse_either_stored _ He) in Hde; discriminate Hde].
  cbn [mbind result_bind rbind] in *.
  pose proof (loads_dumps_str_list (ce_attendees e)) as Hatt.
  assert (Hd : exists r, Json.dumps_str_list (ce_attendees e) = String "[" r)
    by (eexists; reflexivity).
  destruct Hd as [r Hd]. rewrite Hd in *.
  destruct (DatabaseAgent.timezone_manager (database_agent_of conn otm)) as [tm | ].
  - rewrite Rs, Re. split.
    + intros [-> ->]. cbn [mbind result_bind rbind]. rewrite Hatt. reflexivity.
    + intros Hno.
      destruct (PyTime.in_range (PyTime.wall_of (read_back otm (ce_start e))));
        cbn [mbind result_bind rbind]; [ | reflexivity].
      destruct (PyTime.in_range (PyTime.wall_of (read_back otm (ce_end e))));
        cbn [mbind result_bind rbind]; [ | reflexivity].
      exfalso. apply Hno. split; reflexivity.
  - destruct (PyTime.in_range (PyTime.wall_of (read_back otm (ce_start e))));
      [ | discriminate Rs].
    destruct (PyTime.in_range (PyTime.wall_of (read_back otm (ce_end e))));
      [ | discriminate Re].
    injection Rs as ->. injection Re as ->. split.
    + intros _. cbn [mbind result_bind rbind]. rewrite Hatt. reflexivity.
    + intros Hno. exfalso. apply Hno. split; reflexivity.
Qed.

Lemma rmapM_Forall2 {A B C} (f : A -> result B) (g : C -> B)
  (l : list A) (l' : list C) :
  Forall2 (fun a c => f a = Ok (g c)) l l' -> rmapM f l = Ok (map g l').
Proof.
  induction 1 as [ | a c l l' Hac _ IH]; cbn; [reflexivity | ].
  rewrite Hac. cbn. rewrite IH. reflexivity.
Qed.

Lemma rmapM_Ok_Forall2 {A B} (f : A -> result B) (l : list A) (l' : list B) :
  rmapM f l = Ok l' -> Forall2 (fun a b => f a = Ok b) l l'.
Proof.
  revert l'. induction l as [ | a l IH]; intros l'; cbn [rmapM].
  - intros [= <-]. constructor.
  - destruct (f a) as [b | e] eqn:Hb; cbn [mbind result_bind rbind];
      [ | discriminate].
    destruct (rmapM f l) as [bs | e]; cbn [mbind result_bind rbind];
      [ | discriminate].
    intros [= <-]. constructor; [exact Hb | apply IH; reflexivity].
Qed.

(** The rows a turn of the loop leaves: those that were there, and the
    row of its event. *)
Lemma store_event_rows self now tbl tbl' e r :
  CalendarAgent.store_event self now tbl e = Ok tbl' ->
  in_table tbl' r ->
  in_table tbl r
  \/ exists start_text end_text created,
       CalendarAgent.time_text self (ce_start e) = Ok start_text
       /\ CalendarAgent.time_text self (ce_end e) = Ok end_text
       /\ r = row_with e start_text end_text created now.
Proof.
  intros Hst. apply store_event_Ok in Hst as (st & et & Hs & He & ->).
  unfold Cache.insert_or_replace, in_table.
  cbn [row_with Cache.id]. destruct (ce_id e) as [k | ] eqn:Hid;
    cbn [Cache.keyed Cache.null_id].
  - intros [(k' & Hk') | Hin]; [ | left; right; exact Hin].
    destruct (decide (k = k')) as [<- | Hne].
    + rewrite lookup_insert_eq in Hk'. injection Hk' as <-.
      right. exists st, et. eexists. split; [exact Hs | ]. split; [exact He | ].
      unfold row_with. rewrite Hid. reflexivity.
    + rewrite lookup_insert_ne in Hk' by exact Hne. left. left. eauto.
  - intros [Hk | Hin]; [left; left; exact Hk | ].
    apply in_app_or in Hin as [Hin | [<- | []]]; [left; right; exact Hin | ].
    right. exists st, et. eexists. split; [exact Hs | ]. split; [exact He | ].
    unfold row_with. rewrite Hid. reflexivity.
Qed.

Lemma store_events_rows self now events tbl tbl' r :
  rfoldl (CalendarAgent.store_event self now) tbl events = Ok tbl' ->
  in_table tbl' r ->
  in_table tbl r
  \/ exists e start_text end_text created,
       In e events
       /\ CalendarAgent.time_text self (ce_start e) = Ok start_text
       /\ CalendarAgent.time_text self (ce_end e) = Ok end_text
       /\ r = row_with e start_text end_text created now.
Proof.
  revert tbl. induction events as [ | e events IH]; intros tbl; cbn [rfoldl].
  - intros [= <-] H. left. exact H.
  - destruct (CalendarAgent.store_event self now tbl e) as [tbl1 | ?] eqn:H1;
      cbn [mbind result_bind rbind]; [ | discriminate].
    intros Hrest H.
    destruct (IH _ Hrest H) as [H0 | (e' & st & et & c & Hin & Hs & He & ->)].
    + destruct (store_event_rows _ _ _ _ _ _ H1 H0)
        as [H2 | (st & et & c & Hs & He & ->)]; [left; exact H2 | ].
      right. exists e, st, et, c. split; [left; reflexivity | auto].
    + right. exists e', st, et, c. split; [right; exact Hin | auto].
Qed.

Lemma in_table_empty r : ~ in_table Cache.empty r.
Proof.
  unfold in_table. cbn. intros [(k & Hk) | []].
  rewrite lookup_empty in Hk. discriminate Hk.
Qed.

(** X4.  A row written by [_store_events] for an event stored with years
    of four digits is read back by [execute_query] as the event that was
    stored: the same id, texts and attendees, and the start and the end
    at the same instant, cut to the whole second (on the clock of the
    user zone when a timezone manager is configured).  The row cannot be
    read, for an OverflowError, exactly when that clock shows no
    datetime at one of the two instants. *)
Theorem stored_event_reads_back (otm : option TimezoneManager.t)
  (conn : string -> result (list Cache.row)) (e : cal_event)
  (now : string) (tbl tbl' : Cache.table) (k : string) (r : Cache.row) :
  storable otm e ->
  ce_id e = Some k ->
  CalendarAgent.store_event (calendar_agent_of otm) now tbl e = Ok tbl' ->
  Cache.keyed tbl' !! k = Some r ->
  (is_datetime (read_back otm (ce_start e))
   /\ is_datetime (read_back otm (ce_end e)) ->
   DatabaseAgent.event_of_row (database_agent_of conn otm) r
   = Ok (read_event otm e))
  /\ (~ (is_datetime (read_back otm (ce_start e))
         /\ is_datetime (read_back otm (ce_end e))) ->
      DatabaseAgent.event_of_row (database_agent_of conn otm) r
      = Raise (OverflowError "date value out of range")).
Proof.
  intros Hst Hid Hstore.
  destruct (store_event_same (calendar_agent_of otm) now tbl tbl' e k Hid Hstore)
    as (st & et & Hs & He & ->).
  intros [= <-].
  exact (event_of_row_row_with otm conn e st et _ now Hs He Hst).
Qed.

Lemma stored_event_reads_back_witness :
  DatabaseAgent.event_of_row
    (database_agent_of (fun _ => Ok []) (Some kolkata_manager))
    (row_with moved_cal_event "2024-03-12 04:30:00" "2024-03-12 05:00:00"
       "2024-03-10 08:00:00" "2024-03-10 08:00:00")
  = Ok {| de_id := Some "evt1"; de_summary := "Standup (moved)";
          de_description := Some "";
          de_start := PyTime.Aware (wall 2024 3 12 10 0 0)
                        (19800 * PyTime.us_second);
          de_end := PyTime.Aware (wall 2024 3 12 10 30 0)
                      (19800 * PyTime.us_second);
          de_location := Some "Room 2";
          de_attendees := Json.JArr [Json.JStr "ana@example.com"];
          de_status := Some "confirmed"; de_htmlLink := Some "" |}.
Proof.
  apply (proj1 (stored_event_reads_back (Some kolkata_manager) (fun _ => Ok [])
                  moved_cal_event "2024-03-10 08:00:00" Cache.empty
                  (Cache.insert_or_replace Cache.empty
                     (row_with moved_cal_event "2024-03-12 04:30:00"
                        "2024-03-12 05:00:00" "2024-03-10 08:00:00"
                        "2024-03-10 08:00:00"))
                  "evt1" _
                  ltac:(vm_compute; repeat split; discriminate)
                  eq_refl eq_refl eq_refl)).
  split; reflexivity.
Defined.

(** Whatever rows a query selects from a table filled from empty by the
    loop of [_store_events], each is read back as the event that was
    stored. *)
Lemma stored_rows_read_back otm now events tbl' conn sql rows :
  Forall (retrievable otm) events ->
  rfoldl (CalendarAgent.store_event (calendar_agent_of otm) now) Cache.empty events
  = Ok tbl' ->
  conn sql = Ok rows ->
  Forall (in_table tbl') rows ->
  exists picked,
    Forall2 (fun r e => In e events /\ Cache.id r = ce_id e) rows picked
    /\ DatabaseAgent.execute_query (database_agent_of conn otm) sql
       = map (read_event otm) picked.
Proof.
  intros Hst Hfold Hconn Hrows.
  assert (Hpick : exists picked,
             Forall2 (fun r e => In e events /\ Cache.id r = ce_id e
                                 /\ DatabaseAgent.event_of_row
                                      (database_agent_of conn otm) r
                                    = Ok (read_event otm e)) rows picked).
  { clear Hconn.
    induction Hrows as [ | r rows Hr _ IH]; [exists []; constructor | ].
    destruct IH as (picked & IH).
    destruct (store_events_rows _ _ _ _ _ _ Hfold Hr)
      as [Hr0 | (e & st & et & c & Hin & Hs & He & ->)];
      [destruct (in_table_empty _ Hr0) | ].
    exists (e :: picked). constructor; [ | exact IH].
    split; [exact Hin | ]. split; [reflexivity | ].
    rewrite List.Forall_forall in Hst. destruct (Hst e Hin) as (Hsto & Hback).
    exact (proj1 (event_of_row_row_with otm conn e st et c now Hs He Hsto) Hback). }
  destruct Hpick as (picked & Hpick). exists picked. split.
  - eapply Forall2_impl; [exact Hpick | ]. cbn. intros r e (H1 & H2 & _). auto.
  - unfold DatabaseAgent.execute_query, DatabaseAgent.selected.
    cbn [DatabaseAgent.conn database_agent_of]. rewrite Hconn.
    cbn [mbind result_bind rbind].
    rewrite (rmapM_Forall2 _ (read_event otm) rows picked); [reflexivity | ].
    eapply Forall2_impl; [exact Hpick | ]. cbn. intros r e (_ & _ & H). exact H.
Qed.

(** A query that selects no row returns no event. *)
Lemma execute_query_no_rows otm conn sql :
  conn sql = Ok [] ->
  DatabaseAgent.execute_query (database_agent_of conn otm) sql = [].
Proof.
  intros Hconn. unfold DatabaseAgent.execute_query, DatabaseAgent.selected.
  cbn [DatabaseAgent.conn database_agent_of]. rewrite Hconn. reflexivity.
Qed.

(** The same for the table [_store_events] leaves when it starts from
    an empty one, whether the batch was stored or not. *)
Lemma refreshed_rows_read_back otm clk events conn sql rows :
  Forall (retrievable otm) events ->
  conn sql = Ok rows ->
  Forall (in_table (fst (CalendarAgent._store_events (calendar_agent_of otm) clk
                           Cache.empty events))) rows ->
  exists picked,
    Forall2 (fun r e => In e events /\ Cache.id r = ce_id e) rows picked
    /\ DatabaseAgent.execute_query (database_agent_of conn otm) sql
       = map (read_event otm) picked.
Proof.
  intros Hst Hconn.
  destruct (_store_events_cases (calendar_agent_of otm) clk Cache.empty events)
    as [(now & tbl' & _ & Hfold & ->) | (_ & ->)]; cbn [fst]; intros Hrows.
  - exact (stored_rows_read_back otm now events tbl' conn sql rows Hst Hfold
             Hconn Hrows).
  - destruct rows as [ | r rows].
    + exists []. split; [constructor | ].
      rewrite (execute_query_no_rows otm conn sql Hconn). reflexivity.
    + apply Forall_cons in Hrows as [Hr _]. destruct (in_table_empty _ Hr).
Qed.

(** X5.  After a refresh of the cache (the table is cleared and the
    fetched events are stored), for events that are stored with years of
    four digits at instants at which the clock of the user zone shows a
    datetime: whatever rows of the table a query selects,
    [execute_query] returns one event for each row, in order, the stored
    event read back.  No row of such a refreshed cache makes the query
    lose its result. *)
Theorem refreshed_cache_reads_back (otm : option TimezoneManager.t)
  (clk : clock) (old : Cache.table) (events : list cal_event)
  (conn : string -> result (list Cache.row)) (sql : string)
  (rows : list Cache.row) :
  Forall (retrievable otm) events ->
  conn sql = Ok rows ->
  Forall (in_table (fst (CalendarAgent._store_events (calendar_agent_of otm) clk
                           (Cache.clear_all_events old) events))) rows ->
  exists picked,
    Forall2 (fun r e => In e events /\ Cache.id r = ce_id e) rows picked
    /\ DatabaseAgent.execute_query (database_agent_of conn otm) sql
       = map (read_event otm) picked.
Proof.
  intros Hst Hconn Hrows.
  exact (refreshed_rows_read_back otm clk events conn sql rows Hst Hconn Hrows).
Qed.

Lemma refreshed_cache_reads_back_witness :
  exists picked,
    Forall2 (fun r e => In e [sample_cal_event; moved_cal_event]
                        /\ Cache.id r = ce_id e)
      [row_with moved_cal_event "2024-03-12 04:30:00" "2024-03-12 05:00:00"
         "2024-03-10 08:00:00" "2024-03-10 08:00:00"] picked
    /\ DatabaseAgent.execute_query
         (database_agent_of
            (fun _ => Ok [row_with moved_cal_event "2024-03-12 04:30:00"
                            "2024-03-12 05:00:00" "2024-03-10 08:00:00"
                            "2024-03-10 08:00:00"])
            (Some kolkata_manager))
         select_all
       = map (read_event (Some kolkata_manager)) picked.
Proof.
  apply (refreshed_cache_reads_back (Some kolkata_manager) morning Cache.empty
           [sample_cal_event; moved_cal_event]).
  - repeat constructor; vm_compute; try reflexivity; intros H; discriminate H.
  - reflexivity.
  - constructor; [ | constructor]. left. exists "evt1". vm_compute. reflexivity.
Defined.

(** One unreadable row empties the result: an event at 23:30 UTC on the
    last day of the year 9999 is stored, and under Kolkata the query that
    selects its row returns nothing. *)
Example unreadable_row_empties_result :
  CalendarAgent.time_text kolkata_calendar_agent
    (PyTime.Aware (wall 9999 12 31 23 30 0) 0)
  = Ok "9999-12-31 23:30:00"
  /\ DatabaseAgent.execute_query
       (database_agent
          [sqlite_row; cache_row "late" "9999-12-31 23:30:00" "9999-12-31 23:45:00"]
          (Some kolkata_manager))
       select_all
     = [].
Proof. vm_compute. split; reflexivity. Qed.

Lemma store_event_fresh self now tbl tbl' e :
  CalendarAgent.store_event self now tbl e = Ok tbl' ->
  (forall k r, Cache.keyed tbl !! k = Some r -> Cache.created_at r = now) ->
  forall k r, Cache.keyed tbl' !! k = Some r -> Cache.created_at r = now.
Proof.
  intros Hst Hinv k r. destruct (decide (ce_id e = Some k)) as [Heq | Hne].
  - destruct (store_event_same self now tbl tbl' e k Heq Hst)
      as (st & et & _ & _ & ->).
    intros [= <-]. cbn [row_with Cache.created_at].
    destruct (Cache.keyed tbl !! k) as [r0 | ] eqn:Hr0; cbn; [ | reflexivity].
    apply (Hinv k r0 Hr0).
  - rewrite (store_event_other self now tbl tbl' e k Hne Hst). apply Hinv.
Qed.

Lemma store_events_fresh self now events tbl tbl' :
  rfoldl (CalendarAgent.store_event self now) tbl events = Ok tbl' ->
  (forall k r, Cache.keyed tbl !! k = Some r -> Cache.created_at r = now) ->
  forall k r, Cache.keyed tbl' !! k = Some r -> Cache.created_at r = now.
Proof.
  revert tbl. induction events as [ | e events IH]; intros tbl; cbn [rfoldl].
  - intros [= <-] Hinv. exact Hinv.
  - destruct (CalendarAgent.store_event self now tbl e) as [tbl1 | ?] eqn:H1;
      cbn [mbind result_bind rbind]; [ | discriminate].
    intros Hrest Hinv. apply (IH _ Hrest).
    exact (store_event_fresh self now tbl tbl1 e H1 Hinv).
Qed.

Lemma row_of_Ok self e start_text end_text created updated :
  CalendarAgent.time_text self (ce_start e) = Ok start_text ->
  CalendarAgent.time_text self (ce_end e) = Ok end_text ->
  row_of self e created updated
  = Ok (row_with e start_text end_text created updated).
Proof. intros Hs He. unfold row_of. rewrite Hs, He. reflexivity. Qed.

(** The table a run of the loop from an empty table leaves. *)
Lemma store_events_mirror self now events tbl' k :
  rfoldl (CalendarAgent.store_event self now) Cache.empty events = Ok tbl' ->
  Ok <$> Cache.keyed tbl' !! k
  = (fun e => row_of self e now now)
      <$> last (filter (fun e => ce_id e = Some k) events).
Proof.
  revert tbl'. induction events as [ | e events IH] using rev_ind; intros tbl'.
  - cbn. intros [= <-]. cbn. rewrite lookup_empty. reflexivity.
  - rewrite rfoldl_app, filter_app.
    destruct (rfoldl _ Cache.empty events) as [before | ?] eqn:Hpre;
      cbn [mbind result_bind rbind rfoldl]; [ | discriminate].
    destruct (CalendarAgent.store_event self now before e) as [tbl1 | ?] eqn:H1;
      cbn [mbind result_bind rbind]; [ | discriminate].
    intros [= <-].
    destruct (decide (ce_id e = Some k)) as [Heq | Hne].
    + destruct (store_event_same self now before tbl1 e k Heq H1)
        as (st & et & Hs & He & ->).
      rewrite filter_cons_True, filter_nil by exact Heq.
      rewrite last_snoc. cbn [fmap option_fmap option_map]. f_equal.
      rewrite (row_of_Ok self e st et now now Hs He). f_equal. f_equal.
      destruct (Cache.keyed before !! k) as [r0 | ] eqn:Hr0; cbn; [ | reflexivity].
      apply (store_events_fresh self now events Cache.empty before Hpre)
        with (k := k); [ | exact Hr0].
      intros k' r'. cbn. rewrite lookup_empty. discriminate.
    + rewrite (store_event_other self now before tbl1 e k Hne H1).
      rewrite filter_cons_False, filter_nil, app_nil_r by exact Hne.
      exact (IH before eq_refl).
Qed.

(** X6.  A refresh makes the cache mirror the batch: for every id, the
    table holds the row of the last event of the batch with that id,
    created and updated at the time of the refresh, and no row when the
    batch has no event with that id, whatever the table held before.
    When a time of the run cannot be formatted, the refresh leaves the
    cache empty. *)
Theorem refresh_mirrors_batch (self : CalendarAgent.t) (clk : clock)
  (old : Cache.table) (events : list cal_event) :
  (exists now,
     CalendarAgent.now_text self clk = Ok now
     /\ snd (CalendarAgent._store_events self clk (Cache.clear_all_events old)
               events) = length events
     /\ forall k,
          Ok <$> Cache.keyed (fst (CalendarAgent._store_events self clk
                                     (Cache.clear_all_events old) events)) !! k
          = (fun e => row_of self e now now)
              <$> last (filter (fun e => ce_id e = Some k) events))
  \/ (store_fails self clk events
      /\ CalendarAgent._store_events self clk (Cache.clear_all_events old) events
         = (Cache.empty, 0%nat)).
Proof.
  unfold Cache.clear_all_events.
  destruct (_store_events_cases self clk Cache.empty events)
    as [(now & tbl' & Hnow & Hfold & ->) | (Hfails & ->)];
    [left | right; split; [exact Hfails | reflexivity]].
  exists now. split; [exact Hnow | ]. split; [reflexivity | ].
  intros k. cbn [fst]. exact (store_events_mirror self now events tbl' k Hfold).
Qed.

(** ** execute_query and _store_events: what they never do *)

(** X7.  [execute_query] returns all the rows or none: when the query
    itself succeeds, the result is either empty or has one event for each
    selected row, in the order of the rows, with the id, the summary and
    the other texts of its row.  It never returns a part of the rows. *)
Theorem execute_query_all_or_nothing (self : DatabaseAgent.t) (sql : string)
  (rows : list Cache.row) :
  DatabaseAgent.conn self sql = Ok rows ->
  DatabaseAgent.execute_query self sql = []
  \/ Forall2 (fun r d =>
                de_id d = Cache.id r /\ de_summary d = Cache.summary r
                /\ de_description d = Cache.description r
                /\ de_location d = Cache.location r
                /\ de_status d = Cache.status r
                /\ de_htmlLink d = Cache.html_link r)
       rows (DatabaseAgent.execute_query self sql).
Proof.
  intros Hconn. unfold DatabaseAgent.execute_query, DatabaseAgent.selected.
  rewrite Hconn. cbn [mbind result_bind rbind].
  destruct (rmapM (DatabaseAgent.event_of_row self) rows) as [evs | e] eqn:Hmap;
    [right | left; reflexivity].
  apply rmapM_Ok_Forall2 in Hmap.
  eapply Forall2_impl; [exact Hmap | ]. cbn. intros r d.
  unfold DatabaseAgent.event_of_row.
  destruct (DatabaseAgent.parse_either (Cache.start_time r));
    cbn [mbind result_bind rbind]; [ | discriminate].
  destruct (DatabaseAgent.parse_either (Cache.end_time r));
    cbn [mbind result_bind rbind]; [ | discriminate].
  destruct (match DatabaseAgent.timezone_manager self with
            | Some tm => _
            | None => _
            end) as [[s e] | ]; cbn [mbind result_bind rbind]; [ | discriminate].
  destruct (match Cache.attendees r with
            | Some (String _ _ as a) => _
            | _ => _
            end); cbn [mbind result_bind rbind]; [ | discriminate].
  intros [= <-]. cbn. auto 10.
Qed.

Lemma execute_query_all_or_nothing_witness :
  DatabaseAgent.execute_query (database_agent [sqlite_row; iso_row] (Some utc_manager))
    select_all = []
  \/ Forall2 (fun r d =>
                de_id d = Cache.id r /\ de_summary d = Cache.summary r
                /\ de_description d = Cache.description r
                /\ de_location d = Cache.location r
                /\ de_status d = Cache.status r
                /\ de_htmlLink d = Cache.html_link r)
       [sqlite_row; iso_row]
       (DatabaseAgent.execute_query
          (database_agent [sqlite_row; iso_row] (Some utc_manager)) select_all).
Proof.
  apply (execute_query_all_or_nothing
           (database_agent [sqlite_row; iso_row] (Some utc_manager)) select_all
           [sqlite_row; iso_row]).
  reflexivity.
Defined.

Lemma store_event_null_id self now tbl tbl' e :
  CalendarAgent.store_event self now tbl e = Ok tbl' ->
  exists added,
    rmapM (fun e => row_of self e now now)
      (match ce_id e with None => [e] | Some _ => [] end) = Ok added
    /\ Cache.null_id tbl' = (Cache.null_id tbl ++ added)%list.
Proof.
  intros Hst. apply store_event_Ok in Hst as (st & et & Hs & He & ->).
  unfold Cache.insert_or_replace. cbn [row_with Cache.id].
  destruct (ce_id e) as [k | ] eqn:Hid; cbn [Cache.null_id rmapM].
  - exists []. split; [reflexivity | now rewrite app_nil_r].
  - rewrite (row_of_Ok self e st et now now Hs He). cbn [mbind result_bind rbind].
    eexists. split; [reflexivity | ]. unfold row_with. now rewrite Hid.
Qed.

Lemma rmapM_app {A B} (f : A -> result B) (l1 l2 : list A) (r1 r2 : list B) :
  rmapM f l1 = Ok r1 -> rmapM f l2 = Ok r2 ->
  rmapM f (l1 ++ l2) = Ok (r1 ++ r2)%list.
Proof.
  revert r1. induction l1 as [ | a l1 IH]; intros r1; cbn [rmapM app].
  - intros [= <-] H. exact H.
  - destruct (f a) as [b | ?]; cbn [mbind result_bind rbind]; [ | discriminate].
    destruct (rmapM f l1) as [bs | ?]; cbn [mbind result_bind rbind];
      [ | discriminate].
    intros [= <-] H. rewrite (IH bs eq_refl H). reflexivity.
Qed.

Lemma store_events_null_id self now events tbl tbl' :
  rfoldl (CalendarAgent.store_event self now) tbl events = Ok tbl' ->
  exists added,
    rmapM (fun e => row_of self e now now)
      (filter (fun e => ce_id e = None) events) = Ok added
    /\ Cache.null_id tbl' = (Cache.null_id tbl ++ added)%list.
Proof.
  revert tbl. induction events as [ | e events IH]; intros tbl; cbn [rfoldl].
  - intros [= <-]. exists []. split; [reflexivity | now rewrite app_nil_r].
  - destruct (CalendarAgent.store_event self now tbl e) as [tbl1 | ?] eqn:H1;
      cbn [mbind result_bind rbind]; [ | discriminate].
    intros Hrest.
    destruct (store_event_null_id self now tbl tbl1 e H1) as (a1 & Ha1 & Hn1).
    destruct (IH _ Hrest) as (a2 & Ha2 & Hn2).
    exists (a1 ++ a2)%list. split.
    + change (e :: events) with ([e] ++ events)%list. rewrite filter_app.
      apply rmapM_app; [ | exact Ha2].
      destruct (ce_id e) as [k | ] eqn:Hid.
      * rewrite filter_cons_False by (rewrite Hid; discriminate). exact Ha1.
      * rewrite filter_cons_True by exact Hid. exact Ha1.
    + rewrite Hn2, Hn1. now rewrite <- app_assoc.
Qed.

(** X8.  [_store_events] touches only the rows of its batch: a row
    whose id is not the id of an event of the batch is left as it is and
    no row disappears.  When the batch is stored, the count returned is
    its size, and an event without id is never replaced: each one is
    added as a new row, after those already there.  When a time of the
    run cannot be formatted, nothing is stored and the count is 0. *)
Theorem store_events_frame (self : CalendarAgent.t) (clk : clock)
  (tbl : Cache.table) (events : list cal_event) :
  (forall k, Forall (fun e => ce_id e <> Some k) events ->
             Cache.keyed (fst (CalendarAgent._store_events self clk tbl events)) !! k
             = Cache.keyed tbl !! k)
  /\ (forall k, is_Some (Cache.keyed tbl !! k) ->
                is_Some (Cache.keyed (fst (CalendarAgent._store_events self clk
                                             tbl events)) !! k))
  /\ ((snd (CalendarAgent._store_events self clk tbl events) = length events
       /\ exists now added,
            CalendarAgent.now_text self clk = Ok now
            /\ rmapM (fun e => row_of self e now now)
                 (filter (fun e => ce_id e = None) events) = Ok added
            /\ Cache.null_id (fst (CalendarAgent._store_events self clk tbl events))
               = (Cache.null_id tbl ++ added)%list)
      \/ (store_fails self clk events
          /\ CalendarAgent._store_events self clk tbl events = (tbl, 0%nat))).
Proof.
  destruct (_store_events_cases self clk tbl events)
    as [(now & tbl' & Hnow & Hfold & ->) | (Hfails & ->)]; cbn [fst snd].
  - split; [ | split].
    + intros k Hk. exact (store_events_other self now events tbl tbl' k Hk Hfold).
    + intros k [r Hr].
      destruct (store_events_created_at self now events tbl tbl' k r Hr Hfold)
        as (r' & Hr' & _).
      exists r'. exact Hr'.
    + left. split; [reflexivity | ].
      destruct (store_events_null_id self now events tbl tbl' Hfold)
        as (added & Ha & Hn).
      exists now, added. auto.
  - split; [reflexivity | ]. split; [auto | ]. right. auto.
Qed.

Lemma store_events_frame_witness :
  Cache.keyed
    (fst (CalendarAgent._store_events kolkata_calendar_agent evening
            (fst (CalendarAgent._store_events kolkata_calendar_agent morning
                    Cache.empty [sample_cal_event]))
            [lunch_cal_event])) !! "evt1"
  = Cache.keyed
      (fst (CalendarAgent._store_events kolkata_calendar_agent morning
              Cache.empty [sample_cal_event])) !! "evt1".
Proof.
  apply (proj1 (store_events_frame kolkata_calendar_agent evening
                  (fst (CalendarAgent._store_events kolkata_calendar_agent morning
                          Cache.empty [sample_cal_event]))
                  [lunch_cal_event]) "evt1").
  constructor; [discriminate | constructor].
Defined.

(** ** check_conflicts: what is reported *)

Lemma skipped_same (c : ascii) (s : string) :
  CalendarManagementAgent.skipped (Some (String c s)) (Some (String c s)) = true.
Proof. cbn [CalendarManagementAgent.skipped]. apply String.eqb_refl. Qed.

Lemma conflict_of_names (ev : provider_event) (es ee : PyTime.datetime) :
  names_event (CalendarManagementAgent.conflict_of ev es ee) ev es ee.
Proof.
  unfold names_event, CalendarManagementAgent.conflict_of.
  cbn [CalendarManagementAgent.c_id CalendarManagementAgent.c_summary
       CalendarManagementAgent.c_start CalendarManagementAgent.c_end
       CalendarManagementAgent.c_location].
  destruct (pe_summary ev), (pe_location ev); repeat split; reflexivity.
Qed.

(** The conflicts found come from the listed events, in order: each
    names one event and carries the times parsed from it. *)
Lemma scan_conflicts_from_items su eu exclude items found :
  CalendarManagementAgent.scan_conflicts su eu exclude items = Ok found ->
  exists evs,
    sublist evs items
    /\ Forall2 (fun c ev =>
                  CalendarManagementAgent.skipped exclude (pe_id ev) = false
                  /\ exists es ee,
                       CalendarManagementAgent.event_times ev = Ok (es, ee)
                       /\ names_event c ev es ee)
         found evs.
Proof.
  revert found. induction items as [ | ev items IH]; intros found;
    cbn [CalendarManagementAgent.scan_conflicts].
  - intros [= <-]. exists []. split; constructor.
  - destruct (CalendarManagementAgent.skipped exclude (pe_id ev)) eqn:Hskip.
    + intros H. destruct (IH _ H) as (evs & Hsub & Hall).
      exists evs. split; [apply sublist_cons; exact Hsub | exact Hall].
    + destruct (CalendarManagementAgent.event_times ev) as [[es ee] | err] eqn:Ht;
        cbn [mbind result_bind rbind]; [ | discriminate].
      destruct (CalendarManagementAgent.overlaps su eu es ee) as [b | err];
        cbn [mbind result_bind rbind]; [ | discriminate].
      destruct (CalendarManagementAgent.scan_conflicts su eu exclude items)
        as [rest | err]; cbn [mbind result_bind rbind]; [ | discriminate].
      destruct (IH _ eq_refl) as (evs & Hsub & Hall).
      intros [= <-]. destruct b.
      * exists (ev :: evs). split; [apply sublist_skip; exact Hsub | ].
        constructor; [ | exact Hall]. split; [exact Hskip | ].
        exists es, ee. split; [exact Ht | apply conflict_of_names].
      * exists evs. split; [apply sublist_cons; exact Hsub | exact Hall].
Qed.

Lemma scan_conflicts_excluded su eu (x : string) items found :
  x <> "" ->
  CalendarManagementAgent.scan_conflicts su eu (Some x) items = Ok found ->
  forall c, In c found -> CalendarManagementAgent.c_id c <> Some x.
Proof.
  intros Hx. destruct x as [ | a x]; [congruence | clear Hx].
  revert found. induction items as [ | ev items IH]; intros found;
    cbn [CalendarManagementAgent.scan_conflicts].
  - intros [= <-] c [].
  - destruct (CalendarManagementAgent.skipped (Some (String a x)) (pe_id ev))
      eqn:Hskip; [apply IH | ].
    destruct (CalendarManagementAgent.event_times ev) as [[es ee] | err];
      cbn [mbind result_bind rbind]; [ | discriminate].
    destruct (CalendarManagementAgent.overlaps su eu es ee) as [b | err];
      cbn [mbind result_bind rbind]; [ | discriminate].
    destruct (CalendarManagementAgent.scan_conflicts su eu _ items)
      as [rest | err]; cbn [mbind result_bind rbind]; [ | discriminate].
    intros [= <-] c Hin.
    assert (Hc : c = CalendarManagementAgent.conflict_of ev es ee \/ In c rest)
      by (destruct b; [destruct Hin; auto | auto]).
    destruct Hc as [-> | Hc]; [ | exact (IH _ eq_refl c Hc)].
    cbn [CalendarManagementAgent.conflict_of CalendarManagementAgent.c_id].
    intros Heq. rewrite Heq, skipped_same in Hskip. discriminate Hskip.
Qed.

(** Either a conversion raised and nothing is reported, or both gave a
    UTC datetime. *)
Lemma check_conflicts_cases (self : CalendarManagementAgent.t)
  (start_time end_time : PyTime.datetime) :
  (forall exclude,
      CalendarManagementAgent.check_conflicts self start_time end_time exclude = [])
  \/ exists su eu,
       CalendarManagementAgent.to_utc self start_time = Ok su
       /\ CalendarManagementAgent.to_utc self end_time = Ok eu.
Proof.
  destruct (CalendarManagementAgent.to_utc self start_time) as [su | e1] eqn:Hs;
    [ | left; intros; apply check_conflicts_not_converted; left; eauto].
  destruct (CalendarManagementAgent.to_utc self end_time) as [eu | e2] eqn:He;
    [ | left; intros; apply check_conflicts_not_converted; right; eauto].
  right. eauto.
Qed.

(** X9.  [check_conflicts] invents nothing: the conflicts it returns
    name, in the order of the listing, events of the listing the
    provider gives for the proposed range; each carries the id of its
    event, its title or the words Untitled Event, its location or the
    empty text, and the start and end parsed from it. *)
Theorem check_conflicts_from_listing (self : CalendarManagementAgent.t)
  (start_time end_time : PyTime.datetime)
  (exclude : option string) (items : option (list provider_event)) :
  (forall start_utc end_utc,
      CalendarManagementAgent.to_utc self start_time = Ok start_utc ->
      CalendarManagementAgent.to_utc self end_time = Ok end_utc ->
      events_list (CalendarManagementAgent.service self)
        (PyTime.strftime_rfc start_utc) (PyTime.strftime_rfc end_utc)
      = Ok items) ->
  exists evs,
    sublist evs (default [] items)
    /\ Forall2 (fun c ev =>
                  exists es ee,
                    CalendarManagementAgent.event_times ev = Ok (es, ee)
                    /\ CalendarManagementAgent.c_id c = pe_id ev
                    /\ CalendarManagementAgent.c_summary c
                       = match pe_summary ev with
                         | Some title => title
                         | None => "Untitled Event"
                         end
                    /\ CalendarManagementAgent.c_start c = es
                    /\ CalendarManagementAgent.c_end c = ee
                    /\ CalendarManagementAgent.c_location c
                       = match pe_location ev with
                         | Some place => place
                         | None => ""
                         end)
         (CalendarManagementAgent.check_conflicts self start_time end_time exclude)
         evs.
Proof.
  intros Hlist.
  destruct (check_conflicts_cases self start_time end_time)
    as [Hnone | (su & eu & Hs & He)];
    [rewrite Hnone; exists []; split; [apply sublist_nil_l | constructor] | ].
  rewrite (check_conflicts_converted _ _ _ _ _ _ Hs He), (Hlist su eu Hs He).
  cbn [mbind result_bind rbind].
  destruct (CalendarManagementAgent.scan_conflicts _ _ exclude (default [] items))
    as [found | err] eqn:Hscan.
  - destruct (scan_conflicts_from_items _ _ _ _ _ Hscan) as (evs & Hsub & Hall).
    exists evs. split; [exact Hsub | ].
    eapply Forall2_impl; [exact Hall | ]. cbn.
    intros c ev (_ & es & ee & Ht & Hn). exists es, ee. split; [exact Ht | exact Hn].
  - exists []. split; [apply sublist_nil_l | constructor].
Qed.

Lemma check_conflicts_from_listing_witness :
  exists evs,
    sublist evs [review_event; lunch_event]
    /\ Forall2 (fun c ev =>
                  exists es ee,
                    CalendarManagementAgent.event_times ev = Ok (es, ee)
                    /\ CalendarManagementAgent.c_id c = pe_id ev
                    /\ CalendarManagementAgent.c_summary c
                       = match pe_summary ev with
                         | Some title => title
                         | None => "Untitled Event"
                         end
                    /\ CalendarManagementAgent.c_start c = es
                    /\ CalendarManagementAgent.c_end c = ee
                    /\ CalendarManagementAgent.c_location c
                       = match pe_location ev with
                         | Some place => place
                         | None => ""
                         end)
         (CalendarManagementAgent.check_conflicts new_york_agent
            (PyTime.Naive (wall 2024 3 11 10 0 0))
            (PyTime.Naive (wall 2024 3 11 12 0 0)) None)
         evs.
Proof.
  apply (check_conflicts_from_listing new_york_agent
           (PyTime.Naive (wall 2024 3 11 10 0 0))
           (PyTime.Naive (wall 2024 3 11 12 0 0)) None
           (Some [review_event; lunch_event])).
  intros start_utc end_utc _ _. reflexivity.
Defined.

Lemma scan_conflicts_empty_exclude su eu items :
  CalendarManagementAgent.scan_conflicts su eu (Some "") items
  = CalendarManagementAgent.scan_conflicts su eu None items.
Proof.
  induction items as [ | ev items IH];
    cbn [CalendarManagementAgent.scan_conflicts CalendarManagementAgent.skipped];
    [reflexivity | ].
  rewrite IH. reflexivity.
Qed.

(** X10.  The event excluded from the check is never reported: with a
    non-empty [exclude_event_id] no conflict carries that id.  An empty
    [exclude_event_id] excludes nothing, like [None]. *)
Theorem check_conflicts_never_reports_excluded (self : CalendarManagementAgent.t)
  (start_time end_time : PyTime.datetime) (x : string) :
  (x <> "" ->
   forall c, In c (CalendarManagementAgent.check_conflicts self start_time end_time
                     (Some x)) ->
             CalendarManagementAgent.c_id c <> Some x)
  /\ CalendarManagementAgent.check_conflicts self start_time end_time (Some "")
     = CalendarManagementAgent.check_conflicts self start_time end_time None.
Proof.
  destruct (check_conflicts_cases self start_time end_time)
    as [Hnone | (su & eu & Hs & He)].
  - rewrite !Hnone. split; [intros _ c [] | reflexivity].
  - rewrite !(check_conflicts_converted _ _ _ _ _ _ Hs He). split.
    + intros Hx c Hin.
      destruct (events_list _ _ _) as [items | err];
        cbn [mbind result_bind rbind] in Hin; [ | destruct Hin].
      destruct (CalendarManagementAgent.scan_conflicts su eu (Some x)
                  (default [] items)) as [found | err] eqn:Hscan; [ | destruct Hin].
      exact (scan_conflicts_excluded su eu x _ found Hx Hscan c Hin).
    + destruct (events_list _ _ _) as [items | err]; [ | reflexivity].
      cbn [mbind result_bind rbind]. now rewrite scan_conflicts_empty_exclude.
Qed.

(** The review is listed for the slot, and it is the event being moved:
    only the lunch can be reported. *)
Lemma check_conflicts_never_reports_excluded_witness :
  Forall (fun c => CalendarManagementAgent.c_id c <> Some "rev1")
    (CalendarManagementAgent.check_conflicts new_york_agent
       (PyTime.Naive (wall 2024 3 11 10 0 0)) (PyTime.Naive (wall 2024 3 11 13 0 0))
       (Some "rev1")).
Proof.
  apply List.Forall_forall.
  apply (proj1 (check_conflicts_never_reports_excluded new_york_agent
                  (PyTime.Naive (wall 2024 3 11 10 0 0))
                  (PyTime.Naive (wall 2024 3 11 13 0 0)) "rev1")).
  discriminate.
Defined.

Lemma scan_conflicts_raises su eu exclude items :
  Exists (fun ev =>
            CalendarManagementAgent.skipped exclude (pe_id ev) = false
            /\ exists e, CalendarManagementAgent.event_times ev = Raise e) items ->
  exists e, CalendarManagementAgent.scan_conflicts su eu exclude items = Raise e.
Proof.
  induction 1 as [ev items (Hskip & e & He) | ev items _ (e & IH)];
    cbn [CalendarManagementAgent.scan_conflicts].
  - rewrite Hskip, He. cbn. eauto.
  - destruct (CalendarManagementAgent.skipped exclude (pe_id ev)); [eauto | ].
    destruct (CalendarManagementAgent.event_times ev) as [[es ee] | ];
      cbn [mbind result_bind rbind]; [ | eauto].
    destruct (CalendarManagementAgent.overlaps su eu es ee);
      cbn [mbind result_bind rbind]; [ | eauto].
    rewrite IH. cbn. eauto.
Qed.

(** X11.  The check fails open as a whole: when one event of the
    listing the provider gives for the proposed range, not the excluded
    one, has a start or an end that cannot be read, no conflict at all
    is reported, whatever the other events are. *)
Theorem check_conflicts_unreadable_event (self : CalendarManagementAgent.t)
  (start_time end_time : PyTime.datetime)
  (exclude : option string) (items : list provider_event) :
  (forall start_utc end_utc,
      CalendarManagementAgent.to_utc self start_time = Ok start_utc ->
      CalendarManagementAgent.to_utc self end_time = Ok end_utc ->
      events_list (CalendarManagementAgent.service self)
        (PyTime.strftime_rfc start_utc) (PyTime.strftime_rfc end_utc)
      = Ok (Some items)) ->
  Exists (fun ev =>
            CalendarManagementAgent.skipped exclude (pe_id ev) = false
            /\ exists e, CalendarManagementAgent.event_times ev = Raise e) items ->
  CalendarManagementAgent.check_conflicts self start_time end_time exclude = [].
Proof.
  intros Hlist Hbad.
  destruct (check_conflicts_cases self start_time end_time)
    as [Hnone | (su & eu & Hs & He)]; [apply Hnone | ].
  rewrite (check_conflicts_converted _ _ _ _ _ _ Hs He), (Hlist su eu Hs He).
  cbn [mbind result_bind rbind].
  change (default [] (Some items)) with items.
  destruct (scan_conflicts_raises su eu exclude items Hbad) as (e & ->).
  reflexivity.
Qed.

Lemma check_conflicts_unreadable_event_witness :
  CalendarManagementAgent.check_conflicts broken_agent
    (PyTime.Naive (wall 2024 3 11 10 0 0)) (PyTime.Naive (wall 2024 3 11 12 0 0))
    None
  = [].
Proof.
  apply (check_conflicts_unreadable_event broken_agent
           (PyTime.Naive (wall 2024 3 11 10 0 0))
           (PyTime.Naive (wall 2024 3 11 12 0 0)) None
           [review_event; broken_event]).
  - intros start_utc end_utc _ _. reflexivity.
  - right. left. split; [reflexivity | ]. eexists. reflexivity.
Defined.

(** ** modify_event, create_event and cancel_event *)

Lemma contains_T_strftime_rfc dt :
  PyStr.contains_char "T" (PyTime.strftime_rfc dt) = true.
Proof.
  unfold PyTime.strftime_rfc. cbv zeta.
  rewrite !contains_char_app. cbn [PyStr.contains_char].
  change (Ascii.eqb "T" "T") with true. cbn [orb].
  now rewrite orb_true_r.
Qed.

(** The start and end the agents write are read back, by the block that
    reads provider events, as the UTC datetimes that were printed. *)
Lemma event_times_utc_fields (a b : PyTime.datetime) (event : provider_event) :
  four_digit_year a -> four_digit_year b ->
  pe_start event = CalendarManagementAgent.utc_field (PyTime.strftime_rfc a) ->
  pe_end event = CalendarManagementAgent.utc_field (PyTime.strftime_rfc b) ->
  CalendarManagementAgent.event_times event
  = Ok (PyTime.replace_tzinfo_utc (truncate a),
        PyTime.replace_tzinfo_utc (truncate b)).
Proof.
  intros Ha Hb Hs He. unfold CalendarManagementAgent.event_times.
  rewrite Hs, He.
  cbn [CalendarManagementAgent.time_str CalendarManagementAgent.utc_field
       dateTime of_option mbind result_bind rbind].
  rewrite contains_T_strftime_rfc.
  rewrite (fromisoformat_strftime_rfc a Ha), (fromisoformat_strftime_rfc b Hb).
  destruct a, b; reflexivity.
Qed.

Lemma sent_time_Ok (self : CalendarManagementAgent.t) (dt utc : PyTime.datetime) :
  CalendarManagementAgent.to_utc self dt = Ok utc ->
  CalendarManagementAgent.sent_time self dt
  = Ok (CalendarManagementAgent.utc_field (PyTime.strftime_rfc utc)).
Proof. unfold CalendarManagementAgent.sent_time. now intros ->. Qed.

Lemma sent_time_Raise (self : CalendarManagementAgent.t) (dt : PyTime.datetime)
  (e : exn) :
  CalendarManagementAgent.sent_time self dt = Raise e ->
  CalendarManagementAgent.to_utc self dt = Raise e.
Proof.
  unfold CalendarManagementAgent.sent_time.
  destruct (CalendarManagementAgent.to_utc self dt); cbn; congruence.
Qed.

(** X12.  What [create_event] and [modify_event] send is read back as
    what was asked for: when the requested start and end convert to UTC
    datetimes of a four-digit year, the body is built, and its start and
    end, parsed the way [check_conflicts] and [get_all_events] parse a
    provider event, are those UTC datetimes cut to the whole second. *)
Theorem sent_times_read_back (self : CalendarManagementAgent.t)
  (start_time end_time start_utc end_utc : PyTime.datetime) :
  CalendarManagementAgent.to_utc self start_time = Ok start_utc ->
  CalendarManagementAgent.to_utc self end_time = Ok end_utc ->
  four_digit_year start_utc ->
  four_digit_year end_utc ->
  (forall summary description location attendees,
     (body ← CalendarManagementAgent.create_body self summary start_time end_time
                description location attendees;
      CalendarManagementAgent.event_times body)
     = Ok (PyTime.replace_tzinfo_utc (truncate start_utc),
           PyTime.replace_tzinfo_utc (truncate end_utc)))
  /\ (forall event summary description location attendees,
        (body ← CalendarManagementAgent.modify_body self event summary
                   (Some start_time) (Some end_time)
                   description location attendees;
         CalendarManagementAgent.event_times body)
        = Ok (PyTime.replace_tzinfo_utc (truncate start_utc),
              PyTime.replace_tzinfo_utc (truncate end_utc))).
Proof.
  intros Hsu Heu Hs He. split; intros.
  - unfold CalendarManagementAgent.create_body.
    rewrite (sent_time_Ok _ _ _ Hsu), (sent_time_Ok _ _ _ Heu).
    cbn [mbind result_bind rbind].
    apply event_times_utc_fields; (assumption || reflexivity).
  - unfold CalendarManagementAgent.modify_body.
    cbn [CalendarManagementAgent.inferred_end mbind result_bind rbind].
    rewrite (sent_time_Ok _ _ _ Hsu), (sent_time_Ok _ _ _ Heu).
    cbn [mbind result_bind rbind].
    apply event_times_utc_fields; (assumption || reflexivity).
Qed.

Lemma sent_times_read_back_witness :
  (body ← CalendarManagementAgent.create_body new_york_agent "Sync"
             (PyTime.Naive (wall 2024 3 12 9 0 0 + 500000))
             (PyTime.Naive (wall 2024 3 12 10 0 0)) "" "" None;
   CalendarManagementAgent.event_times body)
  = Ok (PyTime.Aware (wall 2024 3 12 13 0 0) 0,
        PyTime.Aware (wall 2024 3 12 14 0 0) 0).
Proof.
  apply (proj1 (sent_times_read_back new_york_agent
                  (PyTime.Naive (wall 2024 3 12 9 0 0 + 500000))
                  (PyTime.Naive (wall 2024 3 12 10 0 0))
                  (PyTime.Aware (wall 2024 3 12 13 0 0 + 500000) 0)
                  (PyTime.Aware (wall 2024 3 12 14 0 0) 0)
                  eq_refl eq_refl
                  ltac:(vm_compute; split; discriminate)
                  ltac:(vm_compute; split; discriminate))).
Defined.

(** X13.  Every way [modify_event] can fail to build its request.  The
    body is not built only when a start is given without an end and the
    end cannot be inferred (the times of the event read from the provider
    cannot be read, or cannot be subtracted, or the new start plus their
    difference is no datetime of Python, an OverflowError), or when a
    time that is to be sent, the start, the end given or the end
    inferred, cannot be converted to UTC. *)
Theorem modify_body_failure_causes (self : CalendarManagementAgent.t)
  (event : provider_event) (summary : option string)
  (start_time end_time : option PyTime.datetime)
  (description location : option string) (attendees : option (list string))
  (e : exn) :
  CalendarManagementAgent.modify_body self event summary start_time end_time
    description location attendees = Raise e ->
  (exists st,
      start_time = Some st /\ end_time = None
      /\ (CalendarManagementAgent.event_times event = Raise e
          \/ exists original_start original_end,
               CalendarManagementAgent.event_times event
               = Ok (original_start, original_end)
               /\ (PyTime.sub original_end original_start = Raise e
                   \/ exists duration,
                        PyTime.sub original_end original_start = Ok duration
                        /\ ~ is_datetime (later st duration)
                        /\ e = OverflowError "date value out of range")))
  \/ (exists dt,
         CalendarManagementAgent.to_utc self dt = Raise e
         /\ (start_time = Some dt
             \/ end_time = Some dt
             \/ exists st original_start original_end duration,
                  start_time = Some st /\ end_time = None
                  /\ CalendarManagementAgent.event_times event
                     = Ok (original_start, original_end)
                  /\ PyTime.sub original_end original_start = Ok duration
                  /\ dt = later st duration)).
Proof.
  unfold CalendarManagementAgent.modify_body, CalendarManagementAgent.inferred_end.
  destruct start_time as [st | ], end_time as [et | ];
    cbn [mbind result_bind rbind].
  - destruct (CalendarManagementAgent.sent_time self st) as [fs | err] eqn:Hs;
      cbn [mbind result_bind rbind].
    + destruct (CalendarManagementAgent.sent_time self et) as [fe | err] eqn:He;
        cbn [mbind result_bind rbind]; [discriminate | ].
      intros [= <-]. right. exists et. split; [apply sent_time_Raise, He | auto].
    + intros [= <-]. right. exists st. split; [apply sent_time_Raise, Hs | auto].
  - destruct (CalendarManagementAgent.event_times event) as [[os oe] | err];
      cbn [mbind result_bind rbind];
      [ | intros [= <-]; left; exists st; auto].
    destruct (PyTime.sub oe os) as [d | err] eqn:Hsub;
      cbn [mbind result_bind rbind];
      [ | intros [= <-]; left; exists st; split; [reflexivity | ];
          split; [reflexivity | ]; right; exists os, oe; auto].
    rewrite add_cases.
    destruct (PyTime.in_range (PyTime.wall_of (later st d))) eqn:Hr;
      cbn [mbind result_bind rbind].
    + destruct (CalendarManagementAgent.sent_time self st) as [fs | err] eqn:Hs;
        cbn [mbind result_bind rbind].
      * destruct (CalendarManagementAgent.sent_time self (later st d))
          as [fe | err] eqn:He; cbn [mbind result_bind rbind]; [discriminate | ].
        intros [= <-]. right. exists (later st d).
        split; [apply sent_time_Raise, He | ]. right. right.
        exists st, os, oe, d. auto.
      * intros [= <-]. right. exists st. split; [apply sent_time_Raise, Hs | auto].
    + intros [= <-]. left. exists st. split; [reflexivity | ].
      split; [reflexivity | ]. right. exists os, oe. split; [reflexivity | ].
      right. exists d. split; [exact Hsub | ]. split; [ | reflexivity].
      unfold is_datetime. rewrite Hr. discriminate.
  - destruct (CalendarManagementAgent.sent_time self et) as [fe | err] eqn:He;
      cbn [mbind result_bind rbind]; [discriminate | ].
    intros [= <-]. right. exists et. split; [apply sent_time_Raise, He | auto].
  - discriminate.
Qed.

(** The event read has the start [tomorrow] and the end [later], which
    are no ISO texts: the end cannot be inferred, and the request is not
    built. *)
Lemma modify_body_failure_causes_witness :
  (exists st,
      Some (PyTime.Naive (wall 2024 3 12 9 0 0)) = Some st
      /\ @None PyTime.datetime = None
      /\ (CalendarManagementAgent.event_times broken_event
          = Raise (ValueError "Invalid isoformat string: 'tomorrow'")
          \/ exists original_start original_end,
               CalendarManagementAgent.event_times broken_event
               = Ok (original_start, original_end)
               /\ (PyTime.sub original_end original_start
                   = Raise (ValueError "Invalid isoformat string: 'tomorrow'")
                   \/ exists duration,
                        PyTime.sub original_end original_start = Ok duration
                        /\ ~ is_datetime (later st duration)
                        /\ ValueError "Invalid isoformat string: 'tomorrow'"
                           = OverflowError "date value out of range")))
  \/ (exists dt,
         CalendarManagementAgent.to_utc new_york_agent dt
         = Raise (ValueError "Invalid isoformat string: 'tomorrow'")
         /\ (Some (PyTime.Naive (wall 2024 3 12 9 0 0)) = Some dt
             \/ @None PyTime.datetime = Some dt
             \/ exists st original_start original_end duration,
                  Some (PyTime.Naive (wall 2024 3 12 9 0 0)) = Some st
                  /\ @None PyTime.datetime = None
                  /\ CalendarManagementAgent.event_times broken_event
                     = Ok (original_start, original_end)
                  /\ PyTime.sub original_end original_start = Ok duration
                  /\ dt = later st duration)).
Proof.
  apply (modify_body_failure_causes new_york_agent broken_event None
           (Some (PyTime.Naive (wall 2024 3 12 9 0 0))) None None None None
           (ValueError "Invalid isoformat string: 'tomorrow'")).
  reflexivity.
Defined.

(** The first cause, at the witness: the times of the event cannot be
    read. *)
Example broken_event_times :
  CalendarManagementAgent.event_times broken_event
  = Raise (ValueError "Invalid isoformat string: 'tomorrow'").
Proof. reflexivity. Qed.

(** The other causes occur as well: a new start at the end of the year
    9999 whose inferred end is no datetime, and a new start that the
    zone cannot place. *)
Example modify_body_overflows_inferring :
  CalendarManagementAgent.modify_body new_york_agent review_event None
    (Some (PyTime.Naive (wall 9999 12 31 23 30 0))) None None None None
  = Raise (OverflowError "date value out of range").
Proof. reflexivity. Qed.

Example modify_body_overflows_converting :
  CalendarManagementAgent.modify_body new_york_agent review_event None
    (Some (PyTime.Naive (wall 9999 12 31 23 30 0)))
    (Some (PyTime.Naive (wall 9999 12 31 23 45 0))) None None None
  = Raise (OverflowError "date value out of range")
  /\ CalendarManagementAgent.to_utc new_york_agent
       (PyTime.Naive (wall 9999 12 31 23 30 0))
     = Raise (OverflowError "date value out of range").
Proof. split; reflexivity. Qed.

(** X14.  [create_event] reports success only with the id of the new
    event: a success carries a non-empty [event_id] and no error, and
    comes from a body that was built and an answer of the provider that
    has that id; every failure carries an error text and no id.  An
    answer of the provider without an id is a failure. *)
Theorem create_event_outcome (self : CalendarManagementAgent.t)
  (events_insert : provider_event -> result provider_event)
  (summary : string) (start_time end_time : PyTime.datetime)
  (description location : string) (attendees : option (list string)) :
  let o := CalendarManagementAgent.create_event self events_insert summary
             start_time end_time description location attendees in
  if CalendarManagementAgent.success o
  then exists body event i,
         CalendarManagementAgent.create_body self summary start_time end_time
           description location attendees = Ok body
         /\ events_insert body = Ok event
         /\ pe_id event = Some i /\ i <> ""
         /\ CalendarManagementAgent.event_id o = Some i
         /\ CalendarManagementAgent.error o = None
  else CalendarManagementAgent.event_id o = None
       /\ exists text, CalendarManagementAgent.error o = Some text.
Proof.
  cbv zeta. unfold CalendarManagementAgent.create_event,
    CalendarManagementAgent.report_created.
  destruct (CalendarManagementAgent.create_body self summary start_time end_time
              description location attendees) as [body | err];
    cbn [mbind result_bind rbind].
  - destruct (events_insert body) as [event | err] eqn:Hins.
    + destruct (pe_id event) as [[ | c i] | ] eqn:Hid;
        cbn [CalendarManagementAgent.success CalendarManagementAgent.event_id
             CalendarManagementAgent.error].
      * eauto.
      * exists body, event, (String c i).
        split; [reflexivity | ]. split; [exact Hins | ]. split; [exact Hid | ].
        split; [discriminate | ]. split; reflexivity.
      * eauto.
    + destruct err;
        cbn [CalendarManagementAgent.success CalendarManagementAgent.event_id
             CalendarManagementAgent.error]; eauto.
  - destruct err;
      cbn [CalendarManagementAgent.success CalendarManagementAgent.event_id
           CalendarManagementAgent.error]; eauto.
Qed.

(** X15.  [cancel_event] deletes only what it could read, and only the
    event asked for: the delete request is made exactly when the get
    request for the same id succeeded, no other request is made, and the
    outcome is a success exactly when both requests succeeded. *)
Theorem cancel_event_requests (self : CalendarManagementAgent.t)
  (events_delete : string -> result unit) (event_id : string) :
  let '(o, requests) :=
    CalendarManagementAgent.cancel_event self events_delete event_id in
  (forall x, In (CalendarManagementAgent.Delete x) requests <->
             x = event_id
             /\ exists event, events_get (CalendarManagementAgent.service self)
                                event_id = Ok event)
  /\ (forall x, In (CalendarManagementAgent.Get x) requests <-> x = event_id)
  /\ (CalendarManagementAgent.success o = true <->
      (exists event, events_get (CalendarManagementAgent.service self) event_id
                     = Ok event)
      /\ events_delete event_id = Ok tt).
Proof.
  unfold CalendarManagementAgent.cancel_event.
  destruct (events_get (CalendarManagementAgent.service self) event_id)
    as [event | err].
  - split; [ | split].
    + intros x. cbn [In]. split.
      * intros [H | [[= <-] | []]]; [discriminate H | eauto].
      * intros [-> _]. right. left. reflexivity.
    + intros x. cbn [In]. split.
      * intros [[= <-] | [H | []]]; [reflexivity | discriminate H].
      * intros ->. left. reflexivity.
    + destruct (events_delete event_id) as [[] | err];
        cbn [mbind result_bind rbind CalendarManagementAgent.report_cancelled].
      * cbn. split; eauto.
      * destruct err; cbn; split; try discriminate; intros [_ H]; discriminate H.
  - split; [ | split].
    + intros x. cbn [In]. split.
      * intros [H | []]. discriminate H.
      * intros [_ [event H]]. discriminate H.
    + intros x. cbn [In]. split.
      * intros [[= <-] | []]. reflexivity.
      * intros ->. left. reflexivity.
    + destruct err; cbn; split; try discriminate;
        intros [[event H] _]; discriminate H.
Qed.

Lemma cancel_event_requests_witness :
  snd (CalendarManagementAgent.cancel_event new_york_agent
         (fun _ => Ok tt) "gone") = [CalendarManagementAgent.Get "gone"]
  /\ (CalendarManagementAgent.success
        (fst (CalendarManagementAgent.cancel_event new_york_agent
                (fun _ => Ok tt) "rev1")) = true <->
      (exists event, events_get (CalendarManagementAgent.service new_york_agent)
                       "rev1" = Ok event)
      /\ Ok tt = Ok tt).
Proof.
  split; [reflexivity | ].
  apply (proj2 (proj2 (cancel_event_requests new_york_agent (fun _ => Ok tt) "rev1"))).
Defined.

(** ** An event the agent created, under the conflict check *)

Lemma create_body_Ok (self : CalendarManagementAgent.t) (summary : string)
  (start_time end_time su eu : PyTime.datetime) (description location : string)
  (attendees : option (list string)) :
  CalendarManagementAgent.to_utc self start_time = Ok su ->
  CalendarManagementAgent.to_utc self end_time = Ok eu ->
  exists body,
    CalendarManagementAgent.create_body self summary start_time end_time
      description location attendees = Ok body
    /\ pe_summary body = Some summary
    /\ pe_location body = Some location
    /\ pe_start body = CalendarManagementAgent.utc_field (PyTime.strftime_rfc su)
    /\ pe_end body = CalendarManagementAgent.utc_field (PyTime.strftime_rfc eu).
Proof.
  intros Hs He. unfold CalendarManagementAgent.create_body.
  rewrite (sent_time_Ok _ _ _ Hs), (sent_time_Ok _ _ _ He).
  cbn [mbind result_bind rbind]. eexists. split; [reflexivity | ].
  repeat split; reflexivity.
Qed.

Example create_body_planning :
  CalendarManagementAgent.create_body planning_agent "Planning"
    (PyTime.Naive (wall 2024 3 12 9 0 0)) (PyTime.Naive (wall 2024 3 12 10 0 0))
    "" "" None
  = Ok planning_body.
Proof. reflexivity. Qed.

(** X16.  An event that [create_event] sent, listed back by the provider
    under the id it gave it, is reported by [check_conflicts] exactly when
    the proposed range strictly overlaps the range it was created for (in
    UTC, on whole seconds), and then with that id, the title and the
    location it was created with, and those times.  The times of the
    event and of the proposal are taken to convert to UTC, the former to
    datetimes of a four-digit year, the latter to zone-aware ones. *)
Theorem created_event_is_checked (self : CalendarManagementAgent.t)
  (k summary : string) (start_time end_time : PyTime.datetime)
  (description location : string) (attendees : option (list string))
  (proposed_start proposed_end : PyTime.datetime)
  (body : provider_event) (su eu ps pe : PyTime.datetime) :
  k <> "" ->
  CalendarManagementAgent.to_utc self start_time = Ok su ->
  CalendarManagementAgent.to_utc self end_time = Ok eu ->
  four_digit_year su ->
  four_digit_year eu ->
  CalendarManagementAgent.create_body self summary start_time end_time
    description location attendees = Ok body ->
  CalendarManagementAgent.to_utc self proposed_start = Ok ps ->
  CalendarManagementAgent.to_utc self proposed_end = Ok pe ->
  is_aware ps = true ->
  is_aware pe = true ->
  events_list (CalendarManagementAgent.service self)
    (PyTime.strftime_rfc ps) (PyTime.strftime_rfc pe)
  = Ok (Some [listed_as k body]) ->
  CalendarManagementAgent.check_conflicts self proposed_start proposed_end None
  = if strictly_overlaps (reading ps) (reading pe)
         (PyTime.wall_of (truncate su)) (PyTime.wall_of (truncate eu))
    then [{| CalendarManagementAgent.c_id := Some k;
             CalendarManagementAgent.c_summary := summary;
             CalendarManagementAgent.c_start :=
               PyTime.replace_tzinfo_utc (truncate su);
             CalendarManagementAgent.c_end :=
               PyTime.replace_tzinfo_utc (truncate eu);
             CalendarManagementAgent.c_location := location |}]
    else [].
Proof.
  intros Hk Hsu Heu Hs He Hbody Hps Hpe Haps Hape Hlist.
  destruct (create_body_Ok self summary _ _ _ _ description location attendees
              Hsu Heu) as (body' & Hbody' & Hsum & Hloc & Hst & Hen).
  rewrite Hbody in Hbody'. injection Hbody' as <-.
  set (ev := listed_as k body) in *.
  assert (Ht : CalendarManagementAgent.event_times ev
               = Ok (PyTime.replace_tzinfo_utc (truncate su),
                     PyTime.replace_tzinfo_utc (truncate eu)))
    by (apply event_times_utc_fields; assumption).
  assert (Hwf : well_formed_event ev = true).
  { unfold well_formed_event. rewrite Ht.
    rewrite bool_decide_eq_false_2; [reflexivity | ].
    subst ev. cbn [listed_as pe_id]. congruence. }
  rewrite (check_conflicts_converted _ _ _ _ _ _ Hps Hpe), Hlist.
  cbn [mbind result_bind rbind].
  change (default [] (Some [ev])) with [ev].
  rewrite (scan_conflicts_expected _ _ None [ev] Haps Hape)
    by (constructor; [exact Hwf | constructor]).
  cbn [expected_conflicts not_excluded andb]. rewrite Ht.
  cbn [reading PyTime.replace_tzinfo_utc]. unfold PyTime.utc_instant.
  rewrite !Z.sub_0_r. unfold expected_report.
  subst ev. cbn [listed_as pe_id pe_summary pe_location]. rewrite Hsum, Hloc.
  reflexivity.
Qed.

(** The planning runs from 13:00 to 14:00 in UTC: a proposal from 09:30
    to 10:30 in New York meets it, one from 10:00 to 11:00 does not. *)
Lemma created_event_is_checked_witness :
  CalendarManagementAgent.check_conflicts planning_agent
    (PyTime.Naive (wall 2024 3 12 9 30 0)) (PyTime.Naive (wall 2024 3 12 10 30 0))
    None
  = [{| CalendarManagementAgent.c_id := Some "pln1";
        CalendarManagementAgent.c_summary := "Planning";
        CalendarManagementAgent.c_start := PyTime.Aware (wall 2024 3 12 13 0 0) 0;
        CalendarManagementAgent.c_end := PyTime.Aware (wall 2024 3 12 14 0 0) 0;
        CalendarManagementAgent.c_location := "" |}]
  /\ CalendarManagementAgent.check_conflicts planning_agent
       (PyTime.Naive (wall 2024 3 12 10 0 0)) (PyTime.Naive (wall 2024 3 12 11 0 0))
       None
     = [].
Proof.
  split.
  - apply (eq_trans
             (created_event_is_checked planning_agent "pln1" "Planning"
                (PyTime.Naive (wall 2024 3 12 9 0 0))
                (PyTime.Naive (wall 2024 3 12 10 0 0)) "" "" None
                (PyTime.Naive (wall 2024 3 12 9 30 0))
                (PyTime.Naive (wall 2024 3 12 10 30 0))
                planning_body
                (PyTime.Aware (wall 2024 3 12 13 0 0) 0)
                (PyTime.Aware (wall 2024 3 12 14 0 0) 0)
                (PyTime.Aware (wall 2024 3 12 13 30 0) 0)
                (PyTime.Aware (wall 2024 3 12 14 30 0) 0)
                ltac:(discriminate)
                eq_refl eq_refl
                ltac:(vm_compute; split; discriminate)
                ltac:(vm_compute; split; discriminate)
                eq_refl eq_refl eq_refl eq_refl eq_refl eq_refl)).
    reflexivity.
  - apply (eq_trans
             (created_event_is_checked planning_agent "pln1" "Planning"
                (PyTime.Naive (wall 2024 3 12 9 0 0))
                (PyTime.Naive (wall 2024 3 12 10 0 0)) "" "" None
                (PyTime.Naive (wall 2024 3 12 10 0 0))
                (PyTime.Naive (wall 2024 3 12 11 0 0))
                planning_body
                (PyTime.Aware (wall 2024 3 12 13 0 0) 0)
                (PyTime.Aware (wall 2024 3 12 14 0 0) 0)
                (PyTime.Aware (wall 2024 3 12 14 0 0) 0)
                (PyTime.Aware (wall 2024 3 12 15 0 0) 0)
                ltac:(discriminate)
                eq_refl eq_refl
                ltac:(vm_compute; split; discriminate)
                ltac:(vm_compute; split; discriminate)
                eq_refl eq_refl eq_refl eq_refl eq_refl eq_refl)).
    reflexivity.
Defined.

(** ** get_all_events *)

Lemma to_user_tz_Ok self dt d :
  CalendarAgent.to_user_tz self dt = Ok d ->
  reading d = reading dt
  /\ (CalendarAgent.timezone_manager self <> None -> is_aware d = true).
Proof.
  unfold CalendarAgent.to_user_tz.
  destruct (CalendarAgent.timezone_manager self) as [tm | ].
  - intros H. apply convert_to_user_tz_Ok in H as (-> & _ & _).
    destruct (in_zone_reading (TimezoneManager.user_timezone tm) (reading dt)).
    auto.
  - intros [= <-]. split; [reflexivity | congruence].
Qed.

Lemma to_user_tz_Raise self dt e :
  CalendarAgent.to_user_tz self dt = Raise e ->
  exists tm,
    CalendarAgent.timezone_manager self = Some tm
    /\ ~ (PyTime.in_range (reading dt) = true
          /\ is_datetime (in_zone (TimezoneManager.user_timezone tm) (reading dt))).
Proof.
  unfold CalendarAgent.to_user_tz.
  destruct (CalendarAgent.timezone_manager self) as [tm | ]; [ | discriminate].
  rewrite convert_to_user_tz_cases. unfold is_datetime. intros H.
  exists tm. split; [reflexivity | ]. intros [H1 H2].
  rewrite H1, H2 in H. discriminate H.
Qed.

Lemma process_event_Raise self ev e :
  CalendarAgent.process_event self ev = Raise e ->
  unreadable ev \/ beyond_user_clock (CalendarAgent.timezone_manager self) ev.
Proof.
  unfold CalendarAgent.process_event, unreadable, beyond_user_clock.
  destruct (CalendarManagementAgent.event_times ev) as [[es ee] | e0];
    cbn [mbind result_bind rbind]; [ | eauto].
  destruct (CalendarAgent.to_user_tz self es) as [ds | e1] eqn:Hs;
    cbn [mbind result_bind rbind].
  - destruct (CalendarAgent.to_user_tz self ee) as [de | e2] eqn:He;
      cbn [mbind result_bind rbind]; [discriminate | ].
    intros _. right. destruct (to_user_tz_Raise _ _ _ He) as (tm & Htm & Hbad).
    exists tm, es, ee, ee. auto.
  - intros _. right. destruct (to_user_tz_Raise _ _ _ Hs) as (tm & Htm & Hbad).
    exists tm, es, ee, es. auto.
Qed.

(** X17.  [get_all_events] writes the cache only on request and only on
    success: the table is the one [_store_events] leaves when the fetch
    succeeded and [store_in_db] is set, and is untouched otherwise; a
    failed fetch returns no events; [count] is the number of events
    returned. *)
Theorem get_all_events_cache (self : CalendarAgent.t)
  (events_list : string -> Z -> result (option (list provider_event)))
  (now : Z) (clk : clock) (tbl : Cache.table) (store_in_db : bool) :
  let '(res, tbl') :=
    CalendarAgent.get_all_events self events_list now clk tbl store_in_db in
  CalendarAgent.count res = length (CalendarAgent.events res)
  /\ tbl' = (if CalendarAgent.success res && store_in_db
             then fst (CalendarAgent._store_events self clk tbl
                         (CalendarAgent.events res))
             else tbl)
  /\ (if CalendarAgent.success res then CalendarAgent.error res = None
      else CalendarAgent.events res = []
           /\ exists text, CalendarAgent.error res = Some text).
Proof.
  unfold CalendarAgent.get_all_events.
  destruct (items ← events_list _ _; _) as [processed | err].
  - destruct store_in_db, processed as [ | e processed].
    + cbn [CalendarAgent.count CalendarAgent.events CalendarAgent.success
           CalendarAgent.error andb].
      split; [reflexivity | ]. split; [ | reflexivity].
      unfold CalendarAgent._store_events, CalendarAgent.stored.
      destruct (CalendarAgent.now_text self clk); reflexivity.
    + destruct (CalendarAgent._store_events self clk tbl (e :: processed))
        as [tbl' n] eqn:Hstore.
      cbn [CalendarAgent.count CalendarAgent.events CalendarAgent.success
           CalendarAgent.error andb].
      rewrite Hstore. repeat split; reflexivity.
    + cbn. repeat split; reflexivity.
    + cbn. repeat split; reflexivity.
  - destruct err; cbn; repeat split; eauto.
Qed.

(** X18.  Every event [get_all_events] returns is one the provider
    listed, in order, with its id and at its instants; with a timezone
    manager its start and end are zone-aware.  The fetch is all or
    nothing: it fails as a whole as soon as one listed event has times
    that cannot be read, or a start or an end that the clock of the user
    zone cannot show (an OverflowError of the conversion). *)
Theorem get_all_events_lists_provider_events (self : CalendarAgent.t)
  (events_list : string -> Z -> result (option (list provider_event)))
  (now : Z) (clk : clock) (tbl : Cache.table) (store_in_db : bool)
  (items : option (list provider_event)) :
  events_list (CalendarAgent.time_min now) CalendarAgent.NUM_RECENT_EVENTS
  = Ok items ->
  let res := fst (CalendarAgent.get_all_events self events_list now clk tbl
                    store_in_db) in
  if CalendarAgent.success res
  then Forall2
         (fun ev e =>
            ce_id e = pe_id ev
            /\ exists event_start event_end,
                 CalendarManagementAgent.event_times ev
                 = Ok (event_start, event_end)
                 /\ reading (ce_start e) = reading event_start
                 /\ reading (ce_end e) = reading event_end
                 /\ (CalendarAgent.timezone_manager self <> None ->
                     is_aware (ce_start e) = true /\ is_aware (ce_end e) = true))
         (default [] items) (CalendarAgent.events res)
  else Exists (fun ev =>
                 unreadable ev
                 \/ beyond_user_clock (CalendarAgent.timezone_manager self) ev)
         (default [] items).
Proof.
  intros Hlist. cbv zeta. unfold CalendarAgent.get_all_events.
  rewrite Hlist. cbn [mbind result_bind rbind].
  destruct (rmapM (CalendarAgent.process_event self) (default [] items))
    as [processed | err] eqn:Hmap.
  - assert (Hres : Forall2
              (fun ev e =>
                 ce_id e = pe_id ev
                 /\ exists event_start event_end,
                      CalendarManagementAgent.event_times ev
                      = Ok (event_start, event_end)
                      /\ reading (ce_start e) = reading event_start
                      /\ reading (ce_end e) = reading event_end
                      /\ (CalendarAgent.timezone_manager self <> None ->
                          is_aware (ce_start e) = true
                          /\ is_aware (ce_end e) = true))
              (default [] items) processed).
    { apply rmapM_Ok_Forall2 in Hmap.
      eapply Forall2_impl; [exact Hmap | ]. cbn. intros ev e.
      unfold CalendarAgent.process_event.
      destruct (CalendarManagementAgent.event_times ev) as [[es ee] | ?];
        cbn [mbind result_bind rbind]; [ | discriminate].
      destruct (CalendarAgent.to_user_tz self es) as [ds | ?] eqn:Hs;
        cbn [mbind result_bind rbind]; [ | discriminate].
      destruct (CalendarAgent.to_user_tz self ee) as [de | ?] eqn:He;
        cbn [mbind result_bind rbind]; [ | discriminate].
      intros [= <-]. cbn [ce_id ce_start ce_end].
      split; [reflexivity | ]. exists es, ee.
      destruct (to_user_tz_Ok self es ds Hs) as [Hrs Has].
      destruct (to_user_tz_Ok self ee de He) as [Hre Hae].
      repeat split; auto. }
    destruct store_in_db, processed;
      try destruct (CalendarAgent._store_events _ _ _ _); exact Hres.
  - assert (Hbad : Exists (fun ev =>
                unreadable ev
                \/ beyond_user_clock (CalendarAgent.timezone_manager self) ev)
              (default [] items)).
    { clear Hlist. revert err Hmap.
      induction (default [] items) as [ | ev l IH]; intros err;
        cbn [rmapM]; [intros H; discriminate H | ].
      destruct (CalendarAgent.process_event self ev) as [b | e0] eqn:Hp;
        cbn [mbind result_bind rbind].
      - destruct (rmapM (CalendarAgent.process_event self) l) as [bs | e1];
          cbn [mbind result_bind rbind]; [intros H; discriminate H | ].
        intros _. right. apply (IH e1). reflexivity.
      - intros _. left. apply (process_event_Raise self ev e0 Hp). }
    destruct err; exact Hbad.
Qed.

Lemma get_all_events_lists_provider_events_witness :
  Forall2
    (fun ev e =>
       ce_id e = pe_id ev
       /\ exists event_start event_end,
            CalendarManagementAgent.event_times ev = Ok (event_start, event_end)
            /\ reading (ce_start e) = reading event_start
            /\ reading (ce_end e) = reading event_end
            /\ (CalendarAgent.timezone_manager kolkata_calendar_agent <> None ->
                is_aware (ce_start e) = true /\ is_aware (ce_end e) = true))
    [review_event; lunch_event]
    (CalendarAgent.events
       (fst (CalendarAgent.get_all_events kolkata_calendar_agent upcoming
               (utc_now morning) morning Cache.empty false))).
Proof.
  apply (get_all_events_lists_provider_events kolkata_calendar_agent upcoming
           (utc_now morning) morning Cache.empty false
           (Some [review_event; lunch_event])).
  reflexivity.
Defined.

(** An event read without fault whose end the clock of Kolkata cannot
    show makes the fetch fail, with the text of the OverflowError. *)
Example get_all_events_beyond_user_clock :
  CalendarManagementAgent.event_times last_event
  = Ok (PyTime.Aware (wall 9999 12 31 18 0 0) 0,
        PyTime.Aware (wall 9999 12 31 23 30 0) 0)
  /\ fst (CalendarAgent.get_all_events kolkata_calendar_agent listing_last
            (utc_now morning) morning Cache.empty false)
     = {| CalendarAgent.success := false; CalendarAgent.events := [];
          CalendarAgent.count := 0;
          CalendarAgent.message :=
            "Could not retrieve events: date value out of range";
          CalendarAgent.error := Some "date value out of range" |}.
Proof. split; reflexivity. Qed.

(** A datetime in the user zone, on a whole second, is read back from
    the cache as it was stored. *)
Lemma read_back_user_zone tm u :
  u mod PyTime.us_second = 0 ->
  read_back (Some tm) (in_zone (TimezoneManager.user_timezone tm) u)
  = in_zone (TimezoneManager.user_timezone tm) u.
Proof.
  intros Hu. unfold read_back, stored_reading, in_zone at 2, instant_of.
  cbn [truncate PyTime.wall_of].
  replace (u + Pytz.utcoffset_at_utc (TimezoneManager.user_timezone tm) u
           - Pytz.utcoffset_at_utc (TimezoneManager.user_timezone tm) u)
    with u by lia.
  rewrite Hu, Z.sub_0_r. reflexivity.
Qed.

(** What [get_all_events] returns with a timezone manager is on the
    clock of the user zone. *)
Lemma process_event_user_zone tm ev e :
  CalendarAgent.process_event (calendar_agent_of (Some tm)) ev = Ok e ->
  exists us ue,
    ce_start e = in_zone (TimezoneManager.user_timezone tm) us
    /\ ce_end e = in_zone (TimezoneManager.user_timezone tm) ue
    /\ is_datetime (ce_start e) /\ is_datetime (ce_end e).
Proof.
  unfold CalendarAgent.process_event.
  destruct (CalendarManagementAgent.event_times ev) as [[es ee] | ?];
    cbn [mbind result_bind rbind]; [ | discriminate].
  cbn [CalendarAgent.to_user_tz calendar_agent_of CalendarAgent.timezone_manager].
  destruct (TimezoneManager.convert_to_user_tz tm es) as [ds | ?] eqn:Hs;
    cbn [mbind result_bind rbind]; [ | discriminate].
  destruct (TimezoneManager.convert_to_user_tz tm ee) as [de | ?] eqn:He;
    cbn [mbind result_bind rbind]; [ | discriminate].
  apply convert_to_user_tz_Ok in Hs as (Hds & _ & Hsd).
  apply convert_to_user_tz_Ok in He as (Hde & _ & Hed).
  intros [= <-]. cbn [ce_start ce_end]. exists (reading es), (reading ee). auto.
Qed.

(** X19.  From the provider to the answer of a query: after a refresh
    of the cache, the events [execute_query] returns for any rows of the
    table are the fetched events themselves, with the start and end
    [get_all_events] returned (in the user zone), for events on whole
    seconds whose UTC year has four digits. *)
Theorem fetched_events_read_back (tm : TimezoneManager.t)
  (events_list : string -> Z -> result (option (list provider_event)))
  (now : Z) (clk : clock) (old : Cache.table)
  (conn : string -> result (list Cache.row)) (sql : string)
  (rows : list Cache.row) :
  Forall (fun e => storable (Some tm) e /\ whole_seconds e)
    (CalendarAgent.events (fst (refresh (Some tm) events_list now clk old))) ->
  conn sql = Ok rows ->
  Forall (in_table (snd (refresh (Some tm) events_list now clk old))) rows ->
  exists picked,
    Forall2 (fun r e =>
               In e (CalendarAgent.events
                       (fst (refresh (Some tm) events_list now clk old)))
               /\ Cache.id r = ce_id e)
      rows picked
    /\ Forall2 (fun d e => de_id d = ce_id e /\ de_summary d = ce_summary e
                           /\ de_start d = ce_start e /\ de_end d = ce_end e)
         (DatabaseAgent.execute_query (database_agent_of conn (Some tm)) sql)
         picked.
Proof.
  unfold refresh, CalendarAgent.get_all_events, Cache.clear_all_events.
  assert (Hnone : conn sql = Ok rows -> Forall (in_table Cache.empty) rows ->
             exists picked,
               Forall2 (fun (r : Cache.row) (e : cal_event) =>
                          In e [] /\ Cache.id r = ce_id e) rows picked
               /\ Forall2 (fun d e => de_id d = ce_id e
                                      /\ de_summary d = ce_summary e
                                      /\ de_start d = ce_start e
                                      /\ de_end d = ce_end e)
                    (DatabaseAgent.execute_query
                       (database_agent_of conn (Some tm)) sql) picked).
  { intros Hconn Hrows. destruct rows as [ | r rows].
    - exists []. split; [constructor | ].
      rewrite (execute_query_no_rows _ _ _ Hconn). constructor.
    - apply Forall_cons in Hrows as [Hr _]. destruct (in_table_empty _ Hr). }
  destruct (items ← events_list _ _; _) as [processed | err] eqn:Hfetch.
  - destruct processed as [ | e0 processed'] eqn:Hproc.
    + cbn [CalendarAgent.events fst snd]. intros _. exact Hnone.
    + rewrite <- Hproc in *. clear Hproc e0 processed'.
      destruct (CalendarAgent._store_events (calendar_agent_of (Some tm)) clk
                  Cache.empty processed) as [tbl' n] eqn:Hstore.
      cbn [CalendarAgent.events fst snd].
      intros Hall Hconn Hrows.
      assert (Hzone : Forall (fun e =>
                 exists us ue,
                   ce_start e = in_zone (TimezoneManager.user_timezone tm) us
                   /\ ce_end e = in_zone (TimezoneManager.user_timezone tm) ue
                   /\ is_datetime (ce_start e) /\ is_datetime (ce_end e))
                 processed).
      { destruct (events_list _ _) as [items | ?];
          cbn [mbind result_bind rbind] in Hfetch; [ | discriminate].
        apply rmapM_Ok_Forall2 in Hfetch.
        clear - Hfetch. induction Hfetch as [ | ev e l l' He _ IH];
          constructor; [ | exact IH].
        exact (process_event_user_zone tm ev e He). }
      assert (Hback : Forall (fun e =>
                 read_back (Some tm) (ce_start e) = ce_start e
                 /\ read_back (Some tm) (ce_end e) = ce_end e) processed).
      { rewrite List.Forall_forall in Hall, Hzone. apply List.Forall_forall.
        intros e Hin. destruct (Hall e Hin) as (_ & Hws & Hwe).
        destruct (Hzone e Hin) as (us & ue & Hs & He & _).
        rewrite Hs, He in *.
        destruct (in_zone_reading (TimezoneManager.user_timezone tm) us) as [Hus _].
        destruct (in_zone_reading (TimezoneManager.user_timezone tm) ue) as [Hue _].
        rewrite Hus in Hws. rewrite Hue in Hwe.
        split; apply read_back_user_zone; assumption. }
      assert (Hret : Forall (retrievable (Some tm)) processed).
      { rewrite List.Forall_forall in Hall, Hzone, Hback. apply List.Forall_forall.
        intros e Hin. destruct (Hall e Hin) as (Hst & _).
        destruct (Hzone e Hin) as (us & ue & _ & _ & Hds & Hde).
        destruct (Hback e Hin) as (Hbs & Hbe).
        split; [exact Hst | ]. rewrite Hbs, Hbe. auto. }
      assert (Htbl : tbl' = fst (CalendarAgent._store_events
                                   (calendar_agent_of (Some tm)) clk Cache.empty
                                   processed))
        by (rewrite Hstore; reflexivity).
      rewrite Htbl in Hrows.
      destruct (refreshed_rows_read_back (Some tm) clk processed conn sql rows
                  Hret Hconn Hrows) as (picked & Hpick & ->).
      exists picked. split; [exact Hpick | ].
      clear Hfetch Hrows Hconn Hnone Htbl Hstore Hret Hzone Hall.
      induction Hpick as [ | r e rows picked [Hin _] _ IH]; cbn [map];
        constructor; [ | exact IH].
      rewrite List.Forall_forall in Hback.
      destruct (Hback e Hin) as (Hbs & Hbe).
      cbn [read_event de_id de_summary de_start de_end].
      rewrite Hbs, Hbe. auto.
  - destruct err; cbn [CalendarAgent.events fst snd]; intros _; exact Hnone.
Qed.

(** The review, fetched as 18:30 in Kolkata, comes back from the cache
    at 18:30 in Kolkata. *)
Lemma fetched_events_read_back_witness :
  exists picked,
    Forall2 (fun r e =>
               In e (CalendarAgent.events
                       (fst (refresh (Some kolkata_manager) upcoming
                               (utc_now morning) morning Cache.empty)))
               /\ Cache.id r = ce_id e)
      [review_row] picked
    /\ Forall2 (fun d e => de_id d = ce_id e /\ de_summary d = ce_summary e
                           /\ de_start d = ce_start e /\ de_end d = ce_end e)
         (DatabaseAgent.execute_query
            (database_agent_of
               (fun _ => Ok [review_row])
               (Some kolkata_manager))
            "SELECT * FROM events WHERE id = 'rev1'")
         picked.
Proof.
  apply (fetched_events_read_back kolkata_manager upcoming (utc_now morning)
           morning Cache.empty).
  - apply List.Forall_forall. intros e Hin. vm_compute in Hin.
    destruct Hin as [<- | [<- | []]]; vm_compute;
      repeat split; first [discriminate | reflexivity].
  - reflexivity.
  - constructor; [ | constructor]. left. exists "rev1". vm_compute. reflexivity.
Defined.

(** ** Replies wrapped in a Markdown fence *)

Lemma startswith_app (p s : string) : PyStr.startswith p (p +:+ s) = true.
Proof.
  induction p as [ | c p IH]; [reflexivity | ].
  rewrite append_cons. cbn [PyStr.startswith].
  now rewrite Ascii.eqb_refl.
Qed.

Lemma startswith_contains (c : ascii) (p s : string) :
  PyStr.startswith (String c p) s = true -> PyStr.contains_char c s = true.
Proof.
  destruct s as [ | b s]; cbn [PyStr.startswith PyStr.contains_char];
    [discriminate | ].
  destruct (Ascii.eqb c b); [reflexivity | discriminate].
Qed.

Lemma split_aux_nonempty sep skip cur s : PyStr.split_aux sep skip cur s <> [].
Proof.
  revert skip cur. induction s as [ | c s IH]; intros skip cur;
    cbn [PyStr.split_aux]; [discriminate | ].
  destruct skip as [ | k]; [ | apply IH].
  destruct (PyStr.startswith sep (String c s)); [discriminate | apply IH].
Qed.

(** Up to the next fence, the text is one piece. *)
Lemma split_aux_piece (cur body rest : string) :
  PyStr.contains_char "`" body = false ->
  PyStr.split_aux "```" 0 cur (body +:+ "```" +:+ rest)
  = (cur +:+ body) :: PyStr.split_aux "```" 0 "" rest.
Proof.
  revert cur. induction body as [ | c body IH]; intros cur Hbody.
  - rewrite append_nil, append_nil_r.
    destruct rest as [ | a [ | b rest]]; reflexivity.
  - cbn [PyStr.contains_char] in Hbody. apply orb_false_iff in Hbody as [Hc Hbody].
    rewrite append_cons. cbn [PyStr.split_aux].
    assert (Hstart : PyStr.startswith "```" (String c (body +:+ "```" +:+ rest))
                     = false).
    { cbn [PyStr.startswith]. now rewrite Hc. }
    rewrite Hstart, (IH _ Hbody), string_app_assoc. reflexivity.
Qed.

(** The pieces of a reply that opens with a fence: an empty one, then
    the text up to the closing fence. *)
Lemma split_fenced (body rest : string) :
  PyStr.contains_char "`" body = false ->
  PyStr.split "```" ("```" +:+ body +:+ "```" +:+ rest)
  = "" :: body :: PyStr.split_aux "```" 0 "" rest.
Proof.
  intros Hbody. unfold PyStr.split.
  change ("```" +:+ body +:+ "```" +:+ rest)
    with ("" +:+ "```" +:+ (body +:+ "```" +:+ rest)).
  rewrite (split_aux_piece "" "" _ eq_refl).
  rewrite (split_aux_piece "" body rest Hbody). reflexivity.
Qed.

Lemma lstrip_no_char (c : ascii) (s : string) :
  PyStr.contains_char c s = false -> PyStr.contains_char c (PyStr.lstrip s) = false.
Proof.
  induction s as [ | b s IH]; [reflexivity | ].
  intros H. cbn [PyStr.lstrip]. destruct (PyStr.isspace b); [ | exact H].
  apply IH. cbn [PyStr.contains_char] in H. now apply orb_false_iff in H as [_ H].
Qed.

Lemma rstrip_no_char (c : ascii) (s : string) :
  PyStr.contains_char c s = false -> PyStr.contains_char c (PyStr.rstrip s) = false.
Proof.
  induction s as [ | b s IH]; [reflexivity | ].
  cbn [PyStr.contains_char PyStr.rstrip]. intros H.
  apply orb_false_iff in H as [Hb Hs]. specialize (IH Hs).
  destruct (PyStr.rstrip s) as [ | x r].
  - destruct (PyStr.isspace b); [reflexivity | ].
    cbn [PyStr.contains_char]. now rewrite Hb.
  - cbn [PyStr.contains_char] in *. now rewrite Hb.
Qed.

Lemma strip_no_char (c : ascii) (s : string) :
  PyStr.contains_char c s = false -> PyStr.contains_char c (PyStr.strip s) = false.
Proof. intros H. apply rstrip_no_char, lstrip_no_char, H. Qed.

Lemma rstrip_app (a b : string) :
  PyStr.rstrip b <> "" -> PyStr.rstrip (a +:+ b) = a +:+ PyStr.rstrip b.
Proof.
  intros Hb. induction a as [ | c a IH]; [reflexivity | ].
  rewrite !append_cons. cbn [PyStr.rstrip]. rewrite IH.
  destruct (a +:+ PyStr.rstrip b) as [ | x r] eqn:Hr; [ | reflexivity].
  destruct a; [ | discriminate Hr]. rewrite append_nil in Hr. contradiction.
Qed.

(** A reply that opens and closes with a fence has no white space to
    strip. *)
Lemma strip_fenced (inner : string) :
  PyStr.strip ("```" +:+ inner +:+ "```") = "```" +:+ inner +:+ "```".
Proof.
  unfold PyStr.strip.
  change (PyStr.lstrip ("```" +:+ inner +:+ "```")) with ("```" +:+ inner +:+ "```").
  rewrite <- !string_app_assoc. rewrite rstrip_app; [reflexivity | discriminate].
Qed.

Lemma unfenced_bare (content : string) :
  PyStr.contains_char "`" content = false ->
  ActionParserAgent.unfenced content = content.
Proof.
  intros H. unfold ActionParserAgent.unfenced.
  destruct (PyStr.startswith "```" content) eqn:Hs; [ | reflexivity].
  apply startswith_contains in Hs. congruence.
Qed.

Lemma unfenced_fenced_json (body rest : string) :
  PyStr.contains_char "`" body = false ->
  ActionParserAgent.unfenced ("```json" +:+ body +:+ "```" +:+ rest)
  = PyStr.strip body.
Proof.
  intros Hbody. unfold ActionParserAgent.unfenced.
  change ("```json" +:+ body +:+ "```" +:+ rest)
    with ("```" +:+ ("json" +:+ body) +:+ "```" +:+ rest).
  rewrite startswith_app, split_fenced by exact Hbody.
  cbn [length Nat.ltb Nat.leb lookup list_lookup].
  rewrite startswith_app. reflexivity.
Qed.

Lemma validation_parsed_reply_unfenced reply :
  ValidationAgent.parsed_reply reply
  = (content ← content_strip reply; Json.loads (ActionParserAgent.unfenced content)).
Proof. reflexivity. Qed.

(** X20.  A JSON reply wrapped in a Markdown fence with the json tag is
    handled as the bare reply, by the three parsers of the action parser
    and by the validator: the fence, the tag and the white space inside
    the fence make no difference to the result. *)
Theorem fenced_reply_like_bare (body : string) (choices : list (option string)) :
  PyStr.contains_char "`" body = false ->
  ActionParserAgent.parse
    (CallReturns (Some ("```json" +:+ body +:+ "```") :: choices))
  = ActionParserAgent.parse (CallReturns (Some body :: choices))
  /\ (forall user_query action_type event_data,
        ValidationAgent.validate
          {| ValidationAgent.client :=
               CallReturns (Some ("```json" +:+ body +:+ "```") :: choices) |}
          user_query action_type event_data
        = ValidationAgent.validate
            {| ValidationAgent.client := CallReturns (Some body :: choices) |}
            user_query action_type event_data).
Proof.
  intros Hbody.
  assert (Hfenced : content_strip
                      (CallReturns (Some ("```json" +:+ body +:+ "```") :: choices))
                    = Ok ("```json" +:+ body +:+ "```" +:+ "")).
  { cbn [content_strip].
    change ("```json" +:+ body +:+ "```")
      with ("```" +:+ ("json" +:+ body) +:+ "```").
    now rewrite strip_fenced. }
  assert (Hf : ActionParserAgent.unfenced ("```json" +:+ body +:+ "```" +:+ "")
               = PyStr.strip body) by (apply unfenced_fenced_json, Hbody).
  assert (Hb : ActionParserAgent.unfenced (PyStr.strip body) = PyStr.strip body)
    by (apply unfenced_bare, strip_no_char, Hbody).
  split.
  - unfold ActionParserAgent.parse, ActionParserAgent.parsed_reply.
    rewrite Hfenced. cbn [content_strip mbind result_bind rbind].
    now rewrite Hf, Hb.
  - intros. unfold ValidationAgent.validate.
    cbn [ValidationAgent.client].
    rewrite !validation_parsed_reply_unfenced, Hfenced.
    cbn [content_strip mbind result_bind rbind].
    now rewrite Hf, Hb.
Qed.

Lemma fenced_reply_like_bare_witness :
  ActionParserAgent.parse
    (CallReturns [Some ("```json" +:+ dq "
{'event_id': 'rev1'}
" +:+ "```")])
  = Json.JObj [("event_id", Json.JStr "rev1")].
Proof.
  apply (eq_trans
           (proj1 (fenced_reply_like_bare (dq "
{'event_id': 'rev1'}
") [] eq_refl))).
  reflexivity.
Defined.

(** X21.  The three parsers never raise, and never pass a failure on in
    silence: the result is the JSON value of the reply (its fence
    removed), or else a dict with the key [error], which is what the
    orchestrator tests first. *)
Theorem parse_decodes_or_reports (self : ActionParserAgent.t)
  (user_query : string) (current_date : option string)
  (events : list cal_event) :
  ActionParserAgent.parse_modify self user_query events
  = ActionParserAgent.parse_create self user_query current_date
  /\ ActionParserAgent.parse_cancel self user_query events
     = ActionParserAgent.parse_create self user_query current_date
  /\ ((exists content choices value,
         ActionParserAgent.client self = CallReturns (Some content :: choices)
         /\ Json.loads (ActionParserAgent.unfenced (PyStr.strip content)) = Ok value
         /\ ActionParserAgent.parse_create self user_query current_date = value)
      \/ Json.has_key "error"
           (ActionParserAgent.parse_create self user_query current_date) = true).
Proof.
  split; [reflexivity | ]. split; [reflexivity | ].
  unfold ActionParserAgent.parse_create, ActionParserAgent.parse,
    ActionParserAgent.parsed_reply.
  destruct (ActionParserAgent.client self) as [e | [ | [content | ] choices]];
    cbn [content_strip mbind result_bind rbind].
  - right. destruct e; reflexivity.
  - right. reflexivity.
  - destruct (ActionParserAgent.unfenced (PyStr.strip content)) as [ | c s] eqn:Hu.
    + right. reflexivity.
    + destruct (Json.loads (String c s)) as [value | e] eqn:Hl;
        cbn [mbind result_bind rbind].
      * left. exists content, choices, value. rewrite Hu. auto.
      * right. destruct e; reflexivity.
  - right. reflexivity.
Qed.

(** ** text_to_sql on a reply that has content *)

Lemma split_has_second (s : string) :
  PyStr.startswith "```" s = true ->
  exists p, PyStr.split "```" s !! 1%nat = Some p.
Proof.
  intros Hs. unfold PyStr.split.
  destruct s as [ | c s]; [discriminate Hs | ].
  cbn [PyStr.split_aux]. rewrite Hs.
  cbn [lookup list_lookup].
  destruct (PyStr.split_aux "```" (String.length "```" - 1) "" s) as [ | p l] eqn:Hp;
    [destruct (split_aux_nonempty _ _ _ _ Hp) | ].
  exists p. reflexivity.
Qed.

Lemma generated_sql_content (content : string) (choices : list (option string)) :
  exists sql,
    SQLAgent.generated_sql (CallReturns (Some content :: choices)) = Ok sql
    /\ (PyStr.contains_char "`" content = false -> sql = PyStr.strip content)
    /\ (forall body,
          content = "```sql" +:+ body +:+ "```" ->
          PyStr.contains_char "`" body = false -> sql = PyStr.strip body).
Proof.
  unfold SQLAgent.generated_sql, SQLAgent.fence.
  cbn [content_strip mbind result_bind rbind].
  destruct (PyStr.startswith "```" (PyStr.strip content)) eqn:Hs.
  - destruct (split_has_second _ Hs) as (p & Hp). rewrite Hp.
    cbn [of_option mbind result_bind rbind]. eexists. split; [reflexivity | ].
    split.
    + intros Hc. apply startswith_contains in Hs.
      rewrite (strip_no_char _ _ Hc) in Hs. discriminate Hs.
    + intros body -> Hbody.
      change ("```sql" +:+ body +:+ "```")
        with ("```" +:+ ("sql" +:+ body) +:+ "```") in Hp.
      rewrite strip_fenced in Hp.
      change ("```" +:+ ("sql" +:+ body) +:+ "```")
        with ("```" +:+ ("sql" +:+ body) +:+ "```" +:+ "") in Hp.
      rewrite split_fenced in Hp by exact Hbody.
      injection Hp as <-. rewrite startswith_app. reflexivity.
  - eexists. split; [reflexivity | ]. split; [reflexivity | ].
    intros body -> _.
    change ("```sql" +:+ body +:+ "```")
      with ("```" +:+ ("sql" +:+ body) +:+ "```") in Hs.
    rewrite strip_fenced, startswith_app in Hs. discriminate Hs.
Qed.

(** X22.  [text_to_sql] takes whatever text the model replied as the
    query: when the reply has content it never falls back and prints
    nothing, the query is the trimmed reply, and for a reply fenced as
    [```sql ... ```] the trimmed text inside the fence. *)
Theorem text_to_sql_takes_reply (self : SQLAgent.t) (user_query : string)
  (events : option (list cal_event)) (content : string)
  (choices : list (option string)) :
  SQLAgent.client self = CallReturns (Some content :: choices) ->
  exists sql,
    SQLAgent.text_to_sql self user_query events = ([], Some sql)
    /\ (PyStr.contains_char "`" content = false -> sql = PyStr.strip content)
    /\ (forall body,
          content = "```sql" +:+ body +:+ "```" ->
          PyStr.contains_char "`" body = false -> sql = PyStr.strip body).
Proof.
  intros Hclient. unfold SQLAgent.text_to_sql. rewrite Hclient.
  destruct (generated_sql_content content choices) as (sql & -> & H1 & H2).
  exists sql. auto.
Qed.

Lemma text_to_sql_takes_reply_witness :
  SQLAgent.text_to_sql
    {| SQLAgent.client :=
         CallReturns [Some "```sql
SELECT * FROM events
```"];
       SQLAgent.qa_agent := Some failing_qa_agent;
       SQLAgent.timezone_manager := None |}
    "what is on today" (Some [sample_cal_event])
  = ([], Some "SELECT * FROM events").
Proof.
  destruct (text_to_sql_takes_reply
              {| SQLAgent.client :=
                   CallReturns [Some "```sql
SELECT * FROM events
```"];
                 SQLAgent.qa_agent := Some failing_qa_agent;
                 SQLAgent.timezone_manager := None |}
              "what is on today" (Some [sample_cal_event])
              "```sql
SELECT * FROM events
```" [] eq_refl) as (sql & Heq & _ & Hfenced).
  rewrite Heq. f_equal. f_equal.
  apply (Hfenced "
SELECT * FROM events
" eq_refl eq_refl).
Defined.

(** ** ask_user_timezone *)

Lemma ask_user_timezone_skips pytz_timezone state line rest :
  ~ decisive pytz_timezone line ->
  exists state',
    TimezoneAgent.ask_user_timezone pytz_timezone state (line :: rest)
    = TimezoneAgent.ask_user_timezone pytz_timezone state' rest.
Proof.
  unfold decisive. intros Hnot. cbn [TimezoneAgent.ask_user_timezone].
  destruct (String.eqb_spec (PyStr.lower (PyStr.strip line)) "list") as [ | Hl];
    [eauto | ].
  destruct (PyStr.strip line) as [ | c s] eqn:Hs; [tauto | ].
  unfold TimezoneManager.set_timezone.
  destruct (pytz_timezone (String c s)) as [tz | ] eqn:Htz; [ | eauto].
  exfalso. apply Hnot. split; [exact Hl | right; eauto].
Qed.

Lemma ask_user_timezone_none pytz_timezone inputs :
  Forall (fun l => ~ decisive pytz_timezone l) inputs ->
  forall state, TimezoneAgent.ask_user_timezone pytz_timezone state inputs = None.
Proof.
  induction 1 as [ | l inputs Hl _ IH]; intros state; [reflexivity | ].
  destruct (ask_user_timezone_skips pytz_timezone state l inputs Hl)
    as (state' & ->).
  apply IH.
Qed.

(** X23.  [ask_user_timezone] returns at the first line that decides:
    the lines before it (the word list, names the tz database does not
    know) are passed over, an empty line gives the manager of UTC, a known
    name gives the manager of that zone.  As long as no line decides, the
    loop does not return: it never returns a manager for a name the tz
    database does not know. *)
Theorem ask_user_timezone_first_decisive
  (pytz_timezone : string -> option Pytz.tzinfo)
  (before : list string) (line : string) (after : list string) :
  Forall (fun l => ~ decisive pytz_timezone l) before ->
  TimezoneAgent.ask_user_timezone pytz_timezone None before = None
  /\ (decisive pytz_timezone line ->
      TimezoneAgent.ask_user_timezone pytz_timezone None (before ++ line :: after)
      = Some (manager_for pytz_timezone line)).
Proof.
  intros Hbefore. split; [apply ask_user_timezone_none; exact Hbefore | ].
  intros [Hlist Hline]. generalize (@None TimezoneManager.t).
  induction Hbefore as [ | l before Hl _ IH]; intros state.
  - cbn [app TimezoneAgent.ask_user_timezone]. unfold manager_for.
    destruct (String.eqb_spec (PyStr.lower (PyStr.strip line)) "list");
      [contradiction | ].
    destruct (PyStr.strip line) as [ | c s]; [reflexivity | ].
    destruct Hline as [H | [tz Htz]]; [discriminate H | ].
    unfold TimezoneManager.set_timezone. rewrite Htz. reflexivity.
  - cbn [app].
    destruct (ask_user_timezone_skips pytz_timezone state l
                (before ++ line :: after) Hl) as (state' & ->).
    apply IH.
Qed.

Lemma ask_user_timezone_first_decisive_witness :
  TimezoneAgent.ask_user_timezone sample_pytz None
    ["Mars/Olympus"; " LIST "; " Asia/Kolkata "; "UTC"]
  = Some kolkata_manager.
Proof.
  apply (proj2 (ask_user_timezone_first_decisive sample_pytz
                  ["Mars/Olympus"; " LIST "] " Asia/Kolkata " ["UTC"]
                  ltac:(constructor; [ | constructor; [ | constructor]];
                        [intros [_ [H | [tz H]]]; discriminate H
                        | intros [H _]; apply H; reflexivity]))).
  split; [discriminate | right; eexists; reflexivity].
Defined.

(** ** The branch of a query *)

(** X24.  The branch of a query prints an answer in every case but one:
    it stays silent exactly when the SQL reply of the model, trimmed and
    without its fence, is the empty text (a blank reply or an empty
    fence). *)
Theorem query_silent_only_on_empty_sql (self : Orchestrator.t)
  (events_list : string -> Z -> result (option (list provider_event)))
  (now : Z) (clk : clock) (tbl : Cache.table) (user_input : string) :
  Orchestrator.query self events_list now clk tbl user_input = []
  <-> SQLAgent.generated_sql (SQLAgent.client (Orchestrator.sql_agent self))
      = Ok "".
Proof.
  unfold Orchestrator.query, SQLAgent.text_to_sql. cbv zeta.
  destruct (SQLAgent.generated_sql _) as [[ | c sql] | e].
  - split; reflexivity.
  - split; [intros H; discriminate H | intros H; discriminate H].
  - split; [ | intros H; discriminate H].
    destruct (SQLAgent.qa_agent (Orchestrator.sql_agent self)) as [qa | ];
      [destruct (if CalendarAgent.success _ then _ else _) as [ | ev evs] | ];
      intros H; discriminate H.
Qed.

Lemma query_silent_only_on_empty_sql_witness :
  Orchestrator.query (orchestrator_replying (CallReturns [Some "``````"]))
    upcoming (utc_now morning) morning Cache.empty "what is on today" = [].
Proof.
  apply (proj2 (query_silent_only_on_empty_sql
                  (orchestrator_replying (CallReturns [Some "``````"]))
                  upcoming (utc_now morning) morning Cache.empty
                  "what is on today")).
  reflexivity.
Defined.
